(** * snd-rane-sl3: a shallow embedding of the Rane SL3 ALSA driver

    The development follows the driver's translation units:
    - [sl3.h]        constants and data structures,
    - [sl3_hid.c]    HID report framing, IN dispatch, command path,
    - [sl3_urb.c]    packet sizing, URB fill, start/stop, completions,
    - [sl3_pcm.c]    PCM trigger and the rate switching sequence,
    - [sl3_control.c] the routing control,
    - [sl3_main.c]   probe.

    C integers are modelled as [Z] with the wrap-around of [unsigned int]
    written out ([u32]); bytes are [Byte.byte]; arrays are lists indexed with
    stdpp's lookup and insert.  Calls into the USB core and into ALSA are
    recorded in an event log, and their results are supplied by an explicit
    environment argument. *)

From Stdlib Require Import ZArith List Bool Lia.
From Stdlib.Strings Require Import Byte.
From stdpp Require Import base list.
Import ListNotations.

Local Open Scope Z_scope.

(** ** Machine integers and bytes *)

Definition u32 (z : Z) : Z := z mod 2 ^ 32.

Definition u8_of_Z (z : Z) : byte :=
  match Byte.of_N (Z.to_N (z mod 256)) with
  | Some b => b
  | None => x00
  end.

Definition Z_of_u8 (b : byte) : Z := Z.of_N (Byte.to_N b).

(** ** Memory helpers

    [memset] and [memcpy] on a buffer held as a list.  The destination keeps
    its length as long as the written range lies inside it, which is the only
    case the C code is defined for. *)

Definition write_at (dst : list byte) (off : nat) (src : list byte) : list byte :=
  take off dst ++ src ++ drop (off + length src) dst.

Definition read_bytes (src : list byte) (off n : nat) : list byte :=
  take n (drop off src ++ repeat x00 n).

Definition memset (dst : list byte) (off : nat) (c : byte) (n : nat) : list byte :=
  write_at dst off (repeat c n).

Definition memcpy (dst : list byte) (doff : nat) (src : list byte) (soff n : nat)
  : list byte :=
  write_at dst doff (read_bytes src soff n).

(** ** Constants of [sl3.h] *)

Definition SL3_VENDOR_ID : Z := 0x1CC5.
Definition SL3_PRODUCT_ID : Z := 0x0001.

Definition SL3_NUM_CHANNELS : Z := 6.
Definition SL3_BYTES_PER_FRAME : Z := 18.
Definition SL3_MAX_PACKET_SIZE : Z := 126.

Definition SL3_NUM_URBS : nat := 16.
Definition SL3_ISO_PACKETS : Z := 8.
Definition SL3_URB_MAX_RETRIES : Z := 3.

Definition SL3_INTF_AUDIO_CTRL : Z := 0.

Definition SL3_HID_CMD_INIT : byte := x03.
Definition SL3_HID_CMD_SAMPLE_RATE : byte := x31.
Definition SL3_HID_CMD_ROUTING : byte := x33.
Definition SL3_HID_CMD_QUERY_PHONO : byte := x32.
Definition SL3_HID_CMD_STATUS : byte := x36.

Definition SL3_HID_NOTIFY_OVERLOAD : byte := x34.
Definition SL3_HID_NOTIFY_PHONO : byte := x38.
Definition SL3_HID_NOTIFY_USB_PORT : byte := x39.

Definition SL3_PAIR_DECK_A : Z := 0x08.
Definition SL3_PAIR_DECK_B : Z := 0x0E.
Definition SL3_PAIR_DECK_C : Z := 0x14.

Definition SL3_ROUTE_ANALOG : byte := x00.
Definition SL3_ROUTE_USB : byte := x01.

Definition SL3_HID_REPORT_SIZE : Z := 64.

(** Kernel error numbers used by the driver (returned negated). *)

Definition ENOENT : Z := 2.
Definition ENOMEM : Z := 12.
Definition EBUSY : Z := 16.
Definition ENODEV : Z := 19.
Definition EINVAL : Z := 22.
Definition EPIPE : Z := 32.
Definition EOVERFLOW : Z := 75.
Definition ECONNRESET : Z := 104.
Definition ESHUTDOWN : Z := 108.
Definition ETIMEDOUT : Z := 110.

(** ** Data structures of [sl3.h]

    Pointers that may be NULL become options or booleans; locks, mutexes and
    kernel handles carry no data and are left out. *)

Inductive direction := Playback | Capture.

(** The part of ALSA's [struct snd_pcm_runtime] the driver reads or writes. *)
Record snd_pcm_runtime := {
  dma_area : option (list byte);
  buffer_size : Z;
  period_size : Z;
  frame_bits : Z }.

Record snd_pcm_substream := { runtime : option snd_pcm_runtime }.

(** One isochronous packet descriptor of a URB. *)
Record iso_packet := {
  iso_offset : Z;
  iso_length : Z;
  iso_actual_length : Z }.

(** [struct sl3_urb_ctx] together with the fields of its [struct urb].
    [urb_allocated] is [ctx->urb != NULL]; [urb_in_flight] is the USB core's
    view: set by a successful [usb_submit_urb], cleared when the URB is given
    back to its completion handler or killed. *)
Record sl3_urb_ctx := {
  urb_allocated : bool;
  urb_in_flight : bool;
  iso_frame_desc : list iso_packet;
  transfer_buffer_length : Z;
  buffer : list byte;
  error_retries : Z }.

Record sl3_stream := {
  substream : option snd_pcm_substream;
  urbs : list sl3_urb_ctx;
  hwptr : Z;
  transfer_done : Z;
  running : bool }.

Record sl3_device := {
  playback : sl3_stream;
  capture : sl3_stream;
  current_rate : Z;
  routing : list byte;
  feedback_samples : Z;
  sample_accumulator : Z;
  hid_out_buf : list byte;
  hid_response_done : Z;
  hid_response_buf : list byte;
  overload_status : list byte;
  phono_status : list byte;
  usb_port_status : list byte;
  card : bool;
  overload_ctl : bool;
  phono_ctl : bool;
  play_urbs_completed : Z;
  cap_urbs_completed : Z;
  play_underruns : Z;
  cap_overruns : Z;
  disconnected : bool }.

(** Field updates. *)

Definition set_urb_allocated (v : bool) (x : sl3_urb_ctx) : sl3_urb_ctx :=
  {| urb_allocated := v; urb_in_flight := urb_in_flight x; iso_frame_desc :=
     iso_frame_desc x; transfer_buffer_length := transfer_buffer_length x;
     buffer := buffer x; error_retries := error_retries x |}.

Definition set_urb_in_flight (v : bool) (x : sl3_urb_ctx) : sl3_urb_ctx :=
  {| urb_allocated := urb_allocated x; urb_in_flight := v; iso_frame_desc :=
     iso_frame_desc x; transfer_buffer_length := transfer_buffer_length x;
     buffer := buffer x; error_retries := error_retries x |}.

Definition set_iso_frame_desc (v : list iso_packet) (x : sl3_urb_ctx) : sl3_urb_ctx :=
  {| urb_allocated := urb_allocated x; urb_in_flight := urb_in_flight x;
     iso_frame_desc := v; transfer_buffer_length := transfer_buffer_length x;
     buffer := buffer x; error_retries := error_retries x |}.

Definition set_transfer_buffer_length (v : Z) (x : sl3_urb_ctx) : sl3_urb_ctx :=
  {| urb_allocated := urb_allocated x; urb_in_flight := urb_in_flight x;
     iso_frame_desc := iso_frame_desc x; transfer_buffer_length := v; buffer
     := buffer x; error_retries := error_retries x |}.

Definition set_buffer (v : list byte) (x : sl3_urb_ctx) : sl3_urb_ctx :=
  {| urb_allocated := urb_allocated x; urb_in_flight := urb_in_flight x;
     iso_frame_desc := iso_frame_desc x; transfer_buffer_length :=
     transfer_buffer_length x; buffer := v; error_retries := error_retries x
     |}.

Definition set_error_retries (v : Z) (x : sl3_urb_ctx) : sl3_urb_ctx :=
  {| urb_allocated := urb_allocated x; urb_in_flight := urb_in_flight x;
     iso_frame_desc := iso_frame_desc x; transfer_buffer_length :=
     transfer_buffer_length x; buffer := buffer x; error_retries := v |}.

Definition set_substream (v : option snd_pcm_substream) (x : sl3_stream) : sl3_stream :=
  {| substream := v; urbs := urbs x; hwptr := hwptr x; transfer_done :=
     transfer_done x; running := running x |}.

Definition set_urbs (v : list sl3_urb_ctx) (x : sl3_stream) : sl3_stream :=
  {| substream := substream x; urbs := v; hwptr := hwptr x; transfer_done :=
     transfer_done x; running := running x |}.

Definition set_hwptr (v : Z) (x : sl3_stream) : sl3_stream :=
  {| substream := substream x; urbs := urbs x; hwptr := v; transfer_done :=
     transfer_done x; running := running x |}.

Definition set_transfer_done (v : Z) (x : sl3_stream) : sl3_stream :=
  {| substream := substream x; urbs := urbs x; hwptr := hwptr x; transfer_done
     := v; running := running x |}.

Definition set_running (v : bool) (x : sl3_stream) : sl3_stream :=
  {| substream := substream x; urbs := urbs x; hwptr := hwptr x; transfer_done
     := transfer_done x; running := v |}.

Definition set_playback (v : sl3_stream) (x : sl3_device) : sl3_device :=
  {| playback := v; capture := capture x; current_rate := current_rate x;
     routing := routing x; feedback_samples := feedback_samples x;
     sample_accumulator := sample_accumulator x; hid_out_buf := hid_out_buf x;
     hid_response_done := hid_response_done x; hid_response_buf :=
     hid_response_buf x; overload_status := overload_status x; phono_status :=
     phono_status x; usb_port_status := usb_port_status x; card := card x;
     overload_ctl := overload_ctl x; phono_ctl := phono_ctl x;
     play_urbs_completed := play_urbs_completed x; cap_urbs_completed :=
     cap_urbs_completed x; play_underruns := play_underruns x; cap_overruns :=
     cap_overruns x; disconnected := disconnected x |}.

Definition set_capture (v : sl3_stream) (x : sl3_device) : sl3_device :=
  {| playback := playback x; capture := v; current_rate := current_rate x;
     routing := routing x; feedback_samples := feedback_samples x;
     sample_accumulator := sample_accumulator x; hid_out_buf := hid_out_buf x;
     hid_response_done := hid_response_done x; hid_response_buf :=
     hid_response_buf x; overload_status := overload_status x; phono_status :=
     phono_status x; usb_port_status := usb_port_status x; card := card x;
     overload_ctl := overload_ctl x; phono_ctl := phono_ctl x;
     play_urbs_completed := play_urbs_completed x; cap_urbs_completed :=
     cap_urbs_completed x; play_underruns := play_underruns x; cap_overruns :=
     cap_overruns x; disconnected := disconnected x |}.

Definition set_current_rate (v : Z) (x : sl3_device) : sl3_device :=
  {| playback := playback x; capture := capture x; current_rate := v; routing
     := routing x; feedback_samples := feedback_samples x; sample_accumulator
     := sample_accumulator x; hid_out_buf := hid_out_buf x; hid_response_done
     := hid_response_done x; hid_response_buf := hid_response_buf x;
     overload_status := overload_status x; phono_status := phono_status x;
     usb_port_status := usb_port_status x; card := card x; overload_ctl :=
     overload_ctl x; phono_ctl := phono_ctl x; play_urbs_completed :=
     play_urbs_completed x; cap_urbs_completed := cap_urbs_completed x;
     play_underruns := play_underruns x; cap_overruns := cap_overruns x;
     disconnected := disconnected x |}.

Definition set_routing (v : list byte) (x : sl3_device) : sl3_device :=
  {| playback := playback x; capture := capture x; current_rate :=
     current_rate x; routing := v; feedback_samples := feedback_samples x;
     sample_accumulator := sample_accumulator x; hid_out_buf := hid_out_buf x;
     hid_response_done := hid_response_done x; hid_response_buf :=
     hid_response_buf x; overload_status := overload_status x; phono_status :=
     phono_status x; usb_port_status := usb_port_status x; card := card x;
     overload_ctl := overload_ctl x; phono_ctl := phono_ctl x;
     play_urbs_completed := play_urbs_completed x; cap_urbs_completed :=
     cap_urbs_completed x; play_underruns := play_underruns x; cap_overruns :=
     cap_overruns x; disconnected := disconnected x |}.

Definition set_feedback_samples (v : Z) (x : sl3_device) : sl3_device :=
  {| playback := playback x; capture := capture x; current_rate :=
     current_rate x; routing := routing x; feedback_samples := v;
     sample_accumulator := sample_accumulator x; hid_out_buf := hid_out_buf x;
     hid_response_done := hid_response_done x; hid_response_buf :=
     hid_response_buf x; overload_status := overload_status x; phono_status :=
     phono_status x; usb_port_status := usb_port_status x; card := card x;
     overload_ctl := overload_ctl x; phono_ctl := phono_ctl x;
     play_urbs_completed := play_urbs_completed x; cap_urbs_completed :=
     cap_urbs_completed x; play_underruns := play_underruns x; cap_overruns :=
     cap_overruns x; disconnected := disconnected x |}.

Definition set_sample_accumulator (v : Z) (x : sl3_device) : sl3_device :=
  {| playback := playback x; capture := capture x; current_rate :=
     current_rate x; routing := routing x; feedback_samples :=
     feedback_samples x; sample_accumulator := v; hid_out_buf := hid_out_buf
     x; hid_response_done := hid_response_done x; hid_response_buf :=
     hid_response_buf x; overload_status := overload_status x; phono_status :=
     phono_status x; usb_port_status := usb_port_status x; card := card x;
     overload_ctl := overload_ctl x; phono_ctl := phono_ctl x;
     play_urbs_completed := play_urbs_completed x; cap_urbs_completed :=
     cap_urbs_completed x; play_underruns := play_underruns x; cap_overruns :=
     cap_overruns x; disconnected := disconnected x |}.

Definition set_hid_out_buf (v : list byte) (x : sl3_device) : sl3_device :=
  {| playback := playback x; capture := capture x; current_rate :=
     current_rate x; routing := routing x; feedback_samples :=
     feedback_samples x; sample_accumulator := sample_accumulator x;
     hid_out_buf := v; hid_response_done := hid_response_done x;
     hid_response_buf := hid_response_buf x; overload_status :=
     overload_status x; phono_status := phono_status x; usb_port_status :=
     usb_port_status x; card := card x; overload_ctl := overload_ctl x;
     phono_ctl := phono_ctl x; play_urbs_completed := play_urbs_completed x;
     cap_urbs_completed := cap_urbs_completed x; play_underruns :=
     play_underruns x; cap_overruns := cap_overruns x; disconnected :=
     disconnected x |}.

Definition set_hid_response_done (v : Z) (x : sl3_device) : sl3_device :=
  {| playback := playback x; capture := capture x; current_rate :=
     current_rate x; routing := routing x; feedback_samples :=
     feedback_samples x; sample_accumulator := sample_accumulator x;
     hid_out_buf := hid_out_buf x; hid_response_done := v; hid_response_buf :=
     hid_response_buf x; overload_status := overload_status x; phono_status :=
     phono_status x; usb_port_status := usb_port_status x; card := card x;
     overload_ctl := overload_ctl x; phono_ctl := phono_ctl x;
     play_urbs_completed := play_urbs_completed x; cap_urbs_completed :=
     cap_urbs_completed x; play_underruns := play_underruns x; cap_overruns :=
     cap_overruns x; disconnected := disconnected x |}.

Definition set_hid_response_buf (v : list byte) (x : sl3_device) : sl3_device :=
  {| playback := playback x; capture := capture x; current_rate :=
     current_rate x; routing := routing x; feedback_samples :=
     feedback_samples x; sample_accumulator := sample_accumulator x;
     hid_out_buf := hid_out_buf x; hid_response_done := hid_response_done x;
     hid_response_buf := v; overload_status := overload_status x; phono_status
     := phono_status x; usb_port_status := usb_port_status x; card := card x;
     overload_ctl := overload_ctl x; phono_ctl := phono_ctl x;
     play_urbs_completed := play_urbs_completed x; cap_urbs_completed :=
     cap_urbs_completed x; play_underruns := play_underruns x; cap_overruns :=
     cap_overruns x; disconnected := disconnected x |}.

Definition set_overload_status (v : list byte) (x : sl3_device) : sl3_device :=
  {| playback := playback x; capture := capture x; current_rate :=
     current_rate x; routing := routing x; feedback_samples :=
     feedback_samples x; sample_accumulator := sample_accumulator x;
     hid_out_buf := hid_out_buf x; hid_response_done := hid_response_done x;
     hid_response_buf := hid_response_buf x; overload_status := v;
     phono_status := phono_status x; usb_port_status := usb_port_status x;
     card := card x; overload_ctl := overload_ctl x; phono_ctl := phono_ctl x;
     play_urbs_completed := play_urbs_completed x; cap_urbs_completed :=
     cap_urbs_completed x; play_underruns := play_underruns x; cap_overruns :=
     cap_overruns x; disconnected := disconnected x |}.

Definition set_phono_status (v : list byte) (x : sl3_device) : sl3_device :=
  {| playback := playback x; capture := capture x; current_rate :=
     current_rate x; routing := routing x; feedback_samples :=
     feedback_samples x; sample_accumulator := sample_accumulator x;
     hid_out_buf := hid_out_buf x; hid_response_done := hid_response_done x;
     hid_response_buf := hid_response_buf x; overload_status :=
     overload_status x; phono_status := v; usb_port_status := usb_port_status
     x; card := card x; overload_ctl := overload_ctl x; phono_ctl := phono_ctl
     x; play_urbs_completed := play_urbs_completed x; cap_urbs_completed :=
     cap_urbs_completed x; play_underruns := play_underruns x; cap_overruns :=
     cap_overruns x; disconnected := disconnected x |}.

Definition set_usb_port_status (v : list byte) (x : sl3_device) : sl3_device :=
  {| playback := playback x; capture := capture x; current_rate :=
     current_rate x; routing := routing x; feedback_samples :=
     feedback_samples x; sample_accumulator := sample_accumulator x;
     hid_out_buf := hid_out_buf x; hid_response_done := hid_response_done x;
     hid_response_buf := hid_response_buf x; overload_status :=
     overload_status x; phono_status := phono_status x; usb_port_status := v;
     card := card x; overload_ctl := overload_ctl x; phono_ctl := phono_ctl x;
     play_urbs_completed := play_urbs_completed x; cap_urbs_completed :=
     cap_urbs_completed x; play_underruns := play_underruns x; cap_overruns :=
     cap_overruns x; disconnected := disconnected x |}.

Definition set_card (v : bool) (x : sl3_device) : sl3_device :=
  {| playback := playback x; capture := capture x; current_rate :=
     current_rate x; routing := routing x; feedback_samples :=
     feedback_samples x; sample_accumulator := sample_accumulator x;
     hid_out_buf := hid_out_buf x; hid_response_done := hid_response_done x;
     hid_response_buf := hid_response_buf x; overload_status :=
     overload_status x; phono_status := phono_status x; usb_port_status :=
     usb_port_status x; card := v; overload_ctl := overload_ctl x; phono_ctl
     := phono_ctl x; play_urbs_completed := play_urbs_completed x;
     cap_urbs_completed := cap_urbs_completed x; play_underruns :=
     play_underruns x; cap_overruns := cap_overruns x; disconnected :=
     disconnected x |}.

Definition set_overload_ctl (v : bool) (x : sl3_device) : sl3_device :=
  {| playback := playback x; capture := capture x; current_rate :=
     current_rate x; routing := routing x; feedback_samples :=
     feedback_samples x; sample_accumulator := sample_accumulator x;
     hid_out_buf := hid_out_buf x; hid_response_done := hid_response_done x;
     hid_response_buf := hid_response_buf x; overload_status :=
     overload_status x; phono_status := phono_status x; usb_port_status :=
     usb_port_status x; card := card x; overload_ctl := v; phono_ctl :=
     phono_ctl x; play_urbs_completed := play_urbs_completed x;
     cap_urbs_completed := cap_urbs_completed x; play_underruns :=
     play_underruns x; cap_overruns := cap_overruns x; disconnected :=
     disconnected x |}.

Definition set_phono_ctl (v : bool) (x : sl3_device) : sl3_device :=
  {| playback := playback x; capture := capture x; current_rate :=
     current_rate x; routing := routing x; feedback_samples :=
     feedback_samples x; sample_accumulator := sample_accumulator x;
     hid_out_buf := hid_out_buf x; hid_response_done := hid_response_done x;
     hid_response_buf := hid_response_buf x; overload_status :=
     overload_status x; phono_status := phono_status x; usb_port_status :=
     usb_port_status x; card := card x; overload_ctl := overload_ctl x;
     phono_ctl := v; play_urbs_completed := play_urbs_completed x;
     cap_urbs_completed := cap_urbs_completed x; play_underruns :=
     play_underruns x; cap_overruns := cap_overruns x; disconnected :=
     disconnected x |}.

Definition set_play_urbs_completed (v : Z) (x : sl3_device) : sl3_device :=
  {| playback := playback x; capture := capture x; current_rate :=
     current_rate x; routing := routing x; feedback_samples :=
     feedback_samples x; sample_accumulator := sample_accumulator x;
     hid_out_buf := hid_out_buf x; hid_response_done := hid_response_done x;
     hid_response_buf := hid_response_buf x; overload_status :=
     overload_status x; phono_status := phono_status x; usb_port_status :=
     usb_port_status x; card := card x; overload_ctl := overload_ctl x;
     phono_ctl := phono_ctl x; play_urbs_completed := v; cap_urbs_completed :=
     cap_urbs_completed x; play_underruns := play_underruns x; cap_overruns :=
     cap_overruns x; disconnected := disconnected x |}.

Definition set_cap_urbs_completed (v : Z) (x : sl3_device) : sl3_device :=
  {| playback := playback x; capture := capture x; current_rate :=
     current_rate x; routing := routing x; feedback_samples :=
     feedback_samples x; sample_accumulator := sample_accumulator x;
     hid_out_buf := hid_out_buf x; hid_response_done := hid_response_done x;
     hid_response_buf := hid_response_buf x; overload_status :=
     overload_status x; phono_status := phono_status x; usb_port_status :=
     usb_port_status x; card := card x; overload_ctl := overload_ctl x;
     phono_ctl := phono_ctl x; play_urbs_completed := play_urbs_completed x;
     cap_urbs_completed := v; play_underruns := play_underruns x; cap_overruns
     := cap_overruns x; disconnected := disconnected x |}.

Definition set_play_underruns (v : Z) (x : sl3_device) : sl3_device :=
  {| playback := playback x; capture := capture x; current_rate :=
     current_rate x; routing := routing x; feedback_samples :=
     feedback_samples x; sample_accumulator := sample_accumulator x;
     hid_out_buf := hid_out_buf x; hid_response_done := hid_response_done x;
     hid_response_buf := hid_response_buf x; overload_status :=
     overload_status x; phono_status := phono_status x; usb_port_status :=
     usb_port_status x; card := card x; overload_ctl := overload_ctl x;
     phono_ctl := phono_ctl x; play_urbs_completed := play_urbs_completed x;
     cap_urbs_completed := cap_urbs_completed x; play_underruns := v;
     cap_overruns := cap_overruns x; disconnected := disconnected x |}.

Definition set_cap_overruns (v : Z) (x : sl3_device) : sl3_device :=
  {| playback := playback x; capture := capture x; current_rate :=
     current_rate x; routing := routing x; feedback_samples :=
     feedback_samples x; sample_accumulator := sample_accumulator x;
     hid_out_buf := hid_out_buf x; hid_response_done := hid_response_done x;
     hid_response_buf := hid_response_buf x; overload_status :=
     overload_status x; phono_status := phono_status x; usb_port_status :=
     usb_port_status x; card := card x; overload_ctl := overload_ctl x;
     phono_ctl := phono_ctl x; play_urbs_completed := play_urbs_completed x;
     cap_urbs_completed := cap_urbs_completed x; play_underruns :=
     play_underruns x; cap_overruns := v; disconnected := disconnected x |}.

Definition set_disconnected (v : bool) (x : sl3_device) : sl3_device :=
  {| playback := playback x; capture := capture x; current_rate :=
     current_rate x; routing := routing x; feedback_samples :=
     feedback_samples x; sample_accumulator := sample_accumulator x;
     hid_out_buf := hid_out_buf x; hid_response_done := hid_response_done x;
     hid_response_buf := hid_response_buf x; overload_status :=
     overload_status x; phono_status := phono_status x; usb_port_status :=
     usb_port_status x; card := card x; overload_ctl := overload_ctl x;
     phono_ctl := phono_ctl x; play_urbs_completed := play_urbs_completed x;
     cap_urbs_completed := cap_urbs_completed x; play_underruns :=
     play_underruns x; cap_overruns := cap_overruns x; disconnected := v |}.

Definition stream_of (dir : direction) (d : sl3_device) : sl3_stream :=
  match dir with Playback => playback d | Capture => capture d end.

Definition set_stream (dir : direction) (s : sl3_stream) (d : sl3_device)
  : sl3_device :=
  match dir with Playback => set_playback s d | Capture => set_capture s d end.

Definition upd_stream (dir : direction) (f : sl3_stream -> sl3_stream)
    (d : sl3_device) : sl3_device :=
  set_stream dir (f (stream_of dir d)) d.

Definition upd_urb (dir : direction) (idx : nat)
    (f : sl3_urb_ctx -> sl3_urb_ctx) (d : sl3_device) : sl3_device :=
  upd_stream dir (fun s => set_urbs (alter f idx (urbs s)) s) d.

(** The URB context [stream->urbs[idx]]; the default stands for an
    unallocated slot and is never reached for [idx < SL3_NUM_URBS]. *)
Definition null_urb : sl3_urb_ctx :=
  {| urb_allocated := false; urb_in_flight := false; iso_frame_desc := [];
     transfer_buffer_length := 0; buffer := []; error_retries := 0 |}.

Definition urb_of (dir : direction) (idx : nat) (d : sl3_device) : sl3_urb_ctx :=
  default null_urb (urbs (stream_of dir d) !! idx).

Definition runtime_of (s : sl3_stream) : option snd_pcm_runtime :=
  match substream s with
  | Some sub => runtime sub
  | None => None
  end.

(** ** Calls out of the driver

    Every call into the USB core or ALSA that the claims talk about is
    recorded, in program order. *)

Inductive ctl_id := OverloadStatusCtl | PhonoSwitchStatusCtl.

Inductive event :=
| EvHidOut (report : list byte)
| EvHidInSubmit
| EvHidComplete
| EvCtlNotify (c : ctl_id)
| EvClearHalt
| EvSubmit (dir : direction) (idx : nat)
| EvKill (dir : direction) (idx : nat)
| EvPeriodElapsed (dir : direction)
| EvStopXrun (dir : direction)
| EvMsleep (ms : Z).

(** Driver code runs in a state-and-log monad over the device structure. *)

Definition M (A : Type) : Type := sl3_device -> A * sl3_device * list event.

Definition ret {A} (a : A) : M A := fun d => (a, d, []).

Definition bind {A B} (m : M A) (k : A -> M B) : M B :=
  fun d =>
    let r1 := m d in
    let r2 := k (fst (fst r1)) (snd (fst r1)) in
    (fst (fst r2), snd (fst r2), snd r1 ++ snd r2).

Definition gets {A} (f : sl3_device -> A) : M A := fun d => (f d, d, []).
Definition modify (f : sl3_device -> sl3_device) : M unit := fun d => (tt, f d, []).
Definition emit (e : event) : M unit := fun d => (tt, d, [e]).

Definition retval {A} (r : A * sl3_device * list event) : A := fst (fst r).
Definition state {A} (r : A * sl3_device * list event) : sl3_device := snd (fst r).
Definition events {A} (r : A * sl3_device * list event) : list event := snd r.

Declare Scope sl3_scope.
Delimit Scope sl3_scope with sl3.
Notation "x <- c ;; k" := (bind c (fun x => k))
  (at level 100, c at next level, right associativity) : sl3_scope.
Notation "c ;; k" := (bind c (fun _ => k))
  (at level 100, right associativity) : sl3_scope.
Local Open Scope sl3_scope.

Definition when (b : bool) (m : M unit) : M unit := if b then m else ret tt.

(** ** [sl3_hid.c]: report framing *)

Definition sl3_hid_build_report (buf : list byte) (cmd : byte)
    (payload : option (list byte)) (payload_len : Z) : list byte :=
  let buf := memset buf 0 x00 (Z.to_nat SL3_HID_REPORT_SIZE) in
  let buf := <[0%nat := cmd]> buf in
  let buf := <[1%nat := u8_of_Z (Z.land (Z.shiftr SL3_VENDOR_ID 8) 0xff)]> buf in
  let buf := <[2%nat := u8_of_Z (Z.land SL3_VENDOR_ID 0xff)]> buf in
  let buf := <[3%nat := u8_of_Z (Z.land (Z.shiftr SL3_PRODUCT_ID 8) 0xff)]> buf in
  let buf := <[4%nat := u8_of_Z (Z.land SL3_PRODUCT_ID 0xff)]> buf in
  match payload with
  | Some p =>
      if 0 <? payload_len
      then memcpy buf 5 p 0
             (Z.to_nat (Z.min payload_len (SL3_HID_REPORT_SIZE - 5)))
      else buf
  | None => buf
  end.

(** ** [sl3_hid.c]: IN URB completion

    [status], [actual_length] and [data] are the URB status, the received
    length and the contents of [dev->hid_in_buf] when the handler runs. *)

(** The [resubmit:] label. *)
Definition hid_in_resubmit : M unit :=
  gone <- gets disconnected;;
  when (negb gone) (emit EvHidInSubmit).

(** The [switch (data[0])] of the handler. *)
Definition hid_in_dispatch (actual_length : Z) (data : list byte) : M unit :=
  let code := nth 0 data x00 in
  if Byte.eqb code SL3_HID_NOTIFY_OVERLOAD then
    when (11 <=? actual_length)
      (modify (fun d => set_overload_status
                          (memcpy (overload_status d) 0 data 5 6) d);;
       c <- gets card;;
       k <- gets overload_ctl;;
       when (c && k) (emit (EvCtlNotify OverloadStatusCtl)))
  else if Byte.eqb code SL3_HID_NOTIFY_PHONO then
    when (8 <=? actual_length)
      (modify (fun d => set_phono_status
                          (memcpy (phono_status d) 0 data 5 3) d);;
       c <- gets card;;
       k <- gets phono_ctl;;
       when (c && k) (emit (EvCtlNotify PhonoSwitchStatusCtl)))
  else if Byte.eqb code SL3_HID_NOTIFY_USB_PORT then
    when (9 <=? actual_length)
      (modify (fun d => set_usb_port_status
                          (memcpy (usb_port_status d) 0 data 5 4) d))
  else
    modify (fun d => set_hid_response_buf
                       (memcpy (hid_response_buf d) 0 data 0
                          (Z.to_nat (Z.min actual_length SL3_HID_REPORT_SIZE)))
                       d);;
    modify (fun d => set_hid_response_done (hid_response_done d + 1) d);;
    emit EvHidComplete.

Definition sl3_hid_in_complete (status actual_length : Z) (data : list byte)
  : M unit :=
  if status =? 0 then
    (if actual_length <? 1 then ret tt
     else hid_in_dispatch actual_length data);;
    hid_in_resubmit
  else if (status =? - ENOENT) || (status =? - ECONNRESET) then ret tt
  else if status =? - ESHUTDOWN then modify (set_disconnected true)
  else if status =? - EOVERFLOW then hid_in_resubmit
  else if status =? - EPIPE then emit EvClearHalt;; hid_in_resubmit
  else hid_in_resubmit.

(** ** [sl3_hid.c]: command path

    The environment of one command: the result of [usb_interrupt_msg], and
    the IN completions the host controller delivers while the caller sleeps
    in [wait_for_completion_timeout]. *)

Record hid_in_urb := {
  in_status : Z;
  in_actual_length : Z;
  in_data : list byte }.

Record hid_env := {
  he_usb_err : Z;
  he_in : list hid_in_urb }.

Fixpoint hid_deliver (ins : list hid_in_urb) : M unit :=
  match ins with
  | [] => ret tt
  | u :: rest =>
      sl3_hid_in_complete (in_status u) (in_actual_length u) (in_data u);;
      hid_deliver rest
  end.

Definition SL3_HID_RESP_TIMEOUT_MS : Z := 500.

Definition sl3_hid_send_cmd_locked (env : hid_env) (cmd : byte)
    (payload : option (list byte)) (payload_len : Z) (wait_response : bool)
  : M Z :=
  gone <- gets disconnected;;
  if gone then ret (- ENODEV)
  else
    modify (fun d => set_hid_out_buf
                       (sl3_hid_build_report (hid_out_buf d) cmd payload
                          payload_len) d);;
    when wait_response (modify (set_hid_response_done 0));;
    out <- gets hid_out_buf;;
    emit (EvHidOut out);;
    if negb (he_usb_err env =? 0) then ret (he_usb_err env)
    else if wait_response then
      hid_deliver (he_in env);;
      done <- gets hid_response_done;;
      if 0 <? done
      then modify (fun d => set_hid_response_done (hid_response_done d - 1) d);;
           ret 0
      else ret (- ETIMEDOUT)
    else ret 0.

Definition sl3_hid_set_sample_rate (env : hid_env) (rate : Z) : M Z :=
  if negb (rate =? 44100) && negb (rate =? 48000) then ret (- EINVAL)
  else
    let payload := [u8_of_Z (Z.land (Z.shiftr rate 8) 0xff);
                    u8_of_Z (Z.land rate 0xff)] in
    err <- sl3_hid_send_cmd_locked env SL3_HID_CMD_SAMPLE_RATE
             (Some payload) 2 true;;
    when (err =? 0) (modify (set_current_rate rate));;
    ret err.

Definition sl3_hid_set_routing (env : hid_env) (pair mode : Z) : M Z :=
  let payload := [u8_of_Z pair; x01; u8_of_Z mode] in
  sl3_hid_send_cmd_locked env SL3_HID_CMD_ROUTING (Some payload) 3 false.

Definition sl3_hid_query_phono (env : hid_env) : M Z :=
  err <- sl3_hid_send_cmd_locked env SL3_HID_CMD_QUERY_PHONO None 0 true;;
  when (err =? 0)
    (modify (fun d => set_phono_status
                        (memcpy (phono_status d) 0 (hid_response_buf d) 5 3) d));;
  ret err.

(** [sl3_hid_init].  The allocations and the first submission of the IN URB
    succeed or fail as the environment says; [kmalloc] memory is modelled as
    zero-filled (every use overwrites it first). *)

Record hid_init_env := {
  hi_out_buf_ok : bool;
  hi_in_urb_ok : bool;
  hi_in_buf_ok : bool;
  hi_submit_err : Z;
  hi_init : hid_env;
  hi_status : hid_env;
  hi_rate : hid_env;
  hi_phono : hid_env }.

Definition sl3_hid_init (env : hid_init_env) : M Z :=
  if negb (hi_out_buf_ok env) then ret (- ENOMEM)
  else
    modify (set_hid_out_buf (repeat x00 (Z.to_nat SL3_HID_REPORT_SIZE)));;
    if negb (hi_in_urb_ok env) then
      modify (set_hid_out_buf []);; ret (- ENOMEM)
    else if negb (hi_in_buf_ok env) then
      modify (set_hid_out_buf []);; ret (- ENOMEM)
    else if negb (hi_submit_err env =? 0) then
      modify (set_hid_out_buf []);; ret (hi_submit_err env)
    else
      emit EvHidInSubmit;;
      _ <- sl3_hid_send_cmd_locked (hi_init env) SL3_HID_CMD_INIT
             (Some [x00]) 1 true;;
      _ <- sl3_hid_send_cmd_locked (hi_status env) SL3_HID_CMD_STATUS
             (Some [x01]) 1 true;;
      rate <- gets current_rate;;
      _ <- sl3_hid_send_cmd_locked (hi_rate env) SL3_HID_CMD_SAMPLE_RATE
             (Some [u8_of_Z (Z.land (Z.shiftr rate 8) 0xff);
                    u8_of_Z (Z.land rate 0xff)]) 2 true;;
      err <- sl3_hid_send_cmd_locked (hi_phono env) SL3_HID_CMD_QUERY_PHONO
               None 0 true;;
      when (err =? 0)
        (modify (fun d => set_phono_status
                            (memcpy (phono_status d) 0 (hid_response_buf d) 5 3)
                            d));;
      emit (EvMsleep 100);;
      ret 0.

(** ** [sl3_urb.c]: packet sizing *)

Definition SL3_URB_BUFFER_SIZE : Z := SL3_ISO_PACKETS * SL3_MAX_PACKET_SIZE.

Definition SL3_SAMPLES_48K : Z := 6.
Definition SL3_SAMPLES_44K_BASE : Z := 5.
Definition SL3_FRAC_NUM : Z := 4100.
Definition SL3_FRAC_DENOM : Z := 8000.

Definition sl3_next_packet_samples : M Z :=
  rate <- gets current_rate;;
  if rate =? 48000 then ret SL3_SAMPLES_48K
  else
    modify (fun d => set_sample_accumulator
                       (u32 (sample_accumulator d + SL3_FRAC_NUM)) d);;
    acc <- gets sample_accumulator;;
    if SL3_FRAC_DENOM <=? acc then
      modify (set_sample_accumulator (u32 (acc - SL3_FRAC_DENOM)));;
      ret (SL3_SAMPLES_44K_BASE + 1)
    else ret SL3_SAMPLES_44K_BASE.

(** [urb->iso_frame_desc[i].offset = offset; .length = bytes]. *)
Definition set_iso_desc (i : nat) (offset len : Z) (u : sl3_urb_ctx)
  : sl3_urb_ctx :=
  set_iso_frame_desc
    (alter (fun p => {| iso_offset := offset; iso_length := len;
                        iso_actual_length := iso_actual_length p |})
       i (iso_frame_desc u)) u.

(** The playback loops run [i] from [SL3_ISO_PACKETS - n] up to
    [SL3_ISO_PACKETS - 1]; [n] counts the packets still to do. *)
Fixpoint prepare_playback_loop (idx : nat) (n : nat) (offset : Z) : M Z :=
  match n with
  | O => ret offset
  | S n' =>
      let i := (Z.to_nat SL3_ISO_PACKETS - n)%nat in
      samples <- sl3_next_packet_samples;;
      let bytes := u32 (samples * SL3_BYTES_PER_FRAME) in
      modify (upd_urb Playback idx (set_iso_desc i offset bytes));;
      prepare_playback_loop idx n' (u32 (offset + bytes))
  end.

Definition sl3_prepare_playback_urb (idx : nat) : M unit :=
  modify (upd_urb Playback idx
            (fun u => set_buffer
                        (memset (buffer u) 0 x00 (Z.to_nat SL3_URB_BUFFER_SIZE))
                        u));;
  offset <- prepare_playback_loop idx (Z.to_nat SL3_ISO_PACKETS) 0;;
  modify (upd_urb Playback idx (set_transfer_buffer_length offset)).

Fixpoint prepare_capture_loop (n : nat) (offset : Z) (u : sl3_urb_ctx)
  : sl3_urb_ctx * Z :=
  match n with
  | O => (u, offset)
  | S n' =>
      let i := (Z.to_nat SL3_ISO_PACKETS - n)%nat in
      prepare_capture_loop n' (u32 (offset + SL3_MAX_PACKET_SIZE))
        (set_iso_desc i offset SL3_MAX_PACKET_SIZE u)
  end.

Definition sl3_prepare_capture_urb (u : sl3_urb_ctx) : sl3_urb_ctx :=
  let r := prepare_capture_loop (Z.to_nat SL3_ISO_PACKETS) 0 u in
  set_transfer_buffer_length (snd r) (fst r).

(** ** [sl3_urb.c]: playback URB fill *)

(** ALSA's [snd_pcm_lib_buffer_bytes]: the ring size in bytes. *)
Definition snd_pcm_lib_buffer_bytes (rt : snd_pcm_runtime) : Z :=
  u32 (buffer_size rt * frame_bits rt / 8).

(** [runtime && runtime->dma_area]. *)
Definition ring_of (s : sl3_stream) : option (snd_pcm_runtime * list byte) :=
  match runtime_of s with
  | Some rt =>
      match dma_area rt with
      | Some area => Some (rt, area)
      | None => None
      end
  | None => None
  end.

(** The sample count of packet [i], and the feedback left after it. *)
Definition playback_packet_samples (i : nat) (feedback_total : Z) : M (Z * Z) :=
  cap <- gets (fun d => running (capture d));;
  if cap && (0 <? feedback_total) then
    let remaining := u32 (SL3_ISO_PACKETS - Z.of_nat i) in
    let samples := u32 (feedback_total + remaining - 1) / remaining in
    let samples :=
      if SL3_MAX_PACKET_SIZE / SL3_BYTES_PER_FRAME <? samples
      then SL3_MAX_PACKET_SIZE / SL3_BYTES_PER_FRAME
      else samples in
    ret (samples, u32 (feedback_total - samples))
  else
    samples <- sl3_next_packet_samples;;
    ret (samples, feedback_total).

(** Copy [bytes] bytes out of the ring into [dst] at [offset], in one piece
    or in two when the ring wraps.  [hwptr] is the ring position in frames,
    [stream->hwptr % buf_size]. *)
Definition ring_to_urb (rt : snd_pcm_runtime) (area : list byte) (hwptr : Z)
    (dst : list byte) (offset bytes : Z) : list byte :=
  let hwptr_bytes := u32 (hwptr * SL3_BYTES_PER_FRAME) in
  let buf_bytes := snd_pcm_lib_buffer_bytes rt in
  if u32 (hwptr_bytes + bytes) <=? buf_bytes then
    memcpy dst (Z.to_nat offset) area (Z.to_nat hwptr_bytes) (Z.to_nat bytes)
  else
    let c1 := u32 (buf_bytes - hwptr_bytes) in
    let dst := memcpy dst (Z.to_nat offset) area (Z.to_nat hwptr_bytes)
                 (Z.to_nat c1) in
    memcpy dst (Z.to_nat (offset + c1)) area 0 (Z.to_nat (u32 (bytes - c1))).

(** The part of the loop body after the sample count is known.  With a
    ring attached the body computes [stream->hwptr % buf_size], where
    [buf_size] is [runtime->buffer_size] cut to an unsigned int; for
    [buf_size = 0] the division traps and the result is [false]: nothing
    after it runs. *)
Definition fill_packet (idx i : nat) (samples offset : Z) : M bool :=
  let bytes := u32 (samples * SL3_BYTES_PER_FRAME) in
  modify (upd_urb Playback idx (set_iso_desc i offset bytes));;
  ring <- gets (fun d => ring_of (playback d));;
  match ring with
  | Some (rt, area) =>
      let buf_size := u32 (buffer_size rt) in
      if buf_size =? 0 then ret false
      else
        hw <- gets (fun d => hwptr (playback d));;
        let hwptr' := hw mod buf_size in
        modify (upd_urb Playback idx
                  (fun u => set_buffer
                              (ring_to_urb rt area hwptr' (buffer u) offset
                                 bytes) u));;
        modify (upd_stream Playback
                  (fun s => set_hwptr (u32 (hwptr s + samples)) s));;
        modify (upd_stream Playback
                  (fun s => set_transfer_done
                              (u32 (transfer_done s + samples)) s));;
        ret true
  | None =>
      modify (upd_urb Playback idx
                (fun u => set_buffer
                            (memset (buffer u) (Z.to_nat offset) x00
                               (Z.to_nat bytes)) u));;
      ret true
  end.

(** The loop returns the final offset, or [None] when a packet trapped. *)
Fixpoint fill_playback_loop (idx : nat) (n : nat) (feedback_total offset : Z)
  : M (option Z) :=
  match n with
  | O => ret (Some offset)
  | S n' =>
      let i := (Z.to_nat SL3_ISO_PACKETS - n)%nat in
      sf <- playback_packet_samples i feedback_total;;
      ok <- fill_packet idx i (fst sf) offset;;
      if ok then
        fill_playback_loop idx n' (snd sf)
          (u32 (offset + u32 (fst sf * SL3_BYTES_PER_FRAME)))
      else ret None
  end.

(** The result is [false] when the fill trapped. *)
Definition sl3_fill_playback_urb (idx : nat) : M bool :=
  feedback_total <- gets feedback_samples;;
  r <- fill_playback_loop idx (Z.to_nat SL3_ISO_PACKETS) feedback_total 0;;
  match r with
  | Some offset =>
      modify (upd_urb Playback idx (set_transfer_buffer_length offset));;
      ret true
  | None => ret false
  end.

(** ** [sl3_urb.c]: allocation *)

Record urb_alloc_env := {
  ua_urb_ok : nat -> bool;
  ua_buf_ok : nat -> bool }.

Definition fresh_urb : sl3_urb_ctx :=
  {| urb_allocated := true; urb_in_flight := false;
     iso_frame_desc :=
       repeat {| iso_offset := 0; iso_length := 0; iso_actual_length := 0 |}
         (Z.to_nat SL3_ISO_PACKETS);
     transfer_buffer_length := SL3_URB_BUFFER_SIZE;
     buffer := repeat x00 (Z.to_nat SL3_URB_BUFFER_SIZE);
     error_retries := 0 |}.

Definition sl3_urb_free (dir : direction) : M unit :=
  modify (upd_stream dir
            (fun s => set_urbs
                        (map (fun u => if urb_allocated u
                                       then set_urb_allocated false
                                              (set_buffer [] u)
                                       else u) (urbs s)) s)).

Fixpoint urb_alloc_loop (env : urb_alloc_env) (dir : direction) (n : nat)
  : M Z :=
  match n with
  | O => ret 0
  | S n' =>
      let i := (SL3_NUM_URBS - n)%nat in
      if ua_urb_ok env i && ua_buf_ok env i then
        modify (upd_urb dir i
                  (fun u => set_error_retries (error_retries u) fresh_urb));;
        urb_alloc_loop env dir n'
      else
        sl3_urb_free dir;; ret (- ENOMEM)
  end.

Definition sl3_urb_alloc (env : urb_alloc_env) (dir : direction) : M Z :=
  urb_alloc_loop env dir SL3_NUM_URBS.

(** ** [sl3_urb.c]: start and stop *)

(** [usb_submit_urb]: the host controller accepts the URB ([err = 0]) or
    refuses it. *)
Definition usb_submit_urb (err : Z) (dir : direction) (idx : nat) : M Z :=
  emit (EvSubmit dir idx);;
  when (err =? 0) (modify (upd_urb dir idx (set_urb_in_flight true)));;
  ret err.

(** [usb_kill_urb]: returns once the URB is no longer in flight.  A handler
    that runs for the killed URB sees [-ENOENT] and returns at once. *)
Definition usb_kill_urb (dir : direction) (idx : nat) : M unit :=
  emit (EvKill dir idx);;
  modify (upd_urb dir idx (set_urb_in_flight false)).

Definition is_playback (dir : direction) : bool :=
  match dir with Playback => true | Capture => false end.

Fixpoint prepare_all (dir : direction) (n : nat) : M unit :=
  match n with
  | O => ret tt
  | S n' =>
      let i := (SL3_NUM_URBS - n)%nat in
      (if is_playback dir then sl3_prepare_playback_urb i
       else modify (upd_urb Capture i sl3_prepare_capture_urb));;
      prepare_all dir n'
  end.

Fixpoint submit_all (submit_err : nat -> Z) (dir : direction) (n : nat) : M Z :=
  match n with
  | O => ret 0
  | S n' =>
      let i := (SL3_NUM_URBS - n)%nat in
      err <- usb_submit_urb (submit_err i) dir i;;
      if negb (err =? 0) then
        modify (upd_stream dir (set_running false));;
        ret err
      else submit_all submit_err dir n'
  end.

(** The body of [sl3_urb_start]; [nested] is the recursive call that starts
    the capture stream. *)
Definition urb_start_body (submit_err : nat -> Z) (dir : direction)
    (nested : M Z) : M Z :=
  gone <- gets disconnected;;
  if gone then ret (- ENODEV)
  else
    r <- gets (fun d => running (stream_of dir d));;
    if r then ret 0
    else
      when (is_playback dir) (modify (set_sample_accumulator 0));;
      prepare_all dir SL3_NUM_URBS;;
      modify (upd_stream dir (set_running true));;
      cap <- gets (fun d => running (capture d));;
      err <- (if is_playback dir && negb cap then nested else ret 0);;
      if negb (err =? 0) then
        modify (upd_stream dir (set_running false));;
        ret err
      else submit_all submit_err dir SL3_NUM_URBS.

Definition sl3_urb_start (submit_err : direction -> nat -> Z) (dir : direction)
  : M Z :=
  match dir with
  | Capture => urb_start_body (submit_err Capture) Capture (ret 0)
  | Playback =>
      urb_start_body (submit_err Playback) Playback
        (urb_start_body (submit_err Capture) Capture (ret 0))
  end.

Fixpoint kill_all (dir : direction) (n : nat) : M unit :=
  match n with
  | O => ret tt
  | S n' =>
      let i := (SL3_NUM_URBS - n)%nat in
      a <- gets (fun d => urb_allocated (urb_of dir i d));;
      when a (usb_kill_urb dir i);;
      kill_all dir n'
  end.

Definition urb_stop_body (dir : direction) (nested : M unit) : M unit :=
  r <- gets (fun d => running (stream_of dir d));;
  if negb r then ret tt
  else
    modify (upd_stream dir (set_running false));;
    kill_all dir SL3_NUM_URBS;;
    cap <- gets (fun d => running (capture d));;
    sub <- gets (fun d => substream (capture d));;
    when (is_playback dir && cap && negb (bool_decide (is_Some sub))) nested.

Definition sl3_urb_stop (dir : direction) : M unit :=
  match dir with
  | Capture => urb_stop_body Capture (ret tt)
  | Playback => urb_stop_body Playback (urb_stop_body Capture (ret tt))
  end.

(** ** [sl3_urb.c]: completion handlers *)

(** The [while (transfer_done >= period_size)] loop.  It runs at most
    [transfer_done] times when [period_size > 0]; with [period_size = 0] it
    never ends, which is the [None] result. *)
Fixpoint period_loop (fuel : nat) (period_size transfer_done : Z)
    (do_elapsed : bool) : option (Z * bool) :=
  if period_size <=? transfer_done then
    match fuel with
    | O => None
    | S fuel' =>
        period_loop fuel' period_size (u32 (transfer_done - period_size)) true
    end
  else Some (transfer_done, do_elapsed).

(** Period reporting of both handlers: the loop under the stream lock, then
    [snd_pcm_period_elapsed] once if [do_elapsed] was set. *)
Definition report_periods (dir : direction) (rt : option snd_pcm_runtime)
    (d : sl3_device) : option (sl3_device * list event) :=
  match rt with
  | Some r =>
      let td := transfer_done (stream_of dir d) in
      match period_loop (Z.to_nat td) (period_size r) td false with
      | Some (td', do_elapsed) =>
          Some (upd_stream dir (set_transfer_done td') d,
                if do_elapsed then [EvPeriodElapsed dir] else [])
      | None => None
      end
  | None => Some (d, [])
  end.

(** The [resubmit:] label of the playback handler. *)
Definition playback_resubmit (submit_err : Z) (idx : nat) : M unit :=
  r <- gets (fun d => running (playback d));;
  gone <- gets disconnected;;
  when (r && negb gone) (_ <- usb_submit_urb submit_err Playback idx;; ret tt).

(** The [default:] case of the status switch, shared by both handlers up to
    the direction and the xrun counter. *)
Definition urb_error (dir : direction) (idx : nat) (resubmit : M unit)
  : M unit :=
  modify (upd_urb dir idx (fun u => set_error_retries (error_retries u + 1) u));;
  n <- gets (fun d => error_retries (urb_of dir idx d));;
  if SL3_URB_MAX_RETRIES <=? n then
    sub <- gets (fun d => substream (stream_of dir d));;
    when (bool_decide (is_Some sub))
      (modify (fun d => match dir with
                        | Playback => set_play_underruns (play_underruns d + 1) d
                        | Capture => set_cap_overruns (cap_overruns d + 1) d
                        end);;
       emit (EvStopXrun dir))
  else resubmit.

Definition sl3_playback_complete (status submit_err : Z) (idx : nat)
    (d : sl3_device) : option (sl3_device * list event) :=
  if status =? 0 then
    let d := upd_urb Playback idx (set_error_retries 0) d in
    if negb (running (playback d)) || disconnected d then Some (d, [])
    else
      let d := set_play_urbs_completed (play_urbs_completed d + 1) d in
      let rt := runtime_of (playback d) in
      let r1 := sl3_fill_playback_urb idx d in
      if negb (retval r1) then None
      else
        match report_periods Playback rt (state r1) with
        | Some (d2, ev2) =>
            let r3 := playback_resubmit submit_err idx d2 in
            Some (state r3, events r1 ++ ev2 ++ events r3)
        | None => None
        end
  else if (status =? - ENOENT) || (status =? - ECONNRESET) then Some (d, [])
  else if status =? - ESHUTDOWN then Some (set_disconnected true d, [])
  else
    let r :=
      (if status =? - EOVERFLOW then playback_resubmit submit_err idx
       else if status =? - EPIPE then
         emit EvClearHalt;; playback_resubmit submit_err idx
       else urb_error Playback idx (playback_resubmit submit_err idx)) d in
    Some (state r, events r).

(** Copy [bytes] bytes of a received packet into the ring at the frame
    position [hwptr], which is [stream->hwptr % buf_size]. *)
Definition urb_to_ring (rt : snd_pcm_runtime) (area : list byte) (hwptr : Z)
    (src : list byte) (pkt_off bytes : Z) : list byte :=
  let hwptr_bytes := u32 (hwptr * SL3_BYTES_PER_FRAME) in
  let buf_bytes := snd_pcm_lib_buffer_bytes rt in
  if u32 (hwptr_bytes + bytes) <=? buf_bytes then
    memcpy area (Z.to_nat hwptr_bytes) src (Z.to_nat pkt_off) (Z.to_nat bytes)
  else
    let c1 := u32 (buf_bytes - hwptr_bytes) in
    let area := memcpy area (Z.to_nat hwptr_bytes) src (Z.to_nat pkt_off)
                  (Z.to_nat c1) in
    memcpy area 0 src (Z.to_nat (pkt_off + c1)) (Z.to_nat (u32 (bytes - c1))).

(** [runtime->dma_area] after a write through the pointer. *)
Definition set_ring_area (area : list byte) (s : sl3_stream) : sl3_stream :=
  match runtime_of s with
  | Some rt =>
      set_substream
        (Some {| runtime :=
                   Some {| dma_area := Some area;
                           buffer_size := buffer_size rt;
                           period_size := period_size rt;
                           frame_bits := frame_bits rt |} |}) s
  | None => s
  end.

Definition null_packet : iso_packet :=
  {| iso_offset := 0; iso_length := 0; iso_actual_length := 0 |}.

(** One iteration of the capture packet walk; the result is [samples], or
    [None] when [stream->hwptr % buf_size] trapped on [buf_size = 0], where
    [buf_size] is [runtime->buffer_size] cut to an unsigned int. *)
Definition capture_packet (idx i : nat) : M (option Z) :=
  u <- gets (urb_of Capture idx);;
  let p := default null_packet (iso_frame_desc u !! i) in
  let samples := iso_actual_length p / SL3_BYTES_PER_FRAME in
  let bytes := u32 (samples * SL3_BYTES_PER_FRAME) in
  ring <- gets (fun d => ring_of (capture d));;
  match ring with
  | Some (rt, area) =>
      if bytes =? 0 then ret (Some samples)
      else
        let buf_size := u32 (buffer_size rt) in
        if buf_size =? 0 then ret None
        else
          hw <- gets (fun d => hwptr (capture d));;
          let hwptr' := hw mod buf_size in
          modify (upd_stream Capture
                    (set_ring_area
                       (urb_to_ring rt area hwptr' (buffer u) (iso_offset p)
                          bytes)));;
          modify (upd_stream Capture
                    (fun s => set_hwptr (u32 (hwptr s + samples)) s));;
          modify (upd_stream Capture
                    (fun s => set_transfer_done
                                (u32 (transfer_done s + samples)) s));;
          ret (Some samples)
  | None => ret (Some samples)
  end.

(** The loop returns [total_samples], or [None] when a packet trapped. *)
Fixpoint capture_loop (idx : nat) (n : nat) (total_samples : Z)
  : M (option Z) :=
  match n with
  | O => ret (Some total_samples)
  | S n' =>
      let i := (Z.to_nat SL3_ISO_PACKETS - n)%nat in
      s <- capture_packet idx i;;
      match s with
      | Some samples => capture_loop idx n' (u32 (total_samples + samples))
      | None => ret None
      end
  end.

(** The [resubmit:] label of the capture handler. *)
Definition capture_resubmit (submit_err : Z) (idx : nat) : M unit :=
  r <- gets (fun d => running (capture d));;
  gone <- gets disconnected;;
  when (r && negb gone)
    (modify (upd_urb Capture idx sl3_prepare_capture_urb);;
     _ <- usb_submit_urb submit_err Capture idx;;
     ret tt).

Definition sl3_capture_complete (status submit_err : Z) (idx : nat)
    (d : sl3_device) : option (sl3_device * list event) :=
  if status =? 0 then
    let d := upd_urb Capture idx (set_error_retries 0) d in
    if negb (running (capture d)) || disconnected d then Some (d, [])
    else
      let d := set_cap_urbs_completed (cap_urbs_completed d + 1) d in
      let rt := runtime_of (capture d) in
      let r1 := capture_loop idx (Z.to_nat SL3_ISO_PACKETS) 0 d in
      match retval r1 with
      | None => None
      | Some total_samples =>
          match report_periods Capture rt (state r1) with
          | Some (d2, ev2) =>
              let d3 := set_feedback_samples total_samples d2 in
              let r3 := capture_resubmit submit_err idx d3 in
              Some (state r3, events r1 ++ ev2 ++ events r3)
          | None => None
          end
      end
  else if (status =? - ENOENT) || (status =? - ECONNRESET) then Some (d, [])
  else if status =? - ESHUTDOWN then Some (set_disconnected true d, [])
  else
    let r :=
      (if status =? - EOVERFLOW then capture_resubmit submit_err idx
       else if status =? - EPIPE then
         emit EvClearHalt;; capture_resubmit submit_err idx
       else urb_error Capture idx (capture_resubmit submit_err idx)) d in
    Some (state r, events r).

(** ** The USB core giving a URB back

    A completion happens only for a URB in flight.  The host controller has
    filled in the status, the per-packet actual lengths and, for capture, the
    received data; the URB leaves the in-flight set and its handler runs. *)

Record urb_result := {
  ur_status : Z;
  ur_actual : list Z;
  ur_data : list byte;
  ur_submit_err : Z }.

Definition set_actual_lengths (actual : list Z) (u : sl3_urb_ctx) : sl3_urb_ctx :=
  set_iso_frame_desc
    (imap (fun i p => {| iso_offset := iso_offset p; iso_length := iso_length p;
                         iso_actual_length := default 0 (actual !! i) |})
       (iso_frame_desc u)) u.

Definition urb_giveback (dir : direction) (idx : nat) (res : urb_result)
    (d : sl3_device) : option (sl3_device * list event) :=
  if urb_in_flight (urb_of dir idx d) then
    match dir with
    | Playback =>
        sl3_playback_complete (ur_status res) (ur_submit_err res) idx
          (upd_urb Playback idx
             (fun u => set_urb_in_flight false
                         (set_actual_lengths (ur_actual res) u)) d)
    | Capture =>
        sl3_capture_complete (ur_status res) (ur_submit_err res) idx
          (upd_urb Capture idx
             (fun u => set_urb_in_flight false
                         (set_actual_lengths (ur_actual res)
                            (set_buffer (ur_data res) u))) d)
    end
  else Some (d, []).

(** ** [sl3_pcm.c] *)

Definition SNDRV_PCM_TRIGGER_STOP : Z := 0.
Definition SNDRV_PCM_TRIGGER_START : Z := 1.

Definition sl3_pcm_prepare (dir : direction) : M Z :=
  gone <- gets disconnected;;
  if gone then ret (- ENODEV)
  else
    modify (upd_stream dir (set_hwptr 0));;
    modify (upd_stream dir (set_transfer_done 0));;
    ret 0.

Definition sl3_pcm_trigger (submit_err : direction -> nat -> Z)
    (dir : direction) (cmd : Z) : M Z :=
  gone <- gets disconnected;;
  if gone then ret (- ENODEV)
  else if cmd =? SNDRV_PCM_TRIGGER_START then sl3_urb_start submit_err dir
  else if cmd =? SNDRV_PCM_TRIGGER_STOP then
    modify (upd_stream dir (set_running false));;
    cap <- gets (fun d => running (capture d));;
    sub <- gets (fun d => substream (capture d));;
    when (is_playback dir && cap && negb (bool_decide (is_Some sub)))
      (modify (upd_stream Capture (set_running false)));;
    ret 0
  else ret (- EINVAL).


Definition sl3_set_sample_rate (env : hid_env) (rate : Z) : M Z :=
  if negb (rate =? 44100) && negb (rate =? 48000) then ret (- EINVAL)
  else
    cur <- gets current_rate;;
    if rate =? cur then ret 0
    else
      p <- gets (fun d => running (playback d));;
      c <- gets (fun d => running (capture d));;
      if p || c then ret (- EBUSY)
      else
        err <- sl3_hid_set_sample_rate env rate;;
        if negb (err =? 0) then ret err
        else
          emit (EvMsleep 100);;
          modify (set_sample_accumulator 0);;
          ret 0.

(** ** [sl3_control.c]: the routing control *)

Definition pair_ids : list Z :=
  [SL3_PAIR_DECK_A; SL3_PAIR_DECK_B; SL3_PAIR_DECK_C].

(** [idx] is the control's [private_value]: 0, 1 or 2 for Deck A, B, C.
    [val] is [uval->value.enumerated.item[0]], an unsigned int. *)
Definition sl3_route_put (env : hid_env) (idx : nat) (val : Z) : M Z :=
  if 1 <? val then ret (- EINVAL)
  else
    cur <- gets (fun d => Z_of_u8 (default x00 (routing d !! idx)));;
    if val =? cur then ret 0
    else
      err <- sl3_hid_set_routing env (default 0 (pair_ids !! idx)) val;;
      if negb (err =? 0) then ret err
      else
        modify (fun d => set_routing (<[idx := u8_of_Z val]> (routing d)) d);;
        ret 1.

(** ** [sl3_main.c]: probe

    [default_sample_rate] is the module parameter, an [int] that the user may
    set to any value at load time.  The environment decides the outcome of
    every fallible step; on failure the device structure is freed, so only
    the error code remains. *)

Record probe_env := {
  pe_intf_num : Z;
  pe_kzalloc_ok : bool;
  pe_if1_found : bool;
  pe_claim1 : Z;
  pe_if2_found : bool;
  pe_claim2 : Z;
  pe_if3_found : bool;
  pe_claim3 : Z;
  pe_set_if1 : Z;
  pe_set_if2 : Z;
  pe_hid : hid_init_env;
  pe_alloc_play : urb_alloc_env;
  pe_alloc_cap : urb_alloc_env;
  pe_pcm_init : Z;
  pe_control_init : Z;
  pe_card_register : Z }.

Definition zero_stream : sl3_stream :=
  {| substream := None; urbs := repeat null_urb SL3_NUM_URBS; hwptr := 0;
     transfer_done := 0; running := false |}.

(** The device structure as [kzalloc] returns it. *)
Definition kzalloc_dev : sl3_device :=
  {| playback := zero_stream; capture := zero_stream; current_rate := 0;
     routing := repeat x00 3; feedback_samples := 0; sample_accumulator := 0;
     hid_out_buf := []; hid_response_done := 0;
     hid_response_buf := repeat x00 (Z.to_nat SL3_HID_REPORT_SIZE);
     overload_status := repeat x00 6; phono_status := repeat x00 3;
     usb_port_status := repeat x00 4; card := false; overload_ctl := false;
     phono_ctl := false; play_urbs_completed := 0; cap_urbs_completed := 0;
     play_underruns := 0; cap_overruns := 0; disconnected := false |}.

Definition probe_fail (err : Z) (ev : list event)
  : Z * option sl3_device * list event := (err, None, ev).

Definition sl3_probe (default_sample_rate : Z) (env : probe_env)
  : Z * option sl3_device * list event :=
  if negb (pe_intf_num env =? SL3_INTF_AUDIO_CTRL) then probe_fail (- ENODEV) []
  else if negb (pe_kzalloc_ok env) then probe_fail (- ENOMEM) []
  else if negb (pe_if1_found env) then probe_fail (- ENODEV) []
  else if negb (pe_claim1 env =? 0) then probe_fail (pe_claim1 env) []
  else if negb (pe_if2_found env) then probe_fail (- ENODEV) []
  else if negb (pe_claim2 env =? 0) then probe_fail (pe_claim2 env) []
  else if negb (pe_if3_found env) then probe_fail (- ENODEV) []
  else if negb (pe_claim3 env =? 0) then probe_fail (pe_claim3 env) []
  else if negb (pe_set_if1 env =? 0) then probe_fail (pe_set_if1 env) []
  else if negb (pe_set_if2 env =? 0) then probe_fail (pe_set_if2 env) []
  else
    let d := set_current_rate (u32 default_sample_rate) kzalloc_dev in
    let d := set_routing (<[0%nat := SL3_ROUTE_USB]> (routing d)) d in
    let d := set_routing (<[1%nat := SL3_ROUTE_USB]> (routing d)) d in
    let d := set_routing (<[2%nat := SL3_ROUTE_USB]> (routing d)) d in
    let r1 := sl3_hid_init (pe_hid env) d in
    if negb (retval r1 =? 0) then probe_fail (retval r1) (events r1)
    else
      let r2 := sl3_urb_alloc (pe_alloc_play env) Playback (state r1) in
      if negb (retval r2 =? 0) then probe_fail (retval r2) (events r1)
      else
        let r3 := sl3_urb_alloc (pe_alloc_cap env) Capture (state r2) in
        if negb (retval r3 =? 0) then probe_fail (retval r3) (events r1)
        else if pe_pcm_init env <? 0 then
          probe_fail (pe_pcm_init env) (events r1)
        else
          let d := set_card true (state r3) in
          if negb (pe_control_init env =? 0) then
            probe_fail (pe_control_init env) (events r1)
          else
            let d := set_phono_ctl true (set_overload_ctl true d) in
            if negb (pe_card_register env =? 0) then
              probe_fail (pe_card_register env) (events r1)
            else (0, Some d, events r1).

(** An environment in which every step of probe succeeds and the device
    answers each HID command with an [0xff] acknowledgement. *)
Definition hid_ack : hid_in_urb :=
  {| in_status := 0; in_actual_length := 64;
     in_data := xff :: repeat x00 63 |}.

Definition hid_env_ok : hid_env := {| he_usb_err := 0; he_in := [hid_ack] |}.

Definition probe_env_ok : probe_env :=
  {| pe_intf_num := 0; pe_kzalloc_ok := true;
     pe_if1_found := true; pe_claim1 := 0;
     pe_if2_found := true; pe_claim2 := 0;
     pe_if3_found := true; pe_claim3 := 0;
     pe_set_if1 := 0; pe_set_if2 := 0;
     pe_hid := {| hi_out_buf_ok := true; hi_in_urb_ok := true;
                  hi_in_buf_ok := true; hi_submit_err := 0;
                  hi_init := hid_env_ok; hi_status := hid_env_ok;
                  hi_rate := hid_env_ok; hi_phono := hid_env_ok |};
     pe_alloc_play := {| ua_urb_ok := fun _ => true; ua_buf_ok := fun _ => true |};
     pe_alloc_cap := {| ua_urb_ok := fun _ => true; ua_buf_ok := fun _ => true |};
     pe_pcm_init := 0; pe_control_init := 0; pe_card_register := 0 |}.

(** * Further entry points of the driver *)

(** ** [sl3_hid.c] *)

(** [sl3_hid_cleanup].  The IN URB and its buffer have no field in the device
    record; what is left of the function is [kfree (dev->hid_out_buf)] and
    the pointer set to [NULL]. *)
Definition sl3_hid_cleanup : M unit := modify (set_hid_out_buf []).

(** ** [sl3_control.c]: the remaining controls

    The [get] callbacks return 0; their result here is what they store in
    [uval]. *)

Definition sl3_rate_get (d : sl3_device) : Z :=
  if current_rate d =? 48000 then 1 else 0.

(** [item] is [uval->value.enumerated.item[0]]. *)
Definition sl3_rate_put (env : hid_env) (item : Z) : M Z :=
  let new_rate := if negb (item =? 0) then 48000 else 44100 in
  cur <- gets current_rate;;
  if new_rate =? cur then ret 0
  else
    err <- sl3_set_sample_rate env new_rate;;
    if negb (err =? 0) then ret err else ret 1.

Definition sl3_route_get (idx : nat) (d : sl3_device) : Z :=
  Z_of_u8 (default x00 (routing d !! idx)).

Definition sl3_overload_get (d : sl3_device) : list Z :=
  map (fun i => Z_of_u8 (default x00 (overload_status d !! i))) (seq 0 6).

Definition sl3_phono_get (d : sl3_device) : list Z :=
  map (fun i => Z_of_u8 (default x00 (phono_status d !! i))) (seq 0 3).

(** ** [sl3_pcm.c]: the remaining PCM operations *)

(** [(snd_pcm_uframes_t)-1] on a 64-bit kernel. *)
Definition SNDRV_PCM_POS_XRUN : Z := 2 ^ 64 - 1.

(** [sl3_pcm_open] stores the substream; the hardware description and the
    rate rule it installs live in the runtime and are not part of the device
    record. *)
Definition sl3_pcm_open (dir : direction) (sub : snd_pcm_substream) : M Z :=
  gone <- gets disconnected;;
  if gone then ret (- ENODEV)
  else
    modify (upd_stream dir (set_substream (Some sub)));;
    ret 0.

(** [rate] is [params_rate (params)]. *)
Definition sl3_pcm_hw_params (env : hid_env) (rate : Z) : M Z :=
  gone <- gets disconnected;;
  if gone then ret (- ENODEV)
  else sl3_set_sample_rate env rate.

(** [sl3_pcm_pointer]; [dir] is [substream->stream].  The result is [None]
    when the function traps: on the dereference of a missing runtime, which
    ALSA rules out for this callback, and on [hwptr % buffer_size] with a
    buffer size of 0. *)
Definition sl3_pcm_pointer (dir : direction) (substream : snd_pcm_substream)
    (d : sl3_device) : option Z :=
  if disconnected d then Some SNDRV_PCM_POS_XRUN
  else
    let hwptr := hwptr (stream_of dir d) in
    match runtime substream with
    | Some rt =>
        if buffer_size rt =? 0 then None
        else Some (hwptr mod buffer_size rt)
    | None => None
    end.

(** ** [sl3_main.c]: disconnect

    [intf_num] is the number of the interface being unbound and the device
    record is the interface data, so [dev] is not [NULL].  The calls that
    detach the card, reset the alternate settings and release the interfaces
    do not touch the device record. *)
Definition sl3_disconnect (intf_num : Z) : M unit :=
  if negb (intf_num =? SL3_INTF_AUDIO_CTRL) then ret tt
  else
    modify (set_disconnected true);;
    sl3_urb_stop Playback;;
    sl3_urb_stop Capture;;
    sl3_urb_free Playback;;
    sl3_urb_free Capture;;
    sl3_hid_cleanup.

(** * Observations and reference definitions used by the theorems *)

(** The device after a successful probe with the default parameter. *)
Definition probed_dev : sl3_device :=
  default kzalloc_dev (snd (fst (sl3_probe 48000 probe_env_ok))).

(** The return values of [n] successive calls of [sl3_next_packet_samples]. *)
Fixpoint next_samples_calls (n : nat) (d : sl3_device) : list Z :=
  match n with
  | O => []
  | S n' =>
      let r := sl3_next_packet_samples d in
      retval r :: next_samples_calls n' (state r)
  end.

Definition sumZ (l : list Z) : Z := fold_right Z.add 0 l.

(** The sample counts [sl3_fill_playback_urb] chooses for its last [n]
    packets, starting with [fb] feedback samples left. *)
Fixpoint packet_plan (n : nat) (fb : Z) (d : sl3_device) : list Z :=
  match n with
  | O => []
  | S n' =>
      let r := playback_packet_samples (Z.to_nat SL3_ISO_PACKETS - n) fb d in
      fst (retval r) :: packet_plan n' (snd (retval r)) (state r)
  end.

(** What the packet sizing reads from the device. *)
Definition sizing_key (d : sl3_device) : bool * Z * Z :=
  (running (capture d), current_rate d, sample_accumulator d).

(** The sample counts of the packets of a URB, read off its descriptors. *)
Definition urb_samples (u : sl3_urb_ctx) : list Z :=
  map (fun p => iso_length p / SL3_BYTES_PER_FRAME) (iso_frame_desc u).

(** Offsets and lengths of packets laid out back to back from [off]. *)
Fixpoint layout (off : Z) (ss : list Z) : list (Z * Z) :=
  match ss with
  | [] => []
  | s :: rest =>
      (off, s * SL3_BYTES_PER_FRAME)
      :: layout (off + s * SL3_BYTES_PER_FRAME) rest
  end.

Definition desc_layout (u : sl3_urb_ctx) : list (Z * Z) :=
  map (fun p => (iso_offset p, iso_length p)) (iso_frame_desc u).


(** The Set-routing report for a pair and a mode. *)
Definition routing_report (pair mode : Z) : list byte :=
  [SL3_HID_CMD_ROUTING; x1c; xc5; x00; x01; u8_of_Z pair; x01; u8_of_Z mode]
  ++ repeat x00 56.

(** The three asynchronous notification codes. *)
Definition known_notification (code : byte) : bool :=
  Byte.eqb code SL3_HID_NOTIFY_OVERLOAD
  || Byte.eqb code SL3_HID_NOTIFY_PHONO
  || Byte.eqb code SL3_HID_NOTIFY_USB_PORT.

(** The length a notification needs to be taken. *)
Definition notification_min_length (code : byte) : Z :=
  if Byte.eqb code SL3_HID_NOTIFY_OVERLOAD then 11
  else if Byte.eqb code SL3_HID_NOTIFY_PHONO then 8
  else 9.

(** The configuration installed by probe: rate and routing. *)
Definition config (d : sl3_device) : Z * list byte :=
  (current_rate d, routing d).

(** [hwptr] and [transfer_done] are unsigned ints. *)
Definition stream_wf (s : sl3_stream) : Prop :=
  0 <= hwptr s < 2 ^ 32 /\ 0 <= transfer_done s < 2 ^ 32.

(** The ring a stream copies from or to, when it has one, has a buffer
    size that is not 0 as an unsigned int: the copy can take the pointer
    modulo it. *)
Definition ring_ok (s : sl3_stream) : Prop :=
  match ring_of s with
  | Some (rt, _) => u32 (buffer_size rt) <> 0
  | None => True
  end.

(** The URB buffer after one packet of the fill loop. *)
Definition packet_buffer (d : sl3_device) (u : sl3_urb_ctx) (off bytes : Z)
  : list byte :=
  match ring_of (playback d) with
  | Some (rt, area) =>
      ring_to_urb rt area (hwptr (playback d) mod u32 (buffer_size rt))
        (buffer u) off bytes
  | None => memset (buffer u) (Z.to_nat off) x00 (Z.to_nat bytes)
  end.

(** The device after [n] successive calls of [sl3_next_packet_samples]. *)
Fixpoint next_samples_state (n : nat) (d : sl3_device) : sl3_device :=
  match n with
  | O => d
  | S n' => next_samples_state n' (state (sl3_next_packet_samples d))
  end.

(** The device with capture running and [fb] published as feedback. *)
Definition feedback_dev (fb : Z) (d : sl3_device) : sl3_device :=
  set_feedback_samples fb (upd_stream Capture (set_running true) d).

(** A runtime with a ring of 96 frames of zeros and periods of [ps] frames. *)
Definition test_runtime (ps : Z) : snd_pcm_runtime :=
  {| dma_area := Some (repeat x00 1728); buffer_size := 96;
     period_size := ps; frame_bits := 144 |}.

(** A runtime whose ring is allocated while its buffer size is still 0. *)
Definition unsized_runtime : snd_pcm_runtime :=
  {| dma_area := Some (repeat x00 1728); buffer_size := 0;
     period_size := 48; frame_bits := 144 |}.

(** The probed device with [unsized_runtime] attached to a running playback
    stream whose URB 0 is in flight. *)
Definition unsized_dev : sl3_device :=
  upd_urb Playback 0 (set_urb_in_flight true)
    (upd_stream Playback
       (fun s => set_running true
                   (set_substream
                      (Some {| runtime := Some unsized_runtime |}) s))
       probed_dev).

(** The device with a runtime attached to a prepared [dir] stream. *)
Definition attach (dir : direction) (ps : Z) (d : sl3_device) : sl3_device :=
  upd_stream dir
    (fun s => set_substream (Some {| runtime := Some (test_runtime ps) |}) s) d.


(** The probed device with playback running at 48 kHz. *)
Definition playing_dev : sl3_device :=
  upd_stream Playback (set_running true) probed_dev.

(** An overload notification for channels 1 and 4 on the probed device. *)
Definition overload_report : list byte :=
  [x34; x1c; xc5; x00; x01; x01; x00; x00; x01; x00; x00] ++ repeat x00 53.


(** The body of [sl3_fill_playback_urb] with the packet count as a
    parameter; the function itself is [fill_n idx SL3_ISO_PACKETS]. *)
Definition fill_n (idx n : nat) : M bool :=
  feedback_total <- gets feedback_samples;;
  r <- fill_playback_loop idx n feedback_total 0;;
  match r with
  | Some offset =>
      modify (upd_urb Playback idx (set_transfer_buffer_length offset));;
      ret true
  | None => ret false
  end.

(** ** Runs of completions on one stream *)

(** The period size the [dir] stream reports against, when a runtime is
    attached. *)
Definition period_of (s : sl3_stream) : option Z :=
  match runtime_of s with
  | Some rt => Some (period_size rt)
  | None => None
  end.

Definition is_period_elapsed (dir : direction) (e : event) : bool :=
  match e, dir with
  | EvPeriodElapsed Playback, Playback => true
  | EvPeriodElapsed Capture, Capture => true
  | _, _ => false
  end.

(** The number of [snd_pcm_period_elapsed] calls for [dir] in a log. *)
Fixpoint count_elapsed (dir : direction) (ev : list event) : Z :=
  match ev with
  | [] => 0
  | e :: rest =>
      (if is_period_elapsed dir e then 1 else 0) + count_elapsed dir rest
  end.

(** The frames a step moved the hardware pointer of [dir] by. *)
Definition frames_advanced (dir : direction) (d d' : sl3_device) : Z :=
  u32 (hwptr (stream_of dir d') - hwptr (stream_of dir d)).

(** A sequence of completions on the URBs of one stream: the final device
    and, for each completion in turn, the frames it advanced the hardware
    pointer by and the log of its handler. *)
Fixpoint stream_run (dir : direction) (cs : list (nat * urb_result))
    (d : sl3_device) : option (sl3_device * list (Z * list event)) :=
  match cs with
  | [] => Some (d, [])
  | (idx, res) :: rest =>
      match urb_giveback dir idx res d with
      | Some (d1, ev1) =>
          match stream_run dir rest d1 with
          | Some (d2, steps) =>
              Some (d2, (frames_advanced dir d d1, ev1) :: steps)
          | None => None
          end
      | None => None
      end
  end.

(** The frames each completion of a run advanced the pointer by. *)
Definition advances (steps : list (Z * list event)) : list Z := map fst steps.

(** The period-elapsed signals each completion of a run raised. *)
Definition signals (dir : direction) (steps : list (Z * list event))
  : list Z :=
  map (fun s => count_elapsed dir (snd s)) steps.



(** What period reporting reads and writes of a stream. *)
Definition pointers (dir : direction) (d : sl3_device)
  : option snd_pcm_substream * Z * Z :=
  (substream (stream_of dir d), hwptr (stream_of dir d),
   transfer_done (stream_of dir d)).


(** A playback stream that runs with periods of [ps] frames, URB 0 in
    flight, capture idle, at 48 kHz. *)
Definition busy_dev (ps : Z) : sl3_device :=
  upd_urb Playback 0 (set_urb_in_flight true)
    (upd_stream Playback (set_running true) (attach Playback ps probed_dev)).

(** A completion with status OK whose resubmission succeeds. *)
Definition ok_result : urb_result :=
  {| ur_status := 0; ur_actual := []; ur_data := []; ur_submit_err := 0 |}.

(** The received lengths of a URB's packets are ones the host controller can
    report. *)
Definition packets_ok (u : sl3_urb_ctx) : Prop :=
  Forall (fun p => 0 <= iso_actual_length p <= SL3_MAX_PACKET_SIZE)
    (iso_frame_desc u).


(** ** Frame conditions *)

(** The computation [m] leaves the observation [f] of the device as it is. *)
Definition keeps {A B} (f : sl3_device -> B) (m : M A) : Prop :=
  forall d, f (state (m d)) = f d.

(** The computation [m] never reports a period of [dir]. *)
Definition quiet (dir : direction) {A} (m : M A) : Prop :=
  forall d, count_elapsed dir (events (m d)) = 0.

(** ** Stopping *)

(** [usb_kill_urb] on an allocated URB context, nothing on an empty one. *)
Definition killed (u : sl3_urb_ctx) : sl3_urb_ctx :=
  if urb_allocated u then set_urb_in_flight false u else u.

(** Only allocated URBs can be in flight. *)
Definition urbs_wf (s : sl3_stream) : Prop :=
  Forall (fun u => urb_in_flight u = true -> urb_allocated u = true) (urbs s).


(** What a completion may not touch once the stream is stopped: the
    pointers, the running flag and the URBs-completed counters. *)
Definition stopped_obs (dir : direction) (d : sl3_device)
  : (option snd_pcm_substream * Z * Z) * bool * Z * Z :=
  (pointers dir d, running (stream_of dir d), play_urbs_completed d,
   cap_urbs_completed d).

(** A host that accepts every submission. *)
Definition submit_ok : direction -> nat -> Z := fun _ _ => 0.


(** * Observations for the properties beyond the specification *)

(** ** HID *)

(** The caches and the response mailbox the IN handler writes. *)
Definition hid_caches (d : sl3_device)
  : list byte * list byte * list byte * list byte * Z :=
  (overload_status d, phono_status d, usb_port_status d, hid_response_buf d,
   hid_response_done d).

(** An IN completion that carries a command response: status OK, at least
    one byte, and not one of the three notification codes. *)
Definition is_response (u : hid_in_urb) : bool :=
  (in_status u =? 0) && (1 <=? in_actual_length u)
  && negb (known_notification (nth 0 (in_data u) x00)).

(** The command bytes of the OUT reports in a log, in order. *)
Definition out_commands (ev : list event) : list byte :=
  flat_map (fun e => match e with
                     | EvHidOut r => [nth 0 r x00]
                     | _ => []
                     end) ev.

(** The Set-sample-rate report: the rate in two bytes, high byte first. *)
Definition rate_report (rate : Z) : list byte :=
  [SL3_HID_CMD_SAMPLE_RATE; x1c; xc5; x00; x01;
   u8_of_Z (rate / 256); u8_of_Z (rate mod 256)] ++ repeat x00 57.

(** What the IN handler and the command path leave alone: the streams, the
    rate, the routing, the feedback count and the rate accumulator. *)
Definition audio_state (d : sl3_device)
  : sl3_stream * sl3_stream * Z * list byte * Z * Z :=
  (playback d, capture d, current_rate d, routing d, feedback_samples d,
   sample_accumulator d).

(** The number of command responses among a list of IN completions. *)
Fixpoint response_count (ins : list hid_in_urb) : Z :=
  match ins with
  | [] => 0
  | u :: rest => (if is_response u then 1 else 0) + response_count rest
  end.

(** The computation [m] sends no OUT report. *)
Definition sends_nothing {A} (m : M A) : Prop :=
  forall d, out_commands (events (m d)) = [].

(** The commands of the init handshake, in the order they are sent. *)
Definition handshake : list byte :=
  [SL3_HID_CMD_INIT; SL3_HID_CMD_STATUS; SL3_HID_CMD_SAMPLE_RATE;
   SL3_HID_CMD_QUERY_PHONO].

(** No IN completion delivered during the command reports that the device
    is gone. *)
Definition no_shutdown (e : hid_env) : bool :=
  forallb (fun u => negb (in_status u =? - ESHUTDOWN)) (he_in e).

(** The allocations of [sl3_hid_init] and the first submission of the IN URB
    all succeed. *)
Definition hid_init_ready (env : hid_init_env) : bool :=
  hi_out_buf_ok env && hi_in_urb_ok env && hi_in_buf_ok env
  && (hi_submit_err env =? 0).

(** The computation [m] keeps the invariant [P] of the device. *)
Definition preserves {A} (P : sl3_device -> Prop) (m : M A) : Prop :=
  forall d, P d -> P (state (m d)).

(** The phono cache and the response mailbox have their declared sizes. *)
Definition hid_sized (d : sl3_device) : Prop :=
  length (phono_status d) = 3%nat
  /\ length (hid_response_buf d) = Z.to_nat SL3_HID_REPORT_SIZE.

(** ** URBs *)

(** [usb_alloc_urb] and [usb_alloc_coherent] succeed for URB [i]. *)
Definition alloc_ok (env : urb_alloc_env) (i : nat) : bool :=
  ua_urb_ok env i && ua_buf_ok env i.

(** A URB as [sl3_urb_alloc] leaves it: allocated, idle, with a buffer of
    1008 bytes and eight packet descriptors. *)
Definition urb_ready (u : sl3_urb_ctx) : Prop :=
  urb_allocated u = true /\ urb_in_flight u = false
  /\ length (buffer u) = 1008%nat /\ length (iso_frame_desc u) = 8%nat.

(** What allocation and release leave alone in a stream. *)
Definition stream_frame (s : sl3_stream)
  : option snd_pcm_substream * Z * Z * bool :=
  (substream s, hwptr s, transfer_done s, running s).

(** A URB after [sl3_urb_free]. *)
Definition released (u : sl3_urb_ctx) : sl3_urb_ctx :=
  if urb_allocated u then set_urb_allocated false (set_buffer [] u) else u.

(** The first of the [n] URBs from [lo] on whose submission the host
    controller refuses. *)
Fixpoint first_refused (err : nat -> Z) (lo n : nat) : option nat :=
  match n with
  | O => None
  | S n' => if negb (err lo =? 0) then Some lo else first_refused err (S lo) n'
  end.

(** The in-flight flags of the URBs of a stream. *)
Definition in_flight_map (dir : direction) (d : sl3_device) : list bool :=
  map urb_in_flight (urbs (stream_of dir d)).

(** What preparing URBs leaves alone. *)
Definition start_frame (d : sl3_device)
  : (option snd_pcm_substream * Z * Z) * (option snd_pcm_substream * Z * Z)
    * bool * bool * bool * list bool * list bool * list bool * list bool :=
  (pointers Playback d, pointers Capture d, running (playback d),
   running (capture d), disconnected d,
   in_flight_map Playback d, in_flight_map Capture d,
   map urb_allocated (urbs (playback d)), map urb_allocated (urbs (capture d))).

(** The computation [m] logs nothing. *)
Definition silent {A} (m : M A) : Prop := forall d, events (m d) = [].

(** ** Teardown *)

Definition is_kill (e : event) : bool :=
  match e with EvKill _ _ => true | _ => false end.

(** The computation [m] logs nothing but URB kills. *)
Definition only_kills {A} (m : M A) : Prop :=
  forall d, forallb is_kill (events (m d)) = true.

(** What stopping and releasing URBs leaves alone. *)
Definition teardown_frame (d : sl3_device)
  : (option snd_pcm_substream * Z * Z) * (option snd_pcm_substream * Z * Z)
    * (Z * list byte) * Z * Z :=
  (pointers Playback d, pointers Capture d, config d, feedback_samples d,
   sample_accumulator d).

(** The URBs of a stream after [sl3_urb_stop] and [sl3_urb_free]: killed if
    the stream was running, released in any case. *)
Definition torn_down (s : sl3_stream) : list sl3_urb_ctx :=
  map released (if running s then map killed (urbs s) else urbs s).

(** ** Capture *)

(** The frames of the packets of a received URB, as the capture handler
    counts them. *)
Definition received_samples (u : sl3_urb_ctx) : list Z :=
  map (fun p => iso_actual_length p / SL3_BYTES_PER_FRAME) (iso_frame_desc u).

(** The frames of packet [i] of a received URB. *)
Definition sample_at (u : sl3_urb_ctx) (i : nat) : Z :=
  iso_actual_length (default null_packet (iso_frame_desc u !! i))
  / SL3_BYTES_PER_FRAME.

(** The frames the capture handler moves the pointers by for [s] received
    frames: all of them into a ring, none without one. *)
Definition taken (s : sl3_stream) (frames : Z) : Z :=
  match ring_of s with Some _ => frames | None => 0 end.

(** A running capture stream with a ring whose URB 0 has received eight
    packets of 6, 6, 5, 6, 6, 6, 5 and 6 frames. *)
Definition intake_dev : sl3_device :=
  upd_urb Capture 0 (set_actual_lengths [108; 108; 90; 108; 108; 108; 90; 108])
    (upd_stream Capture (set_running true) (attach Capture 441 probed_dev)).

(** * Basic facts *)

Ltac run_monad :=
  unfold bind, ret, gets, modify, emit, when, retval, state, events;
  cbn [fst snd app negb andb orb].

Ltac case_if :=
  match goal with
  | |- context [if ?c then _ else _] => destruct c
  end.

(** ** The monad laws used for rewriting *)

Lemma state_bind {A B} (m : M A) (k : A -> M B) (d : sl3_device) :
  state (bind m k d) = state (k (retval (m d)) (state (m d))).
Proof. reflexivity. Qed.

Lemma events_bind {A B} (m : M A) (k : A -> M B) (d : sl3_device) :
  events (bind m k d) = events (m d) ++ events (k (retval (m d)) (state (m d))).
Proof. reflexivity. Qed.

Lemma retval_bind {A B} (m : M A) (k : A -> M B) (d : sl3_device) :
  retval (bind m k d) = retval (k (retval (m d)) (state (m d))).
Proof. reflexivity. Qed.

Lemma u32_small z : 0 <= z < 2 ^ 32 -> u32 z = z.
Proof. intros H. unfold u32. apply Z.mod_small. exact H. Qed.

Lemma u32_range z : 0 <= u32 z < 2 ^ 32.
Proof. unfold u32. apply Z.mod_pos_bound. lia. Qed.

Lemma u32_add_l a b : u32 (u32 a + b) = u32 (a + b).
Proof. unfold u32. apply Zplus_mod_idemp_l. Qed.

Lemma memset_whole (buf : list byte) (c : byte) (n : nat) :
  length buf = n -> memset buf 0 c n = repeat c n.
Proof.
  intros H. unfold memset, write_at. rewrite repeat_length. simpl.
  rewrite drop_ge by lia. apply app_nil_r.
Qed.

Lemma read_bytes_prefix (src : list byte) (n : nat) :
  (n <= length src)%nat -> read_bytes src 0 n = take n src.
Proof.
  intros H. unfold read_bytes. rewrite drop_0. apply take_app_le. exact H.
Qed.

(** [memcpy] of a whole cache from an in-range source is a slice. *)
Lemma memcpy_whole (dst src : list byte) (off n : nat) :
  length dst = n -> (off + n <= length src)%nat ->
  memcpy dst 0 src off n = take n (drop off src).
Proof.
  intros Hd Hs. unfold memcpy, write_at, read_bytes.
  rewrite take_app_le by (rewrite length_drop; lia).
  rewrite length_take, length_drop. simpl.
  rewrite (drop_ge dst) by lia. apply app_nil_r.
Qed.

Lemma memcpy_prefix (dst src : list byte) (n : nat) :
  (n <= length src)%nat ->
  memcpy dst 0 src 0 n = take n src ++ drop n dst.
Proof.
  intros Hs. unfold memcpy, write_at, read_bytes.
  rewrite drop_0, take_app_le by lia.
  rewrite length_take. simpl. do 2 f_equal. lia.
Qed.

Lemma drop_repeat {A} (x : A) (k n : nat) :
  drop k (repeat x n) = repeat x (n - k).
Proof.
  revert k. induction n as [|n IH]; intros [|k]; simpl; try reflexivity.
  apply IH.
Qed.

(** ** Frame reasoning: a computation keeps an observation of the device *)

Section Keeps.
Context {B : Type} (f : sl3_device -> B).

Lemma keeps_ret {A} (a : A) : keeps f (ret a).
Proof. intros d. reflexivity. Qed.

Lemma keeps_gets {A} (g : sl3_device -> A) : keeps f (gets g).
Proof. intros d. reflexivity. Qed.

Lemma keeps_emit e : keeps f (emit e).
Proof. intros d. reflexivity. Qed.

Lemma keeps_modify g : (forall d, f (g d) = f d) -> keeps f (modify g).
Proof. intros H d. apply H. Qed.

Lemma keeps_bind {A C} (m : M A) (k : A -> M C) :
  keeps f m -> (forall a, keeps f (k a)) -> keeps f (bind m k).
Proof.
  intros Hm Hk d. unfold bind, state. cbn [fst snd].
  etransitivity; [apply Hk | apply Hm].
Qed.

Lemma keeps_when b m : keeps f m -> keeps f (when b m).
Proof. intros H. destruct b; [exact H | apply keeps_ret]. Qed.

Lemma keeps_if {A} (b : bool) (m1 m2 : M A) :
  keeps f m1 -> keeps f m2 -> keeps f (if b then m1 else m2).
Proof. intros H1 H2. destruct b; assumption. Qed.
End Keeps.

Ltac keeps_step :=
  first
    [ apply keeps_ret | apply keeps_gets | apply keeps_emit
    | apply keeps_bind; [|intros ?]
    | apply keeps_when
    | apply keeps_if
    | apply keeps_modify; intros ?; reflexivity ].

Ltac keeps_auto := repeat keeps_step.

(** * HID channel *)

(** ** Report framing *)

Lemma report_header (cmd : byte) :
  <[4%nat:=u8_of_Z (Z.land SL3_PRODUCT_ID 255)]>
    (<[3%nat:=u8_of_Z (Z.land (SL3_PRODUCT_ID ≫ 8) 255)]>
       (<[2%nat:=u8_of_Z (Z.land SL3_VENDOR_ID 255)]>
          (<[1%nat:=u8_of_Z (Z.land (SL3_VENDOR_ID ≫ 8) 255)]>
             (<[0%nat:=cmd]> (repeat x00 64)))))
  = [cmd; x1c; xc5; x00; x01] ++ repeat x00 59.
Proof. reflexivity. Qed.

Lemma build_report_shape (buf : list byte) (cmd : byte) (payload : list byte) :
  length buf = 64%nat ->
  sl3_hid_build_report buf cmd (Some payload) (Z.of_nat (length payload))
  = [cmd; x1c; xc5; x00; x01] ++ take 59 payload
      ++ repeat x00 (59 - length (take 59 payload)).
Proof.
  intros Hlen. unfold sl3_hid_build_report.
  rewrite memset_whole by exact Hlen.
  change (Z.to_nat SL3_HID_REPORT_SIZE) with 64%nat.
  change (SL3_HID_REPORT_SIZE - 5) with 59.
  rewrite report_header.
  destruct (0 <? Z.of_nat (length payload)) eqn:Hpos.
  - unfold memcpy, write_at.
    rewrite read_bytes_prefix by lia.
    assert (Hn : Z.to_nat (Z.min (Z.of_nat (length payload)) 59)
                 = Nat.min 59 (length payload)) by lia.
    rewrite Hn, length_take.
    rewrite <- (take_take payload 59 (length payload)) at 1.
    rewrite firstn_all.
    rewrite take_app_length' by reflexivity.
    rewrite drop_app_ge by (simpl; lia).
    rewrite drop_repeat. simpl length.
    rewrite length_take.
    do 3 f_equal. lia.
  - apply Z.ltb_ge in Hpos. destruct payload; [|simpl in Hpos; lia].
    reflexivity.
Qed.

(** A NULL payload, or a length that is not positive, copies nothing. *)
Lemma build_report_no_payload (buf : list byte) (cmd : byte)
    (payload : option (list byte)) (len : Z) :
  length buf = 64%nat ->
  payload = None \/ len <= 0 ->
  sl3_hid_build_report buf cmd payload len
  = [cmd; x1c; xc5; x00; x01] ++ repeat x00 59.
Proof.
  intros Hlen H. unfold sl3_hid_build_report.
  rewrite memset_whole by exact Hlen.
  change (Z.to_nat SL3_HID_REPORT_SIZE) with 64%nat.
  rewrite report_header.
  destruct payload as [p|]; [|reflexivity].
  destruct H as [H | H]; [discriminate|].
  assert (E : (0 <? len) = false) by lia. rewrite E. reflexivity.
Qed.

(** The payload bytes that end up in the report: none for a NULL payload or
    a length that is not positive, else the first [len] bytes, at most 59. *)
Lemma build_report_body (buf : list byte) (cmd : byte)
    (payload : option (list byte)) (len : Z) :
  length buf = 64%nat ->
  (forall p, payload = Some p -> len <= Z.of_nat (length p)) ->
  let body := match payload with
              | Some p => take (Z.to_nat (Z.min len 59)) p
              | None => []
              end in
  sl3_hid_build_report buf cmd payload len
  = [cmd; x1c; xc5; x00; x01] ++ body ++ repeat x00 (59 - length body).
Proof.
  intros Hlen Hp. cbn zeta.
  destruct payload as [p|];
    [|rewrite (build_report_no_payload buf cmd None len Hlen); [reflexivity|];
      left; reflexivity].
  specialize (Hp p eq_refl).
  destruct (Z.ltb_spec 0 len) as [Hpos|Hpos].
  - unfold sl3_hid_build_report.
    rewrite memset_whole by exact Hlen.
    change (Z.to_nat SL3_HID_REPORT_SIZE) with 64%nat.
    change (SL3_HID_REPORT_SIZE - 5) with 59.
    rewrite report_header.
    assert (E : (0 <? len) = true) by lia. rewrite E.
    unfold memcpy, write_at.
    rewrite read_bytes_prefix by lia.
    set (n := Z.to_nat (Z.min len 59)).
    assert (Hn : (n <= 59)%nat) by lia.
    assert (Hl : length (take n p) = n) by (rewrite length_take; lia).
    rewrite Hl.
    change (take 5 ([cmd; x1c; xc5; x00; x01] ++ repeat x00 59))
      with [cmd; x1c; xc5; x00; x01].
    change (drop (5 + n) ([cmd; x1c; xc5; x00; x01] ++ repeat x00 59))
      with (drop n (repeat x00 59)).
    rewrite drop_repeat. reflexivity.
  - rewrite (build_report_no_payload buf cmd (Some p) len Hlen) by (right; lia).
    replace (Z.to_nat (Z.min len 59)) with 0%nat by lia.
    reflexivity.
Qed.

(** C8 (HID framing).  For every command byte, every payload pointer and
    every length the report built in the 64-byte OUT buffer is: the command,
    then 1C C5 00 01, then the payload bytes, then zeros up to 64 bytes.  A
    NULL payload and a length that is not positive give no payload bytes;
    otherwise the first [len] bytes of the payload are copied, at most 59 of
    them, so that a payload passed with its full length is cut to its first
    59 bytes. *)
Theorem hid_report_framing (buf : list byte) (cmd : byte)
    (payload : option (list byte)) (len : Z) :
  length buf = 64%nat ->
  (forall p, payload = Some p -> len <= Z.of_nat (length p)) ->
  let r := sl3_hid_build_report buf cmd payload len in
  let body := match payload with
              | Some p => take (Z.to_nat (Z.min len 59)) p
              | None => []
              end in
  r = [cmd; x1c; xc5; x00; x01] ++ body ++ repeat x00 (59 - length body)
  /\ length r = 64%nat
  /\ (payload = None \/ len <= 0 -> body = [])
  /\ (forall p, payload = Some p -> len = Z.of_nat (length p) ->
      body = take 59 p).
Proof.
  intros Hlen Hp r body. subst r.
  rewrite (build_report_body buf cmd payload len Hlen Hp). fold body.
  assert (Hb : (length body <= 59)%nat).
  { subst body. destruct payload as [p|]; [|cbn; lia].
    rewrite length_take. lia. }
  split; [reflexivity|].
  split; [rewrite !length_app, repeat_length; cbn [length]; lia|].
  split.
  - intros [-> | H]; [reflexivity|]. subst body.
    destruct payload as [p|]; [|reflexivity].
    replace (Z.to_nat (Z.min len 59)) with 0%nat by lia. reflexivity.
  - intros p -> ->. subst body.
    destruct (le_lt_dec (length p) 59) as [H|H].
    + rewrite !take_ge by lia. reflexivity.
    + f_equal. lia.
Qed.

(** The Set-routing payload, and the Query-phono command with no payload. *)
Lemma hid_report_framing_witness :
  sl3_hid_build_report (repeat xff 64) x33 (Some [x0e; x01; x00]) 3
  = [x33; x1c; xc5; x00; x01; x0e; x01; x00] ++ repeat x00 56
  /\ sl3_hid_build_report (repeat xff 64) x32 None 0
     = [x32; x1c; xc5; x00; x01] ++ repeat x00 59.
Proof.
  split.
  - apply (hid_report_framing (repeat xff 64) x33 (Some [x0e; x01; x00]) 3
             eq_refl).
    intros p H. injection H as <-. cbn. lia.
  - apply (hid_report_framing (repeat xff 64) x32 None 0 eq_refl).
    intros p H. discriminate H.
Defined.

(** A 70-byte payload is cut after its 59th byte. *)
Example build_report_truncates :
  sl3_hid_build_report (repeat x00 64) x03 (Some (repeat xaa 70)) 70
  = [x03; x1c; xc5; x00; x01] ++ repeat xaa 59.
Proof. vm_compute. reflexivity. Qed.

(** ** IN URB dispatch *)

(** C7 (notification demux), as the code has it.  On an IN completion with
    status OK for a 64-byte report of received length [len]:
    - 0x34 with [len >= 11] replaces the overload cache by bytes 5..10, and
      notifies Overload Status when the card and that control are
      registered, nothing else;
    - 0x38 with [len >= 8] replaces the phono cache by bytes 5..7, and
      notifies Phono Switch Status when the card and that control are
      registered, nothing else;
    - 0x39 with [len >= 9] replaces the USB-port cache by bytes 5..8 and
      notifies nothing;
    - any other code copies the received bytes, at most 64, into the
      response mailbox and signals the waiter, nothing else;
    - a notification code with a shorter report, and a report of no bytes at
      all, leave the device state as it is;
    and in every case the IN URB is resubmitted unless the device is marked
    disconnected. *)
Theorem hid_in_demux (d : sl3_device) (len : Z) (code : byte)
    (rest : list byte) :
  let data := code :: rest in
  let r := sl3_hid_in_complete 0 len data d in
  let resubmit := if disconnected d then [] else [EvHidInSubmit] in
  length data = 64%nat ->
  length (overload_status d) = 6%nat ->
  length (phono_status d) = 3%nat ->
  length (usb_port_status d) = 4%nat ->
  (len < 1 -> state r = d /\ events r = resubmit)
  /\ (code = SL3_HID_NOTIFY_OVERLOAD -> 11 <= len ->
      state r = set_overload_status (take 6 (drop 5 data)) d
      /\ events r = (if card d && overload_ctl d
                     then [EvCtlNotify OverloadStatusCtl] else [])
                    ++ resubmit)
  /\ (code = SL3_HID_NOTIFY_PHONO -> 8 <= len ->
      state r = set_phono_status (take 3 (drop 5 data)) d
      /\ events r = (if card d && phono_ctl d
                     then [EvCtlNotify PhonoSwitchStatusCtl] else [])
                    ++ resubmit)
  /\ (code = SL3_HID_NOTIFY_USB_PORT -> 9 <= len ->
      state r = set_usb_port_status (take 4 (drop 5 data)) d
      /\ events r = resubmit)
  /\ (known_notification code = false -> 1 <= len ->
      state r = set_hid_response_done (hid_response_done d + 1)
                  (set_hid_response_buf
                     (take (Z.to_nat (Z.min len 64)) data
                      ++ drop (Z.to_nat (Z.min len 64)) (hid_response_buf d))
                     d)
      /\ events r = EvHidComplete :: resubmit)
  /\ (known_notification code = true -> len < notification_min_length code ->
      state r = d /\ events r = resubmit).
Proof.
  intros data r resubmit Hdata Ho Hp Hu. subst r resubmit.
  unfold sl3_hid_in_complete. cbn [Z.eqb].
  unfold hid_in_dispatch, hid_in_resubmit. subst data.
  cbn [nth]. unfold known_notification, notification_min_length.
  split; [|split; [|split; [|split; [|split]]]].
  - intros H0. assert (H1 : (len <? 1) = true) by lia. rewrite H1.
    run_monad. destruct (disconnected d); split; reflexivity.
  - intros -> H11. assert (H1 : (len <? 1) = false) by lia. rewrite H1.
    change (Byte.eqb SL3_HID_NOTIFY_OVERLOAD SL3_HID_NOTIFY_OVERLOAD) with true.
    assert (H : (11 <=? len) = true) by lia.
    run_monad. rewrite H. cbn [fst snd app card overload_ctl disconnected
      set_overload_status overload_status].
    rewrite memcpy_whole by (simpl in *; lia).
    destruct (card d && overload_ctl d);
      run_monad; cbn [disconnected set_overload_status];
      destruct (disconnected d); split; reflexivity.
  - intros -> H8. assert (H1 : (len <? 1) = false) by lia. rewrite H1.
    change (Byte.eqb SL3_HID_NOTIFY_PHONO SL3_HID_NOTIFY_OVERLOAD) with false.
    change (Byte.eqb SL3_HID_NOTIFY_PHONO SL3_HID_NOTIFY_PHONO) with true.
    assert (H : (8 <=? len) = true) by lia.
    run_monad. rewrite H. cbn [fst snd app card phono_ctl disconnected
      set_phono_status phono_status].
    rewrite memcpy_whole by (simpl in *; lia).
    destruct (card d && phono_ctl d);
      run_monad; cbn [disconnected set_phono_status];
      destruct (disconnected d); split; reflexivity.
  - intros -> H9. assert (H1 : (len <? 1) = false) by lia. rewrite H1.
    change (Byte.eqb SL3_HID_NOTIFY_USB_PORT SL3_HID_NOTIFY_OVERLOAD) with false.
    change (Byte.eqb SL3_HID_NOTIFY_USB_PORT SL3_HID_NOTIFY_PHONO) with false.
    change (Byte.eqb SL3_HID_NOTIFY_USB_PORT SL3_HID_NOTIFY_USB_PORT) with true.
    assert (H : (9 <=? len) = true) by lia.
    run_monad. rewrite H. cbn [fst snd app disconnected
      set_usb_port_status usb_port_status].
    rewrite memcpy_whole by (simpl in *; lia).
    destruct (disconnected d); split; reflexivity.
  - intros Hk Hlen. assert (H1 : (len <? 1) = false) by lia. rewrite H1.
    apply orb_false_elim in Hk as [Hk Hk3].
    apply orb_false_elim in Hk as [Hk1 Hk2].
    rewrite Hk1, Hk2, Hk3.
    run_monad. cbn [disconnected set_hid_response_done set_hid_response_buf
      hid_response_buf hid_response_done].
    change SL3_HID_REPORT_SIZE with 64.
    rewrite memcpy_prefix by (simpl in *; lia).
    destruct (disconnected d); split; reflexivity.
  - intros Hk Hshort.
    destruct (Z.ltb_spec len 1) as [H0|H0];
      [run_monad; destruct (disconnected d); split; reflexivity|].
    destruct (Byte.eqb code SL3_HID_NOTIFY_OVERLOAD) eqn:E1;
      [|destruct (Byte.eqb code SL3_HID_NOTIFY_PHONO) eqn:E2;
        [|destruct (Byte.eqb code SL3_HID_NOTIFY_USB_PORT) eqn:E3;
          [|discriminate Hk]]].
    + assert (H : (11 <=? len) = false) by lia.
      run_monad. rewrite H. run_monad.
      destruct (disconnected d); split; reflexivity.
    + assert (H : (8 <=? len) = false) by lia.
      run_monad. rewrite H. run_monad.
      destruct (disconnected d); split; reflexivity.
    + assert (H : (9 <=? len) = false) by lia.
      run_monad. rewrite H. run_monad.
      destruct (disconnected d); split; reflexivity.
Qed.

(** The resubmission is what the disconnected flag gates: the handler never
    submits the IN URB of a device marked disconnected, and it touches no
    cache and no mailbox on a short notification whatever the flag says. *)
Lemma hid_in_short_notification (d : sl3_device) (len : Z) (code : byte)
    (rest : list byte) :
  1 <= len ->
  known_notification code = true ->
  len < notification_min_length code ->
  let r := sl3_hid_in_complete 0 len (code :: rest) d in
  state r = d
  /\ events r = if disconnected d then [] else [EvHidInSubmit].
Proof.
  intros Hlen Hk Hshort. cbn zeta.
  unfold sl3_hid_in_complete. cbn [Z.eqb].
  assert (H1 : (len <? 1) = false) by lia. rewrite H1.
  unfold hid_in_dispatch, hid_in_resubmit. cbn [nth].
  unfold known_notification, notification_min_length in *.
  destruct (Byte.eqb code SL3_HID_NOTIFY_OVERLOAD) eqn:E1;
    [|destruct (Byte.eqb code SL3_HID_NOTIFY_PHONO) eqn:E2;
      [|destruct (Byte.eqb code SL3_HID_NOTIFY_USB_PORT) eqn:E3;
        [|discriminate Hk]]].
  - assert (H : (11 <=? len) = false) by lia.
    run_monad. rewrite H. run_monad. destruct (disconnected d); split; reflexivity.
  - assert (H : (8 <=? len) = false) by lia.
    run_monad. rewrite H. run_monad. destruct (disconnected d); split; reflexivity.
  - assert (H : (9 <=? len) = false) by lia.
    run_monad. rewrite H. run_monad. destruct (disconnected d); split; reflexivity.
Qed.

Lemma hid_in_demux_witness :
  let r := sl3_hid_in_complete 0 64 overload_report probed_dev in
  state r = set_overload_status [x01; x00; x00; x01; x00; x00] probed_dev
  /\ events r = [EvCtlNotify OverloadStatusCtl; EvHidInSubmit].
Proof.
  destruct (hid_in_demux probed_dev 64 x34
              ([x1c; xc5; x00; x01; x01; x00; x00; x01; x00; x00]
               ++ repeat x00 53)
              ltac:(reflexivity) ltac:(vm_compute; reflexivity)
              ltac:(vm_compute; reflexivity) ltac:(vm_compute; reflexivity))
    as (_ & H & _).
  destruct (H eq_refl ltac:(lia)) as [Hs He].
  split.
  - vm_compute in Hs. vm_compute. exact Hs.
  - vm_compute in He. vm_compute. exact He.
Defined.

(** While probe runs its handshake the card is not yet created: an overload
    notification fills the cache and notifies no control.  On a device
    marked disconnected a short notification is dropped and the IN URB is
    not resubmitted. *)
Lemma hid_in_demux_counterexample :
  card kzalloc_dev = false
  /\ (let r := sl3_hid_in_complete 0 64 overload_report kzalloc_dev in
      overload_status (state r) = [x01; x00; x00; x01; x00; x00]
      /\ events r = [EvHidInSubmit])
  /\ (let gone := set_disconnected true probed_dev in
      sl3_hid_in_complete 0 5 overload_report gone = (tt, gone, [])).
Proof. vm_compute. repeat split; reflexivity. Qed.


(** ** Routing control *)

Lemma build_routing_report (buf : list byte) (pair mode : Z) :
  length buf = 64%nat ->
  sl3_hid_build_report buf SL3_HID_CMD_ROUTING
    (Some [u8_of_Z pair; x01; u8_of_Z mode]) 3
  = routing_report pair mode.
Proof.
  intros H. unfold sl3_hid_build_report.
  rewrite memset_whole by exact H. reflexivity.
Qed.

Lemma set_routing_sent (env : hid_env) (pair mode : Z) (d : sl3_device) :
  length (hid_out_buf d) = 64%nat ->
  disconnected d = false ->
  sl3_hid_set_routing env pair mode d
  = (he_usb_err env, set_hid_out_buf (routing_report pair mode) d,
     [EvHidOut (routing_report pair mode)]).
Proof.
  intros Hlen Hd. unfold sl3_hid_set_routing, sl3_hid_send_cmd_locked.
  run_monad. rewrite Hd. cbn [fst snd app hid_out_buf set_hid_out_buf].
  rewrite build_routing_report by exact Hlen.
  destruct (he_usb_err env =? 0) eqn:E; cbn [negb fst snd app].
  - apply Z.eqb_eq in E. rewrite E. reflexivity.
  - reflexivity.
Qed.

Lemma set_routing_gone (env : hid_env) (pair mode : Z) (d : sl3_device) :
  disconnected d = true ->
  sl3_hid_set_routing env pair mode d = (- ENODEV, d, []).
Proof.
  intros Hd. unfold sl3_hid_set_routing, sl3_hid_send_cmd_locked.
  run_monad. rewrite Hd. reflexivity.
Qed.

(** C9 (routing write).  For the routing control of pair [idx] with cached
    value [cur]:
    - a value above 1 is rejected with [-EINVAL], state and wire untouched;
    - the cached value returns 0 ("unchanged") with no USB traffic;
    - another valid value sends exactly one report, the Set-routing command
      0x33 with payload [pair_id, 0x01, value] and pair ids 0x08, 0x0E, 0x14;
      when the transfer succeeds the cache takes the value and the result
      is 1 ("changed");
    - when the transfer fails, or the device is gone, the error is returned
      and the cache keeps its value. *)
Theorem route_put_cases (env : hid_env) (idx : nat) (val : Z) (cur : byte)
    (d : sl3_device) :
  routing d !! idx = Some cur ->
  length (hid_out_buf d) = 64%nat ->
  let r := sl3_route_put env idx val d in
  let report := routing_report (default 0 (pair_ids !! idx)) val in
  pair_ids = [0x08; 0x0E; 0x14]
  /\ (1 < val -> r = (- EINVAL, d, []))
  /\ (val <= 1 -> val = Z_of_u8 cur -> r = (0, d, []))
  /\ (val <= 1 -> val <> Z_of_u8 cur ->
      disconnected d = false -> he_usb_err env = 0 ->
      retval r = 1
      /\ events r = [EvHidOut report]
      /\ routing (state r) = <[idx := u8_of_Z val]> (routing d))
  /\ (val <= 1 -> val <> Z_of_u8 cur ->
      disconnected d = false -> he_usb_err env <> 0 ->
      retval r = he_usb_err env
      /\ events r = [EvHidOut report]
      /\ routing (state r) = routing d)
  /\ (val <= 1 -> val <> Z_of_u8 cur ->
      disconnected d = true ->
      r = (- ENODEV, d, [])).
Proof.
  intros Hcur Hlen r report. subst r report. unfold sl3_route_put.
  split; [reflexivity|].
  split; [|split; [|split; [|split]]].
  - intros H. apply Z.ltb_lt in H. rewrite H. reflexivity.
  - intros Hle He. assert (H : (1 <? val) = false) by lia. rewrite H.
    run_monad. rewrite Hcur. cbn [default from_option id].
    rewrite He, Z.eqb_refl. reflexivity.
  - intros Hle Hne Hd He. assert (H : (1 <? val) = false) by lia. rewrite H.
    run_monad. rewrite Hcur. cbn [default from_option id].
    apply Z.eqb_neq in Hne. rewrite Hne.
    rewrite set_routing_sent by assumption.
    cbn [fst snd]. rewrite He. cbn [Z.eqb negb fst snd app routing set_routing
      set_hid_out_buf]. repeat split.
  - intros Hle Hne Hd He. assert (H : (1 <? val) = false) by lia. rewrite H.
    run_monad. rewrite Hcur. cbn [default from_option id].
    apply Z.eqb_neq in Hne. rewrite Hne.
    rewrite set_routing_sent by assumption.
    cbn [fst snd]. apply Z.eqb_neq in He. rewrite He.
    cbn [negb fst snd app routing set_hid_out_buf]. repeat split.
  - intros Hle Hne Hd. assert (H : (1 <? val) = false) by lia. rewrite H.
    run_monad. rewrite Hcur. cbn [default from_option id].
    apply Z.eqb_neq in Hne. rewrite Hne.
    rewrite set_routing_gone by assumption. reflexivity.
Qed.

(** Writing "Analog" to Deck B on the probed device. *)
Lemma route_put_cases_witness :
  let r := sl3_route_put hid_env_ok 1 0 probed_dev in
  retval r = 1
  /\ events r = [EvHidOut ([x33; x1c; xc5; x00; x01; x0e; x01; x00]
                           ++ repeat x00 56)]
  /\ routing (state r) = [x01; x00; x01].
Proof.
  exact (proj1 (proj2 (proj2 (proj2
           (route_put_cases hid_env_ok 1 0 x01 probed_dev eq_refl eq_refl))))
           ltac:(lia) ltac:(discriminate) eq_refl eq_refl).
Defined.

(** Repeating the write returns "unchanged" and sends nothing. *)
Example route_put_repeat :
  let d := state (sl3_route_put hid_env_ok 1 0 probed_dev) in
  sl3_route_put hid_env_ok 1 0 d = (0, d, []).
Proof. vm_compute. reflexivity. Qed.

(** * Sample rate *)

(** ** The 44.1 kHz packet pattern *)

Lemma next_samples_44k (d : sl3_device) :
  current_rate d <> 48000 ->
  0 <= sample_accumulator d < 8000 ->
  sl3_next_packet_samples d
  = (5 + (sample_accumulator d + 4100) / 8000,
     set_sample_accumulator ((sample_accumulator d + 4100) mod 8000) d, []).
Proof.
  intros Hr Ha. unfold sl3_next_packet_samples, bind, gets, modify, ret.
  cbn [fst snd].
  destruct (current_rate d =? 48000) eqn:E; [apply Z.eqb_eq in E; contradiction|].
  cbn [fst snd sample_accumulator set_sample_accumulator].
  unfold SL3_FRAC_NUM, SL3_FRAC_DENOM, SL3_SAMPLES_44K_BASE.
  rewrite (u32_small (sample_accumulator d + 4100)) by lia.
  destruct (8000 <=? sample_accumulator d + 4100) eqn:E2.
  - apply Z.leb_le in E2. cbn [fst snd app].
    rewrite u32_small by lia.
    replace ((sample_accumulator d + 4100) / 8000) with 1
      by (apply Z.div_unique with (r := sample_accumulator d - 3900); lia).
    replace ((sample_accumulator d + 4100) mod 8000)
      with (sample_accumulator d + 4100 - 8000)
      by (apply Z.mod_unique with (q := 1); lia).
    reflexivity.
  - apply Z.leb_gt in E2. cbn [fst snd app].
    rewrite Z.div_small, Z.mod_small by lia. reflexivity.
Qed.

Lemma next_samples_sum (n : nat) : forall d,
  current_rate d <> 48000 ->
  0 <= sample_accumulator d < 8000 ->
  sumZ (next_samples_calls n d)
  = 5 * Z.of_nat n + (sample_accumulator d + 4100 * Z.of_nat n) / 8000.
Proof.
  induction n as [|n IH]; intros d Hr Ha.
  - simpl. rewrite Z.add_0_r, Z.div_small by lia. reflexivity.
  - cbn [next_samples_calls sumZ fold_right].
    rewrite next_samples_44k by assumption.
    unfold retval, state. cbn [fst snd].
    fold (sumZ (next_samples_calls n
            (set_sample_accumulator ((sample_accumulator d + 4100) mod 8000) d))).
    rewrite IH; cbn [current_rate sample_accumulator set_sample_accumulator];
      [| assumption | apply Z.mod_pos_bound; lia].
    set (x := sample_accumulator d + 4100).
    replace (sample_accumulator d + 4100 * Z.of_nat (S n))
      with (x mod 8000 + 4100 * Z.of_nat n + (x / 8000) * 8000)
      by (pose proof (Z.div_mod x 8000); subst x; lia).
    rewrite Z.div_add by lia. lia.
Qed.

Lemma next_samples_5_or_6 (n : nat) : forall d,
  current_rate d <> 48000 ->
  0 <= sample_accumulator d < 8000 ->
  Forall (fun s => s = 5 \/ s = 6) (next_samples_calls n d).
Proof.
  induction n as [|n IH]; intros d Hr Ha; [constructor|].
  cbn [next_samples_calls]. rewrite next_samples_44k by assumption.
  unfold retval, state. cbn [fst snd]. constructor.
  - assert (H : 0 <= (sample_accumulator d + 4100) / 8000 <= 1).
    { split; [apply Z.div_pos; lia|].
      apply Z.lt_succ_r. apply Z.div_lt_upper_bound; lia. }
    lia.
  - apply IH; cbn [current_rate sample_accumulator set_sample_accumulator];
      [assumption | apply Z.mod_pos_bound; lia].
Qed.

(** C3 (rate pattern).  At 44100 Hz, from a zero accumulator, the first
    [N + 1] return values of [sl3_next_packet_samples] add up to
    [floor ((N + 1) * 44100 / 8000)]; each of them is 5 or 6; and the first
    8000 add up to 44100. *)
Theorem rate_pattern_44100 (d : sl3_device) (N : nat) :
  current_rate d = 44100 ->
  sample_accumulator d = 0 ->
  sumZ (next_samples_calls (S N) d) = (Z.of_nat (S N) * 44100) / 8000
  /\ Forall (fun s => s = 5 \/ s = 6) (next_samples_calls (S N) d)
  /\ sumZ (next_samples_calls (Z.to_nat 8000) d) = 44100.
Proof.
  intros Hr Ha.
  assert (Hr' : current_rate d <> 48000) by lia.
  assert (Ha' : 0 <= sample_accumulator d < 8000) by lia.
  split; [|split].
  - rewrite next_samples_sum by assumption. rewrite Ha, Z.add_0_l.
    replace (Z.of_nat (S N) * 44100)
      with (4100 * Z.of_nat (S N) + (5 * Z.of_nat (S N)) * 8000) by lia.
    rewrite Z.div_add by lia. lia.
  - apply next_samples_5_or_6; assumption.
  - rewrite next_samples_sum by assumption. rewrite Ha, Z2Nat.id by lia.
    reflexivity.
Qed.

(** The probed device switched to 44.1 kHz: the first 80 packets carry 441
    frames, ten milliseconds of audio. *)
Lemma rate_pattern_44100_witness :
  sumZ (next_samples_calls 80 (set_current_rate 44100 probed_dev)) = 441.
Proof.
  exact (eq_trans
           (proj1 (rate_pattern_44100 (set_current_rate 44100 probed_dev) 79
                     eq_refl eq_refl))
           eq_refl).
Defined.

(** At 48 kHz every packet carries 6 frames and the accumulator rests. *)
Lemma next_samples_48k (d : sl3_device) :
  current_rate d = 48000 -> sl3_next_packet_samples d = (6, d, []).
Proof.
  intros H. unfold sl3_next_packet_samples. run_monad. rewrite H. reflexivity.
Qed.

(** ** The rate switching sequence *)

Lemma valid_rate_test (rate : Z) :
  negb (rate =? 44100) && negb (rate =? 48000) = false <->
  rate = 44100 \/ rate = 48000.
Proof.
  destruct (Z.eqb_spec rate 44100), (Z.eqb_spec rate 48000); simpl; split;
    intros; try tauto; try discriminate; lia.
Qed.

(** C5 (rate switch guards).  [sl3_set_sample_rate]
    - rejects a rate other than 44100 and 48000 with [-EINVAL],
    - returns 0 for the current rate,
    - refuses a change of rate with [-EBUSY] while playback or capture runs,
    and in all three cases leaves the whole device state, the current rate
    and the accumulator with it, as it was and sends nothing. *)
Theorem rate_change_guards (env : hid_env) (rate : Z) (d : sl3_device) :
  (rate <> 44100 /\ rate <> 48000 ->
   sl3_set_sample_rate env rate d = (- EINVAL, d, []))
  /\ (rate = 44100 \/ rate = 48000 ->
      rate = current_rate d ->
      sl3_set_sample_rate env rate d = (0, d, []))
  /\ (rate = 44100 \/ rate = 48000 ->
      rate <> current_rate d ->
      running (playback d) = true \/ running (capture d) = true ->
      sl3_set_sample_rate env rate d = (- EBUSY, d, [])).
Proof.
  unfold sl3_set_sample_rate. repeat split.
  - intros [H1 H2].
    destruct (Z.eqb_spec rate 44100), (Z.eqb_spec rate 48000); try lia.
    reflexivity.
  - intros Hv Hc. apply valid_rate_test in Hv. rewrite Hv.
    run_monad. rewrite <- Hc, Z.eqb_refl. reflexivity.
  - intros Hv Hc Hrun. apply valid_rate_test in Hv. rewrite Hv.
    run_monad. apply Z.eqb_neq in Hc. rewrite Hc.
    destruct Hrun as [-> | ->]; [reflexivity|].
    rewrite orb_true_r. reflexivity.
Qed.

Lemma rate_change_guards_witness :
  sl3_set_sample_rate hid_env_ok 44100 playing_dev = (- EBUSY, playing_dev, [])
  /\ sl3_set_sample_rate hid_env_ok 48000 playing_dev = (0, playing_dev, [])
  /\ sl3_set_sample_rate hid_env_ok 96000 playing_dev
     = (- EINVAL, playing_dev, []).
Proof.
  split; [|split].
  - apply (rate_change_guards hid_env_ok 44100 playing_dev).
    + left. reflexivity.
    + discriminate.
    + left. reflexivity.
  - apply (rate_change_guards hid_env_ok 48000 playing_dev).
    + right. reflexivity.
    + reflexivity.
  - apply (rate_change_guards hid_env_ok 96000 playing_dev).
    split; discriminate.
Defined.

(** With both streams stopped the switch goes through: one Set-sample-rate
    report, the 100 ms pause, the new rate and a cleared accumulator. *)
Example rate_change_idle :
  let r := sl3_set_sample_rate hid_env_ok 44100
             (set_hid_out_buf (repeat x00 64) probed_dev) in
  retval r = 0
  /\ current_rate (state r) = 44100
  /\ sample_accumulator (state r) = 0
  /\ events r = [EvHidOut ([x31; x1c; xc5; x00; x01; xac; x44]
                           ++ repeat x00 57);
                 EvHidComplete; EvHidInSubmit; EvMsleep 100].
Proof. vm_compute. repeat split; reflexivity. Qed.

(** * Probe *)

Lemma hid_deliver_config ins : keeps config (hid_deliver ins).
Proof.
  induction ins as [|u ins IH]; cbn [hid_deliver]; keeps_auto.
  exact IH.
Qed.

Lemma hid_init_config env : keeps config (sl3_hid_init env).
Proof.
  unfold sl3_hid_init. keeps_auto; apply hid_deliver_config.
Qed.

Lemma urb_free_config dir : keeps config (sl3_urb_free dir).
Proof. unfold sl3_urb_free. intros d. destruct dir; reflexivity. Qed.

Lemma urb_alloc_config env dir : keeps config (sl3_urb_alloc env dir).
Proof.
  unfold sl3_urb_alloc. generalize SL3_NUM_URBS at 1.
  intros n. induction n as [|n IH]; cbn [urb_alloc_loop]; keeps_auto.
  - intros d. destruct dir; reflexivity.
  - exact IH.
  - apply urb_free_config.
Qed.

(** Whatever the parameter and whatever the environment, a successful probe
    installs the parameter itself as the current rate, converted to unsigned,
    and routes the three pairs to USB. *)
Lemma probe_config (p : Z) (env : probe_env) (d : sl3_device) (ev : list event) :
  sl3_probe p env = (0, Some d, ev) ->
  current_rate d = u32 p
  /\ routing d = [SL3_ROUTE_USB; SL3_ROUTE_USB; SL3_ROUTE_USB].
Proof.
  unfold sl3_probe, probe_fail.
  repeat (case_if; [discriminate|]).
  intros H. injection H as <- _.
  cbn [current_rate routing set_phono_ctl set_overload_ctl set_card].
  match goal with
  | |- context [sl3_urb_alloc ?e Capture ?s] =>
      pose proof (urb_alloc_config e Capture s) as H3
  end.
  match goal with
  | |- context [sl3_urb_alloc ?e Playback ?s] =>
      pose proof (urb_alloc_config e Playback s) as H2
  end.
  match goal with
  | |- context [sl3_hid_init ?e ?s] =>
      pose proof (hid_init_config e s) as H1
  end.
  unfold config in *. rewrite H2, H1 in H3.
  injection H3 as -> ->. split; reflexivity.
Qed.

(** C6 (default configuration), at the input where the code departs from
    it: loaded with [default_sample_rate=96000], probe succeeds and installs
    96000 as the current rate, which is neither 44100 nor 48000.  The routing
    is [USB, USB, USB] as claimed. *)
Theorem probe_accepts_any_rate :
  exists d ev,
    sl3_probe 96000 probe_env_ok = (0, Some d, ev)
    /\ current_rate d = 96000
    /\ current_rate d <> 44100 /\ current_rate d <> 48000
    /\ routing d = [SL3_ROUTE_USB; SL3_ROUTE_USB; SL3_ROUTE_USB].
Proof.
  eexists. eexists. split; [vm_compute; reflexivity|].
  cbn. repeat split; discriminate.
Qed.

(** With the parameter at one of the two documented values the claim holds. *)
Lemma probe_valid_rate (p : Z) (env : probe_env) (d : sl3_device)
    (ev : list event) :
  p = 44100 \/ p = 48000 ->
  sl3_probe p env = (0, Some d, ev) ->
  (current_rate d = 44100 \/ current_rate d = 48000)
  /\ routing d = [SL3_ROUTE_USB; SL3_ROUTE_USB; SL3_ROUTE_USB].
Proof.
  intros Hp H. destruct (probe_config p env d ev H) as [Hr Hq].
  split; [|exact Hq]. rewrite Hr. destruct Hp as [-> | ->]; [left | right];
    reflexivity.
Qed.

Example probed_dev_ok :
  fst (fst (sl3_probe 48000 probe_env_ok)) = 0
  /\ current_rate probed_dev = 48000
  /\ routing probed_dev = [x01; x01; x01]
  /\ length (urbs (playback probed_dev)) = 16%nat
  /\ urb_allocated (urb_of Capture 15 probed_dev) = true.
Proof. vm_compute. repeat split; reflexivity. Qed.

(** * Playback URB fill *)

(** ** Packet sizing *)

Lemma next_samples_value (d : sl3_device) :
  let s := retval (sl3_next_packet_samples d) in s = 5 \/ s = 6.
Proof.
  unfold sl3_next_packet_samples. run_monad.
  destruct (current_rate d =? 48000); cbn [fst snd]; [right; reflexivity|].
  cbn [sample_accumulator set_sample_accumulator].
  destruct (SL3_FRAC_DENOM <=? u32 (sample_accumulator d + SL3_FRAC_NUM));
    cbn [fst snd]; [right | left]; reflexivity.
Qed.

Lemma next_samples_events (d : sl3_device) :
  events (sl3_next_packet_samples d) = [].
Proof.
  unfold sl3_next_packet_samples. run_monad.
  destruct (current_rate d =? 48000); cbn [fst snd]; [reflexivity|].
  cbn [sample_accumulator set_sample_accumulator].
  destruct (SL3_FRAC_DENOM <=? u32 (sample_accumulator d + SL3_FRAC_NUM));
    reflexivity.
Qed.


Lemma packet_samples_range (i : nat) (fb : Z) (d : sl3_device) :
  (i < 8)%nat ->
  0 <= fst (retval (playback_packet_samples i fb d)) <= 7.
Proof.
  intros Hi. unfold playback_packet_samples. run_monad.
  destruct (running (capture d) && (0 <? fb)) eqn:E; cbn [fst snd].
  - change (SL3_MAX_PACKET_SIZE / SL3_BYTES_PER_FRAME) with 7.
    unfold SL3_ISO_PACKETS. rewrite (u32_small (8 - Z.of_nat i)) by lia.
    destruct (7 <? _) eqn:E2; [lia|].
    split; [|lia].
    apply Z.div_pos; [apply u32_range | lia].
  - pose proof (next_samples_value d) as H. unfold retval in H.
    cbn zeta in H. lia.
Qed.

Lemma packet_samples_key (i : nat) (fb : Z) (d1 d2 : sl3_device) :
  sizing_key d1 = sizing_key d2 ->
  retval (playback_packet_samples i fb d1)
  = retval (playback_packet_samples i fb d2)
  /\ sizing_key (state (playback_packet_samples i fb d1))
     = sizing_key (state (playback_packet_samples i fb d2)).
Proof.
  unfold sizing_key. intros H. injection H as Hc Hr Ha.
  unfold playback_packet_samples, sl3_next_packet_samples. run_monad.
  rewrite Hc. destruct (running (capture d2) && (0 <? fb)); cbn [fst snd].
  - unfold sizing_key. rewrite Hc, Hr, Ha. split; reflexivity.
  - rewrite Hr. destruct (current_rate d2 =? 48000); cbn [fst snd].
    + unfold sizing_key. rewrite Hc, Hr, Ha. split; reflexivity.
    + cbn [sample_accumulator set_sample_accumulator]. rewrite Ha.
      destruct (SL3_FRAC_DENOM <=? _); cbn [fst snd];
        unfold sizing_key;
        cbn [capture current_rate sample_accumulator set_sample_accumulator];
        rewrite Hc, Hr; split; reflexivity.
Qed.

Lemma packet_plan_key (n : nat) : forall fb d1 d2,
  sizing_key d1 = sizing_key d2 ->
  packet_plan n fb d1 = packet_plan n fb d2.
Proof.
  induction n as [|n IH]; intros fb d1 d2 Hk; [reflexivity|].
  cbn [packet_plan].
  destruct (packet_samples_key (Z.to_nat SL3_ISO_PACKETS - S n) fb d1 d2 Hk)
    as [Hr Hs].
  rewrite Hr. f_equal. apply IH. exact Hs.
Qed.

Lemma fill_packet_key (idx i : nat) (s off : Z) (d : sl3_device) :
  sizing_key (state (fill_packet idx i s off d)) = sizing_key d.
Proof.
  unfold fill_packet. run_monad.
  cbn [playback set_playback upd_urb upd_stream stream_of set_stream].
  destruct (ring_of _) as [[rt area]|];
    [destruct (u32 (buffer_size rt) =? 0)|]; reflexivity.
Qed.

Lemma packet_plan_unroll (idx n : nat) (fb off : Z) (d : sl3_device) :
  let i := (Z.to_nat SL3_ISO_PACKETS - S n)%nat in
  let r0 := playback_packet_samples i fb d in
  let s := fst (retval r0) in
  let d1 := state (fill_packet idx i s off (state r0)) in
  packet_plan (S n) fb d = s :: packet_plan n (snd (retval r0)) d1.
Proof.
  cbn zeta. cbn [packet_plan]. f_equal.
  apply packet_plan_key. symmetry. apply fill_packet_key.
Qed.

Lemma packet_plan_length (n : nat) : forall fb d,
  length (packet_plan n fb d) = n.
Proof.
  induction n as [|n IH]; intros fb d; [reflexivity|].
  cbn [packet_plan length]. f_equal. apply IH.
Qed.

Lemma packet_plan_range (n : nat) : forall fb d,
  (n <= 8)%nat ->
  Forall (fun s => 0 <= s <= 7) (packet_plan n fb d).
Proof.
  induction n as [|n IH]; intros fb d Hn; [constructor|].
  cbn [packet_plan].
  constructor; [|apply IH; lia].
  apply packet_samples_range. unfold SL3_ISO_PACKETS. lia.
Qed.

Lemma sumZ_range (ss : list Z) (b : Z) :
  Forall (fun s => 0 <= s <= b) ss ->
  0 <= sumZ ss <= b * Z.of_nat (length ss).
Proof.
  induction 1 as [|s ss Hs _ IH]; cbn [sumZ fold_right length]; [lia|].
  fold (sumZ ss). lia.
Qed.

(** ** Effect of the fill loop on the stream pointers *)

Lemma packet_samples_playback (i : nat) (fb : Z) (d : sl3_device) :
  playback (state (playback_packet_samples i fb d)) = playback d.
Proof.
  unfold playback_packet_samples, sl3_next_packet_samples. run_monad.
  destruct (running (capture d) && (0 <? fb)); cbn [fst snd]; [reflexivity|].
  destruct (current_rate d =? 48000); cbn [fst snd]; [reflexivity|].
  cbn [sample_accumulator set_sample_accumulator].
  destruct (SL3_FRAC_DENOM <=? _); reflexivity.
Qed.

Lemma ring_of_ext (s1 s2 : sl3_stream) :
  substream s1 = substream s2 -> ring_of s1 = ring_of s2.
Proof. intros H. unfold ring_of, runtime_of. rewrite H. reflexivity. Qed.

Lemma ring_ok_ext (s1 s2 : sl3_stream) :
  substream s1 = substream s2 -> ring_ok s1 -> ring_ok s2.
Proof. intros H. unfold ring_ok. rewrite (ring_of_ext _ _ H). tauto. Qed.

(** With a ring that has a size the packet body runs to its end. *)
Lemma fill_packet_stream (idx i : nat) (s off : Z) (d : sl3_device) :
  ring_ok (playback d) ->
  let p := playback d in
  let r := fill_packet idx i s off d in
  let p1 := playback (state r) in
  retval r = true
  /\ substream p1 = substream p
  /\ running p1 = running p
  /\ match ring_of p with
     | Some _ =>
         hwptr p1 = u32 (hwptr p + s)
         /\ transfer_done p1 = u32 (transfer_done p + s)
     | None => hwptr p1 = hwptr p /\ transfer_done p1 = transfer_done p
     end.
Proof.
  intros Hok. unfold ring_ok in Hok. unfold fill_packet. run_monad.
  cbn [playback set_playback upd_urb upd_stream stream_of set_stream].
  assert (E : ring_of (set_urbs
                (alter (set_iso_desc i off (u32 (s * SL3_BYTES_PER_FRAME))) idx
                   (urbs (playback d))) (playback d)) = ring_of (playback d))
    by (apply ring_of_ext; reflexivity).
  rewrite E. destruct (ring_of (playback d)) as [[rt area]|].
  - apply Z.eqb_neq in Hok. rewrite Hok.
    cbn [fst snd playback set_playback upd_urb upd_stream stream_of set_stream
         substream running hwptr transfer_done set_urbs set_hwptr
         set_transfer_done]; repeat split.
  - cbn [fst snd playback set_playback upd_urb upd_stream stream_of set_stream
         substream running hwptr transfer_done set_urbs set_hwptr
         set_transfer_done]; repeat split.
Qed.

(** With a ring whose size is 0 as an unsigned int the packet body traps. *)
Lemma fill_packet_trap (idx i : nat) (s off : Z) (d : sl3_device)
    (rt : snd_pcm_runtime) (area : list byte) :
  ring_of (playback d) = Some (rt, area) ->
  u32 (buffer_size rt) = 0 ->
  retval (fill_packet idx i s off d) = false.
Proof.
  intros Hring Hz. unfold fill_packet. run_monad.
  cbn [playback set_playback upd_urb upd_stream stream_of set_stream].
  assert (E : ring_of (set_urbs
                (alter (set_iso_desc i off (u32 (s * SL3_BYTES_PER_FRAME))) idx
                   (urbs (playback d))) (playback d)) = ring_of (playback d))
    by (apply ring_of_ext; reflexivity).
  rewrite E, Hring, Hz. reflexivity.
Qed.

(** One turn of the fill loop. *)
Lemma fill_loop_unroll (idx n : nat) (fb off : Z) (d : sl3_device) :
  ring_ok (playback d) ->
  let i := (Z.to_nat SL3_ISO_PACKETS - S n)%nat in
  let r0 := playback_packet_samples i fb d in
  let s := fst (retval r0) in
  let d1 := state (fill_packet idx i s off (state r0)) in
  let r := fill_playback_loop idx n (snd (retval r0))
             (u32 (off + u32 (s * SL3_BYTES_PER_FRAME))) d1 in
  state (fill_playback_loop idx (S n) fb off d) = state r
  /\ retval (fill_playback_loop idx (S n) fb off d) = retval r.
Proof.
  intros Hok. cbn zeta.
  set (i := (Z.to_nat SL3_ISO_PACKETS - S n)%nat).
  set (r0 := playback_packet_samples i fb d).
  assert (Hok0 : ring_ok (playback (state r0)))
    by (subst r0; rewrite packet_samples_playback; exact Hok).
  destruct (fill_packet_stream idx i (fst (retval r0)) off (state r0) Hok0)
    as [Ht _].
  cbn [fill_playback_loop]. fold i.
  rewrite !state_bind, !retval_bind. fold r0. rewrite Ht.
  split; reflexivity.
Qed.

Lemma fill_loop_stream (idx n : nat) : forall fb off d,
  stream_wf (playback d) ->
  ring_ok (playback d) ->
  let p := playback d in
  let p' := playback (state (fill_playback_loop idx n fb off d)) in
  let a := sumZ (packet_plan n fb d) in
  substream p' = substream p
  /\ running p' = running p
  /\ match ring_of p with
     | Some _ =>
         hwptr p' = u32 (hwptr p + a)
         /\ transfer_done p' = u32 (transfer_done p + a)
     | None => hwptr p' = hwptr p /\ transfer_done p' = transfer_done p
     end.
Proof.
  induction n as [|n IH]; intros fb off d Hwf Hok.
  - cbn. destruct Hwf as [Hh Ht]. rewrite !Z.add_0_r.
    rewrite !u32_small by assumption.
    destruct (ring_of (playback d)); repeat split.
  - cbn zeta.
    destruct (fill_loop_unroll idx n fb off d Hok) as [Hst _]. cbn zeta in Hst.
    rewrite Hst. rewrite (packet_plan_unroll idx n fb off d).
    set (i := (Z.to_nat SL3_ISO_PACKETS - S n)%nat) in *.
    set (r0 := playback_packet_samples i fb d) in *.
    set (s := fst (retval r0)) in *.
    set (d1 := state (fill_packet idx i s off (state r0))) in *.
    pose proof (packet_samples_playback i fb d) as Hp0. fold r0 in Hp0.
    assert (Hok0 : ring_ok (playback (state r0)))
      by (rewrite Hp0; exact Hok).
    destruct (fill_packet_stream idx i s off (state r0) Hok0)
      as (_ & Hs1 & Hr1 & Ha1).
    fold d1 in Hs1, Hr1, Ha1. rewrite Hp0 in Hs1, Hr1, Ha1.
    assert (Hwf1 : stream_wf (playback d1)).
    { unfold stream_wf. destruct (ring_of (playback d)).
      - destruct Ha1 as [-> ->]. split; apply u32_range.
      - destruct Ha1 as [-> ->]. exact Hwf. }
    assert (Hok1 : ring_ok (playback d1))
      by (apply (ring_ok_ext (playback d)); [symmetry; exact Hs1 | exact Hok]).
    destruct (IH (snd (retval r0))
                (u32 (off + u32 (s * SL3_BYTES_PER_FRAME))) d1 Hwf1 Hok1)
      as (Hs2 & Hr2 & Ha2).
    split; [congruence|]. split; [congruence|].
    rewrite (ring_of_ext _ _ Hs1) in Ha2.
    cbn [sumZ fold_right].
    fold (sumZ (packet_plan n (snd (retval r0)) d1)).
    destruct (ring_of (playback d)).
    + destruct Ha1 as [Hh1 Ht1], Ha2 as [Hh2 Ht2].
      rewrite Hh2, Ht2, Hh1, Ht1, !u32_add_l, !Z.add_assoc. split; reflexivity.
    + destruct Ha1 as [Hh1 Ht1], Ha2 as [Hh2 Ht2]. split; congruence.
Qed.

(** ** Effect of the fill loop on the URB *)

Lemma alter_layout (i : nat) (off len : Z) (ps : list iso_packet) :
  map (fun p => (iso_offset p, iso_length p))
    (alter (fun p => {| iso_offset := off; iso_length := len;
                        iso_actual_length := iso_actual_length p |}) i ps)
  = <[i := (off, len)]> (map (fun p => (iso_offset p, iso_length p)) ps).
Proof.
  revert i. induction ps as [|p ps IH]; intros [|i]; cbn; try reflexivity.
  f_equal. apply IH.
Qed.

Lemma desc_layout_set (i : nat) (off len : Z) (u : sl3_urb_ctx) :
  desc_layout (set_iso_desc i off len u) = <[i := (off, len)]> (desc_layout u).
Proof. unfold desc_layout, set_iso_desc. cbn. apply alter_layout. Qed.

Lemma desc_layout_length (u : sl3_urb_ctx) :
  length (desc_layout u) = length (iso_frame_desc u).
Proof. unfold desc_layout. apply length_map. Qed.

Lemma fill_packet_urb (idx i : nat) (s off : Z) (d : sl3_device)
    (u : sl3_urb_ctx) :
  ring_ok (playback d) ->
  urbs (playback d) !! idx = Some u ->
  let bytes := u32 (s * SL3_BYTES_PER_FRAME) in
  urbs (playback (state (fill_packet idx i s off d))) !! idx
  = Some (set_buffer (packet_buffer d (set_iso_desc i off bytes u) off bytes)
            (set_iso_desc i off bytes u)).
Proof.
  intros Hok Hu. unfold ring_ok in Hok. unfold fill_packet, packet_buffer.
  run_monad.
  cbn [playback set_playback upd_urb upd_stream stream_of set_stream].
  assert (E : ring_of (set_urbs
                (alter (set_iso_desc i off (u32 (s * SL3_BYTES_PER_FRAME))) idx
                   (urbs (playback d))) (playback d)) = ring_of (playback d))
    by (apply ring_of_ext; reflexivity).
  rewrite E. destruct (ring_of (playback d)) as [[rt area]|].
  - apply Z.eqb_neq in Hok. rewrite Hok.
    cbn [fst snd playback set_playback upd_urb upd_stream stream_of set_stream
         urbs set_urbs set_hwptr set_transfer_done hwptr].
    rewrite !list_lookup_alter_eq, Hu. reflexivity.
  - cbn [fst snd playback set_playback upd_urb upd_stream stream_of set_stream
         urbs set_urbs set_hwptr set_transfer_done hwptr].
    rewrite !list_lookup_alter_eq, Hu. reflexivity.
Qed.

Lemma zero_fill_compose (buf : list byte) (a b c : nat) :
  (a + b <= length buf)%nat ->
  let buf1 := write_at buf a (repeat x00 b) in
  length buf1 = length buf
  /\ take (a + b) buf1 ++ repeat x00 c ++ drop (a + b + c) buf1
     = take a buf ++ repeat x00 (b + c) ++ drop (a + b + c) buf.
Proof.
  intros Hlen. cbn zeta. unfold write_at. rewrite repeat_length.
  split.
  - rewrite !length_app, length_take, repeat_length, length_drop. lia.
  - rewrite (app_assoc (take a buf)).
    rewrite take_app_length'
      by (rewrite length_app, length_take, repeat_length; lia).
    rewrite drop_app_ge
      by (rewrite length_app, length_take, repeat_length; lia).
    rewrite length_app, length_take, repeat_length.
    rewrite drop_drop. rewrite repeat_app, <- !app_assoc.
    do 4 f_equal. lia.
Qed.

Lemma fill_loop_urb (idx n : nat) : forall fb off d u,
  (n <= 8)%nat ->
  0 <= off -> off + 126 * Z.of_nat n <= 1008 ->
  ring_ok (playback d) ->
  urbs (playback d) !! idx = Some u ->
  length (iso_frame_desc u) = 8%nat ->
  let r := fill_playback_loop idx n fb off d in
  let plan := packet_plan n fb d in
  let total := sumZ plan * SL3_BYTES_PER_FRAME in
  retval r = Some (off + total)
  /\ exists u',
       urbs (playback (state r)) !! idx = Some u'
       /\ desc_layout u' = take (8 - n) (desc_layout u) ++ layout off plan
       /\ urb_allocated u' = urb_allocated u
       /\ urb_in_flight u' = urb_in_flight u
       /\ error_retries u' = error_retries u
       /\ transfer_buffer_length u' = transfer_buffer_length u
       /\ (ring_of (playback d) = None ->
           length (buffer u) = 1008%nat ->
           length (buffer u') = 1008%nat
           /\ buffer u'
              = take (Z.to_nat off) (buffer u)
                ++ repeat x00 (Z.to_nat total)
                ++ drop (Z.to_nat (off + total)) (buffer u)).
Proof.
  induction n as [|n IH]; intros fb off d u Hn Hoff Hfit Hok Hu Hdesc.
  - cbn. split; [f_equal; lia|]. exists u. rewrite Hu.
    rewrite firstn_all2 by (rewrite desc_layout_length; lia).
    rewrite app_nil_r, Z.add_0_r.
    repeat split; first [assumption | symmetry; apply take_drop].
  - cbn zeta.
    destruct (fill_loop_unroll idx n fb off d Hok) as [Hst Hrv].
    cbn zeta in Hst, Hrv.
    rewrite Hst, Hrv. rewrite (packet_plan_unroll idx n fb off d).
    set (i := (Z.to_nat SL3_ISO_PACKETS - S n)%nat) in *.
    assert (Hi : i = (7 - n)%nat) by (subst i; unfold SL3_ISO_PACKETS; lia).
    set (r0 := playback_packet_samples i fb d) in *.
    set (s := fst (retval r0)) in *.
    set (d1 := state (fill_packet idx i s off (state r0))) in *.
    pose proof (packet_samples_range i fb d ltac:(lia)) as Hs.
    fold r0 in Hs. fold s in Hs.
    pose proof (packet_samples_playback i fb d) as Hp0. fold r0 in Hp0.
    assert (Hbytes : u32 (s * SL3_BYTES_PER_FRAME) = s * SL3_BYTES_PER_FRAME)
      by (apply u32_small; unfold SL3_BYTES_PER_FRAME; lia).
    assert (Hoff' : u32 (off + u32 (s * SL3_BYTES_PER_FRAME))
                    = off + s * SL3_BYTES_PER_FRAME).
    { rewrite Hbytes. apply u32_small. unfold SL3_BYTES_PER_FRAME. lia. }
    assert (Hu0 : urbs (playback (state r0)) !! idx = Some u)
      by (rewrite Hp0; exact Hu).
    assert (Hok0 : ring_ok (playback (state r0)))
      by (rewrite Hp0; exact Hok).
    assert (Hok1 : ring_ok (playback d1)).
    { destruct (fill_packet_stream idx i s off (state r0) Hok0)
        as (_ & Hs1 & _).
      apply (ring_ok_ext (playback (state r0))); [symmetry; exact Hs1|].
      exact Hok0. }
    pose proof (fill_packet_urb idx i s off (state r0) u Hok0 Hu0) as Hu1.
    cbn zeta in Hu1. fold d1 in Hu1. rewrite Hbytes in Hu1.
    set (u0 := set_iso_desc i off (s * SL3_BYTES_PER_FRAME) u) in *.
    set (u1 := set_buffer
                 (packet_buffer (state r0) u0 off (s * SL3_BYTES_PER_FRAME)) u0)
      in *.
    rewrite Hoff'.
    destruct (IH (snd (retval r0)) (off + s * SL3_BYTES_PER_FRAME) d1 u1)
      as (Hret & u' & Hu' & Hlay & Hal & Hfl & Her & Htl & Hbuf);
      [lia | unfold SL3_BYTES_PER_FRAME; lia
       | unfold SL3_BYTES_PER_FRAME; lia | exact Hok1 | exact Hu1
       | subst u1 u0; cbn; rewrite length_alter; exact Hdesc | ].
    cbn [sumZ fold_right].
    fold (sumZ (packet_plan n (snd (retval r0)) d1)).
    set (rest := sumZ (packet_plan n (snd (retval r0)) d1)) in *.
    split; [rewrite Hret; f_equal; lia|].
    exists u'. split; [exact Hu'|].
    split.
    { rewrite Hlay. subst u1. unfold desc_layout at 1.
      cbn [iso_frame_desc set_buffer]. fold (desc_layout u0).
      subst u0. rewrite desc_layout_set.
      replace (8 - n)%nat with (S i) by lia.
      rewrite (take_S_r _ i (off, s * SL3_BYTES_PER_FRAME))
        by (apply list_lookup_insert_eq; rewrite desc_layout_length; lia).
      rewrite take_insert_ge by lia.
      replace (8 - S n)%nat with i by lia.
      rewrite <- app_assoc. reflexivity. }
    split; [rewrite Hal; reflexivity|].
    split; [rewrite Hfl; reflexivity|].
    split; [rewrite Her; reflexivity|].
    split; [rewrite Htl; reflexivity|].
    intros Hring Hlen.
    assert (Hring0 : ring_of (playback (state r0)) = None)
      by (rewrite Hp0; exact Hring).
    assert (Hring1 : ring_of (playback d1) = None).
    { destruct (fill_packet_stream idx i s off (state r0) Hok0)
        as (_ & Hs1 & _).
      fold d1 in Hs1. rewrite (ring_of_ext _ _ Hs1). exact Hring0. }
    assert (Hb1 : buffer u1
                  = write_at (buffer u) (Z.to_nat off)
                      (repeat x00 (Z.to_nat (s * SL3_BYTES_PER_FRAME)))).
    { subst u1. cbn [buffer set_buffer]. unfold packet_buffer.
      rewrite Hring0. reflexivity. }
    destruct (zero_fill_compose (buffer u) (Z.to_nat off)
                (Z.to_nat (s * SL3_BYTES_PER_FRAME))
                (Z.to_nat (rest * SL3_BYTES_PER_FRAME))) as [Hl1 Hcomp];
      [unfold SL3_BYTES_PER_FRAME; lia|].
    cbn zeta in Hl1, Hcomp. rewrite <- Hb1 in Hl1, Hcomp.
    destruct (Hbuf Hring1) as [Hl' Hb']; [congruence|].
    split; [exact Hl'|].
    assert (Hrest : 0 <= rest).
    { subst rest.
      pose proof (packet_plan_range n (snd (retval r0)) d1) as Hr.
      apply sumZ_range in Hr; lia. }
    rewrite Hb'.
    replace (Z.to_nat (off + s * SL3_BYTES_PER_FRAME))
      with (Z.to_nat off + Z.to_nat (s * SL3_BYTES_PER_FRAME))%nat
      by (unfold SL3_BYTES_PER_FRAME; lia).
    replace (Z.to_nat (off + s * SL3_BYTES_PER_FRAME + rest * SL3_BYTES_PER_FRAME))
      with (Z.to_nat off + Z.to_nat (s * SL3_BYTES_PER_FRAME)
            + Z.to_nat (rest * SL3_BYTES_PER_FRAME))%nat
      by (unfold SL3_BYTES_PER_FRAME; lia).
    rewrite Hcomp.
    replace (Z.to_nat ((s + rest) * SL3_BYTES_PER_FRAME))
      with (Z.to_nat (s * SL3_BYTES_PER_FRAME)
            + Z.to_nat (rest * SL3_BYTES_PER_FRAME))%nat
      by (unfold SL3_BYTES_PER_FRAME; lia).
    replace (Z.to_nat (off + (s + rest) * SL3_BYTES_PER_FRAME))
      with (Z.to_nat off + Z.to_nat (s * SL3_BYTES_PER_FRAME)
            + Z.to_nat (rest * SL3_BYTES_PER_FRAME))%nat
      by (unfold SL3_BYTES_PER_FRAME; lia).
    reflexivity.
Qed.

(** ** Implicit feedback *)







(** ** Sizing from the rate accumulator *)



Lemma next_samples_calls_range (n : nat) : forall d,
  Forall (fun s => 5 <= s <= 6) (next_samples_calls n d).
Proof.
  induction n as [|n IH]; intros d; [constructor|].
  cbn [next_samples_calls]. constructor; [|apply IH].
  pose proof (next_samples_value d) as H. cbn zeta in H. lia.
Qed.


(** Without feedback to distribute the sizing is [sl3_next_packet_samples]
    and the feedback count stays as it is. *)
Lemma packet_samples_nominal (i : nat) (fb : Z) (d : sl3_device) :
  running (capture d) && (0 <? fb) = false ->
  let r := playback_packet_samples i fb d in
  retval r = (retval (sl3_next_packet_samples d), fb)
  /\ state r = state (sl3_next_packet_samples d).
Proof.
  intros H. unfold playback_packet_samples. run_monad. rewrite H.
  split; reflexivity.
Qed.

Lemma next_samples_capture (d : sl3_device) :
  running (capture (state (sl3_next_packet_samples d))) = running (capture d).
Proof.
  unfold sl3_next_packet_samples. run_monad.
  destruct (current_rate d =? 48000); cbn [fst snd]; [reflexivity|].
  cbn [sample_accumulator set_sample_accumulator].
  destruct (SL3_FRAC_DENOM <=? _); reflexivity.
Qed.


Lemma packet_plan_nominal (n : nat) : forall fb d,
  running (capture d) && (0 <? fb) = false ->
  packet_plan n fb d = next_samples_calls n d.
Proof.
  induction n as [|n IH]; intros fb d Hnf; [reflexivity|].
  cbn [packet_plan next_samples_calls].
  destruct (packet_samples_nominal (Z.to_nat SL3_ISO_PACKETS - S n) fb d Hnf)
    as [Hrv Hsv].
  cbn zeta in Hrv, Hsv. rewrite Hrv, Hsv. cbn [fst snd]. f_equal.
  apply IH. rewrite next_samples_capture. exact Hnf.
Qed.



(** ** The whole fill *)

Lemma layout_samples (off : Z) (ss : list Z) :
  map (fun x => snd x / SL3_BYTES_PER_FRAME) (layout off ss) = ss.
Proof.
  revert off. induction ss as [|s ss IH]; intros off; [reflexivity|].
  cbn [layout map snd]. rewrite IH. f_equal.
  apply Z.div_mul. unfold SL3_BYTES_PER_FRAME. lia.
Qed.

Lemma urb_samples_layout (u : sl3_urb_ctx) (off : Z) (ss : list Z) :
  desc_layout u = layout off ss -> urb_samples u = ss.
Proof.
  intros H. unfold urb_samples, desc_layout in *.
  rewrite <- (layout_samples off ss), <- H, map_map. reflexivity.
Qed.

Lemma layout_bounds (ss : list Z) : forall off,
  Forall (fun s => 0 <= s) ss ->
  Forall (fun x => off <= fst x /\ 0 <= snd x
                   /\ fst x + snd x <= off + sumZ ss * SL3_BYTES_PER_FRAME)
    (layout off ss).
Proof.
  induction ss as [|s ss IH]; intros off H; [constructor|].
  inversion H as [|? ? Hs Hss]; subst.
  assert (Hsum : 0 <= sumZ ss).
  { clear -Hss. induction Hss; cbn; [lia|]. fold (sumZ l). lia. }
  cbn [layout sumZ fold_right]. fold (sumZ ss).
  constructor.
  - cbn [fst snd]. unfold SL3_BYTES_PER_FRAME. lia.
  - eapply Forall_impl; [apply (IH (off + s * SL3_BYTES_PER_FRAME) Hss)|].
    intros [o l]. cbn [fst snd]. unfold SL3_BYTES_PER_FRAME. lia.
Qed.

Lemma zero_slice (rest : list byte) (t o l : nat) :
  (o + l <= t)%nat ->
  take l (drop o (repeat x00 t ++ rest)) = repeat x00 l.
Proof.
  intros H. rewrite drop_app_le by (rewrite repeat_length; lia).
  rewrite drop_repeat. rewrite take_app_le by (rewrite repeat_length; lia).
  rewrite <- (repeat_length x00 l) at 1.
  replace (t - o)%nat with (l + (t - o - l))%nat by lia.
  rewrite repeat_app. apply take_app_length.
Qed.

(** [sl3_fill_playback_urb] is [fill_n] at [SL3_ISO_PACKETS] packets.  The
    packet count is kept as a variable so that proofs never unfold the loop. *)
Lemma fill_n_state (idx n : nat) (d : sl3_device) (offset : Z) :
  retval (fill_playback_loop idx n (feedback_samples d) 0 d) = Some offset ->
  retval (fill_n idx n d) = true
  /\ state (fill_n idx n d)
     = upd_urb Playback idx (set_transfer_buffer_length offset)
         (state (fill_playback_loop idx n (feedback_samples d) 0 d)).
Proof.
  intros H. unfold fill_n.
  rewrite !state_bind, !retval_bind.
  change (retval (gets feedback_samples d)) with (feedback_samples d).
  change (state (gets feedback_samples d)) with d.
  rewrite H. split; reflexivity.
Qed.

Lemma fill_n_trap (idx n : nat) (d : sl3_device) :
  retval (fill_playback_loop idx n (feedback_samples d) 0 d) = None ->
  retval (fill_n idx n d) = false.
Proof.
  intros H. unfold fill_n.
  rewrite !retval_bind.
  change (retval (gets feedback_samples d)) with (feedback_samples d).
  change (state (gets feedback_samples d)) with d.
  rewrite H. reflexivity.
Qed.

Lemma fill_urb_is_fill_n (idx : nat) : sl3_fill_playback_urb idx = fill_n idx 8.
Proof. reflexivity. Qed.

Lemma upd_urb_stream (idx : nat) (f : sl3_urb_ctx -> sl3_urb_ctx)
    (d : sl3_device) :
  let p := playback d in
  let p' := playback (upd_urb Playback idx f d) in
  substream p' = substream p /\ running p' = running p
  /\ hwptr p' = hwptr p /\ transfer_done p' = transfer_done p
  /\ urbs p' = alter f idx (urbs p).
Proof. repeat split. Qed.


(** The fill loop returns when no packet traps. *)
Lemma fill_loop_returns (idx n : nat) : forall fb off d,
  ring_ok (playback d) ->
  is_Some (retval (fill_playback_loop idx n fb off d)).
Proof.
  induction n as [|n IH]; intros fb off d Hok; [eexists; reflexivity|].
  destruct (fill_loop_unroll idx n fb off d Hok) as [_ Hrv]. cbn zeta in Hrv.
  rewrite Hrv. apply IH.
  set (r0 := playback_packet_samples _ fb d).
  assert (Hok0 : ring_ok (playback (state r0)))
    by (subst r0; rewrite packet_samples_playback; exact Hok).
  destruct (fill_packet_stream idx (Z.to_nat SL3_ISO_PACKETS - S n)
              (fst (retval r0)) off (state r0) Hok0) as (_ & Hs1 & _).
  apply (ring_ok_ext (playback (state r0))); [symmetry; exact Hs1 | exact Hok0].
Qed.

(** The state after a fill that does not trap. *)
Lemma fill_urb_unfold (idx : nat) (d : sl3_device) :
  ring_ok (playback d) ->
  exists (n : nat) (offset : Z),
    n = 8%nat
    /\ retval (fill_playback_loop idx n (feedback_samples d) 0 d) = Some offset
    /\ retval (sl3_fill_playback_urb idx d) = true
    /\ state (sl3_fill_playback_urb idx d)
       = upd_urb Playback idx (set_transfer_buffer_length offset)
           (state (fill_playback_loop idx n (feedback_samples d) 0 d)).
Proof.
  intros Hok.
  destruct (fill_loop_returns idx 8 (feedback_samples d) 0 d Hok) as [o Ho].
  exists 8%nat, o. split; [reflexivity|]. split; [exact Ho|].
  rewrite fill_urb_is_fill_n. apply fill_n_state. exact Ho.
Qed.

(** The pointers after [sl3_fill_playback_urb]. *)
Lemma fill_urb_stream (idx : nat) (d : sl3_device) :
  stream_wf (playback d) ->
  ring_ok (playback d) ->
  let r := sl3_fill_playback_urb idx d in
  let p := playback d in
  let p' := playback (state r) in
  let a := sumZ (packet_plan 8 (feedback_samples d) d) in
  retval r = true
  /\ substream p' = substream p
  /\ running p' = running p
  /\ match ring_of p with
     | Some _ =>
         hwptr p' = u32 (hwptr p + a)
         /\ transfer_done p' = u32 (transfer_done p + a)
     | None => hwptr p' = hwptr p /\ transfer_done p' = transfer_done p
     end.
Proof.
  intros Hwf Hok. cbn zeta.
  destruct (fill_urb_unfold idx d Hok) as (n & o & Hn & _ & Hrv & E).
  rewrite E. split; [exact Hrv|].
  destruct (upd_urb_stream idx (set_transfer_buffer_length o)
              (state (fill_playback_loop idx n (feedback_samples d) 0 d)))
    as (-> & -> & -> & -> & _).
  subst n. apply (fill_loop_stream idx 8 (feedback_samples d) 0 d Hwf Hok).
Qed.

(** The fill of a stream whose ring has size 0 traps in its first packet. *)
Lemma fill_urb_trap (idx : nat) (d : sl3_device) (rt : snd_pcm_runtime)
    (area : list byte) :
  ring_of (playback d) = Some (rt, area) ->
  u32 (buffer_size rt) = 0 ->
  retval (sl3_fill_playback_urb idx d) = false.
Proof.
  intros Hring Hz. rewrite fill_urb_is_fill_n. apply fill_n_trap.
  generalize (feedback_samples d) at 1. intros fb.
  change 8%nat with (S 7). generalize 7%nat. intros n.
  cbn [fill_playback_loop]. rewrite !retval_bind.
  set (r0 := playback_packet_samples _ fb d).
  rewrite (fill_packet_trap idx _ (fst (retval r0)) 0 (state r0) rt area);
    [reflexivity | | exact Hz].
  subst r0. rewrite packet_samples_playback. exact Hring.
Qed.

(** The state after [sl3_fill_playback_urb], in terms of the packet plan. *)
Lemma fill_playback_urb_effect (idx : nat) (d : sl3_device) (u : sl3_urb_ctx) :
  ring_ok (playback d) ->
  urbs (playback d) !! idx = Some u ->
  length (iso_frame_desc u) = 8%nat ->
  let d' := state (sl3_fill_playback_urb idx d) in
  let u' := urb_of Playback idx d' in
  let plan := packet_plan 8 (feedback_samples d) d in
  let total := sumZ plan * SL3_BYTES_PER_FRAME in
  desc_layout u' = layout 0 plan
  /\ urb_samples u' = plan
  /\ transfer_buffer_length u' = total
  /\ urb_allocated u' = urb_allocated u
  /\ urb_in_flight u' = urb_in_flight u
  /\ error_retries u' = error_retries u
  /\ (ring_of (playback d) = None -> length (buffer u) = 1008%nat ->
      buffer u' = repeat x00 (Z.to_nat total)
                  ++ drop (Z.to_nat total) (buffer u)).
Proof.
  intros Hok Hu Hdesc. cbn zeta.
  destruct (fill_urb_unfold idx d Hok) as (n & o & Hn & Ho & _ & E).
  destruct (fill_loop_urb idx n (feedback_samples d) 0 d u)
    as (Hret & u1 & Hu1 & Hlay & Hal & Hfl & Her & _ & Hbuf);
    [lia | lia | lia | exact Hok | exact Hu | exact Hdesc |].
  rewrite Ho in Hret. injection Hret as Hret.
  assert (E2 : urb_of Playback idx (state (sl3_fill_playback_urb idx d))
               = set_transfer_buffer_length o u1).
  { rewrite E. unfold urb_of.
    destruct (upd_urb_stream idx (set_transfer_buffer_length o)
                (state (fill_playback_loop idx n (feedback_samples d) 0 d)))
      as (_ & _ & _ & _ & Hurbs).
    cbn [stream_of]. rewrite Hurbs, list_lookup_alter_eq, Hu1. reflexivity. }
  rewrite E2, Hret. clear E E2 Ho. subst n.
  replace (8 - 8)%nat with 0%nat in Hlay by reflexivity.
  rewrite take_0 in Hlay. rewrite app_nil_l in Hlay.
  split; [exact Hlay|].
  split; [apply (urb_samples_layout _ 0); exact Hlay|].
  split; [cbn [transfer_buffer_length set_transfer_buffer_length]; lia|].
  split; [exact Hal|]. split; [exact Hfl|]. split; [exact Her|].
  intros Hring Hlen. destruct (Hbuf Hring Hlen) as [_ Hb].
  cbn [buffer set_transfer_buffer_length]. rewrite Hb.
  rewrite Z.add_0_l. reflexivity.
Qed.







(** Above [2^32 - 8] the ceiling division wraps as an unsigned int: with
    [2^32 - 1] in the feedback count the first seven packets are empty. *)
Example feedback_wraps :
  urb_samples (urb_of Playback 0
                 (state (sl3_fill_playback_urb 0
                           (feedback_dev (2 ^ 32 - 1) probed_dev))))
  = [0; 0; 0; 0; 0; 0; 0; 7].
Proof. vm_compute. reflexivity. Qed.

Lemma zero_packets (u : sl3_urb_ctx) (plan : list Z) (rest : list byte) :
  desc_layout u = layout 0 plan ->
  Forall (fun s => 0 <= s <= 7) plan ->
  Forall (fun p => take (Z.to_nat (iso_length p))
                     (drop (Z.to_nat (iso_offset p))
                        (repeat x00 (Z.to_nat (sumZ plan * SL3_BYTES_PER_FRAME))
                         ++ rest))
                   = repeat x00 (Z.to_nat (iso_length p))) (iso_frame_desc u).
Proof.
  unfold desc_layout. intros Hlay Hplan.
  assert (Hpos : Forall (fun s => 0 <= s) plan).
  { eapply Forall_impl; [exact Hplan|]. intros s Hs0. cbn beta in Hs0. lia. }
  pose proof (layout_bounds plan 0 Hpos) as Hb.
  rewrite <- Hlay in Hb. rewrite Forall_map in Hb.
  eapply Forall_impl; [exact Hb|].
  intros p (H1 & H2 & H3). cbn [fst snd] in H1, H2, H3.
  apply zero_slice. unfold SL3_BYTES_PER_FRAME in H3 |- *. lia.
Qed.

(** C10 (fill without a host ring).  Filling URB [idx] of a playback stream
    sizes the eight packets by [plan], the counts the packet sizing returns,
    each between 0 and 7 frames and 5 or 6 when no feedback is distributed.
    - Unless a ring of size 0 is attached, the fill returns with the eight
      descriptors laid out back to back from offset 0, [plan] frames of 18
      bytes each, and with their total as [transfer_buffer_length].
    - With no runtime, or a runtime without a DMA area: [hwptr] and
      [transfer_done] are as before, the first [transfer_buffer_length]
      bytes of the buffer are zeros, and so is every packet.
    - With a runtime that has a DMA area and a buffer size that is not 0 as
      an unsigned int: [hwptr] and [transfer_done] advance, as unsigned
      ints, by the frames of the eight packets.
    - With a DMA area and a buffer size of 0 the fill traps taking [hwptr]
      modulo it. *)
Theorem fill_advances_only_with_ring (idx : nat) (d : sl3_device)
    (u : sl3_urb_ctx) :
  urbs (playback d) !! idx = Some u ->
  length (iso_frame_desc u) = 8%nat ->
  length (buffer u) = 1008%nat ->
  stream_wf (playback d) ->
  let r := sl3_fill_playback_urb idx d in
  let d' := state r in
  let u' := urb_of Playback idx d' in
  let plan := packet_plan 8 (feedback_samples d) d in
  let total := sumZ plan * SL3_BYTES_PER_FRAME in
  (length plan = 8%nat
   /\ Forall (fun s => 0 <= s <= 7) plan
   /\ (running (capture d) && (0 <? feedback_samples d) = false ->
       plan = next_samples_calls 8 d
       /\ Forall (fun s => 5 <= s <= 6) plan))
  /\ (ring_ok (playback d) ->
      retval r = true
      /\ desc_layout u' = layout 0 plan
      /\ urb_samples u' = plan
      /\ transfer_buffer_length u' = total)
  /\ (ring_of (playback d) = None ->
      hwptr (playback d') = hwptr (playback d)
      /\ transfer_done (playback d') = transfer_done (playback d)
      /\ buffer u' = repeat x00 (Z.to_nat total)
                     ++ drop (Z.to_nat total) (buffer u)
      /\ Forall (fun p => take (Z.to_nat (iso_length p))
                            (drop (Z.to_nat (iso_offset p)) (buffer u'))
                          = repeat x00 (Z.to_nat (iso_length p)))
           (iso_frame_desc u')
      /\ take (Z.to_nat (transfer_buffer_length u')) (buffer u')
         = repeat x00 (Z.to_nat (transfer_buffer_length u')))
  /\ (forall rt area, ring_of (playback d) = Some (rt, area) ->
      if u32 (buffer_size rt) =? 0 then retval r = false
      else hwptr (playback d') = u32 (hwptr (playback d) + sumZ plan)
           /\ transfer_done (playback d')
              = u32 (transfer_done (playback d) + sumZ plan)).
Proof.
  intros Hu Hdesc Hlen Hwf. cbn zeta.
  split.
  { split; [apply packet_plan_length|].
    split; [apply packet_plan_range; lia|].
    intros Hnf. rewrite (packet_plan_nominal 8 _ d Hnf).
    split; [reflexivity | apply next_samples_calls_range]. }
  split.
  { intros Hok.
    destruct (fill_playback_urb_effect idx d u Hok Hu Hdesc)
      as (Hlay & Hs & Htbl & _).
    destruct (fill_urb_stream idx d Hwf Hok) as (Hrv & _).
    repeat split; assumption. }
  split.
  { intros Hring.
    assert (Hok : ring_ok (playback d))
      by (unfold ring_ok; rewrite Hring; exact I).
    destruct (fill_playback_urb_effect idx d u Hok Hu Hdesc)
      as (Hlay & Hs & Htbl & _ & _ & _ & Hbuf).
    destruct (fill_urb_stream idx d Hwf Hok) as (_ & _ & _ & Hptr).
    rewrite Hring in Hptr. destruct Hptr as [Hh Ht].
    split; [exact Hh|]. split; [exact Ht|].
    specialize (Hbuf Hring Hlen).
    split; [exact Hbuf|].
    split.
    + eapply Forall_impl.
      * apply (zero_packets _ _
                 (drop (Z.to_nat (sumZ (packet_plan 8 (feedback_samples d) d)
                                  * SL3_BYTES_PER_FRAME)) (buffer u)) Hlay).
        apply packet_plan_range. lia.
      * intros p Hp. rewrite Hbuf. exact Hp.
    + rewrite Hbuf, Htbl.
      apply take_app_length'. rewrite repeat_length. reflexivity. }
  intros rt area Hring.
  destruct (u32 (buffer_size rt) =? 0) eqn:Ez.
  - apply Z.eqb_eq in Ez. exact (fill_urb_trap idx d rt area Hring Ez).
  - apply Z.eqb_neq in Ez.
    assert (Hok : ring_ok (playback d))
      by (unfold ring_ok; rewrite Hring; exact Ez).
    destruct (fill_urb_stream idx d Hwf Hok) as (_ & _ & _ & Hptr).
    rewrite Hring in Hptr. exact Hptr.
Qed.

Lemma probed_stream_wf (dir : direction) : stream_wf (stream_of dir probed_dev).
Proof. destruct dir; repeat split; vm_compute; congruence. Qed.

(** Before a substream is opened the prepared URB is silence and the
    pointers rest; with a ring attached a 48 kHz URB moves them by 48. *)
Lemma fill_advances_only_with_ring_witness :
  (let d' := state (sl3_fill_playback_urb 0 probed_dev) in
   hwptr (playback d') = 0
   /\ transfer_done (playback d') = 0
   /\ take 864 (buffer (urb_of Playback 0 d')) = repeat x00 864)
  /\ (let d' := state (sl3_fill_playback_urb 0 (attach Playback 441 probed_dev)) in
      hwptr (playback d') = 48 /\ transfer_done (playback d') = 48).
Proof.
  split.
  - assert (Hwf : stream_wf (playback probed_dev))
      by (repeat split; vm_compute; congruence).
    destruct (fill_advances_only_with_ring 0 probed_dev
                (urb_of Playback 0 probed_dev)
                ltac:(vm_compute; reflexivity) ltac:(vm_compute; reflexivity)
                ltac:(vm_compute; reflexivity) Hwf) as (_ & _ & H & _).
    assert (Hring : ring_of (playback probed_dev) = None)
      by (vm_compute; reflexivity).
    destruct (H Hring) as (H1 & H2 & _ & _ & H4).
    vm_compute in H1, H2, H4. vm_compute.
    split; [exact H1|]. split; [exact H2 | exact H4].
  - assert (Hwf : stream_wf (playback (attach Playback 441 probed_dev)))
      by (repeat split; vm_compute; congruence).
    destruct (fill_advances_only_with_ring 0 (attach Playback 441 probed_dev)
                (urb_of Playback 0 probed_dev)
                ltac:(vm_compute; reflexivity) ltac:(vm_compute; reflexivity)
                ltac:(vm_compute; reflexivity) Hwf) as (_ & _ & _ & H).
    specialize (H (test_runtime 441) (repeat x00 1728)
                  ltac:(vm_compute; reflexivity)).
    vm_compute in H. vm_compute. exact H.
Defined.

(** A ring that is allocated while the buffer size still reads 0 makes the
    fill trap. *)
Example fill_traps_unsized :
  ring_of (playback unsized_dev) = Some (unsized_runtime, repeat x00 1728)
  /\ retval (sl3_fill_playback_urb 0 unsized_dev) = false.
Proof. vm_compute. split; reflexivity. Qed.

(** * Period reporting *)

Lemma period_loop_spec (fuel : nat) : forall ps T b,
  0 < ps -> 0 <= T < 2 ^ 32 -> T / ps <= Z.of_nat fuel ->
  period_loop fuel ps T b = Some (T mod ps, b || (ps <=? T)).
Proof.
  induction fuel as [|fuel IH]; intros ps T b Hps HT Hfuel;
    cbn [period_loop]; destruct (ps <=? T) eqn:E.
  - apply Z.leb_le in E.
    assert (1 <= T / ps) by (apply Z.div_le_lower_bound; lia). lia.
  - apply Z.leb_gt in E. rewrite Z.mod_small, orb_false_r by lia. reflexivity.
  - apply Z.leb_le in E. rewrite u32_small by lia.
    assert (Hd : (T - ps) / ps = T / ps - 1).
    { replace (T - ps) with (T + (-1) * ps) by lia.
      rewrite Z.div_add by lia. lia. }
    assert (Hm : (T - ps) mod ps = T mod ps).
    { replace (T - ps) with (T + (-1) * ps) by lia.
      apply Z.mod_add. lia. }
    rewrite IH by lia. rewrite Hm, orb_true_r. reflexivity.
  - apply Z.leb_gt in E. rewrite Z.mod_small, orb_false_r by lia. reflexivity.
Qed.

Lemma report_periods_spec (dir : direction) (rt : snd_pcm_runtime)
    (d : sl3_device) :
  0 < period_size rt ->
  0 <= transfer_done (stream_of dir d) < 2 ^ 32 ->
  report_periods dir (Some rt) d
  = Some (upd_stream dir
            (set_transfer_done
               (transfer_done (stream_of dir d) mod period_size rt)) d,
          if period_size rt <=? transfer_done (stream_of dir d)
          then [EvPeriodElapsed dir] else []).
Proof.
  intros Hps Htd. unfold report_periods.
  rewrite period_loop_spec; [reflexivity | exact Hps | exact Htd |].
  rewrite Z2Nat.id by lia.
  apply Z.div_le_upper_bound; [exact Hps | nia].
Qed.

(** ** Computations that report no period *)

Lemma count_elapsed_app (dir : direction) (a b : list event) :
  count_elapsed dir (a ++ b) = count_elapsed dir a + count_elapsed dir b.
Proof.
  induction a as [|e a IH]; cbn [app count_elapsed]; [reflexivity|].
  rewrite IH. lia.
Qed.

Lemma count_elapsed_range (dir : direction) (ev : list event) :
  0 <= count_elapsed dir ev.
Proof.
  induction ev as [|e ev IH]; cbn [count_elapsed]; [lia|].
  destruct (is_period_elapsed dir e); lia.
Qed.

Section Quiet.
Context (dir : direction).

Lemma quiet_ret {A} (a : A) : quiet dir (ret a).
Proof. intros d. reflexivity. Qed.

Lemma quiet_gets {A} (g : sl3_device -> A) : quiet dir (gets g).
Proof. intros d. reflexivity. Qed.

Lemma quiet_modify g : quiet dir (modify g).
Proof. intros d. reflexivity. Qed.

Lemma quiet_emit e : is_period_elapsed dir e = false -> quiet dir (emit e).
Proof. intros H d. cbn. rewrite H. reflexivity. Qed.

Lemma quiet_bind {A C} (m : M A) (k : A -> M C) :
  quiet dir m -> (forall a, quiet dir (k a)) -> quiet dir (bind m k).
Proof.
  intros Hm Hk d. unfold bind, events. cbn [fst snd].
  rewrite count_elapsed_app.
  specialize (Hm d). specialize (Hk (fst (fst (m d))) (snd (fst (m d)))).
  unfold events in Hm, Hk. lia.
Qed.

Lemma quiet_when b m : quiet dir m -> quiet dir (when b m).
Proof. intros H. destruct b; [exact H | apply quiet_ret]. Qed.

Lemma quiet_if {A} (b : bool) (m1 m2 : M A) :
  quiet dir m1 -> quiet dir m2 -> quiet dir (if b then m1 else m2).
Proof. intros H1 H2. destruct b; assumption. Qed.
End Quiet.

Ltac quiet_step :=
  first
    [ assumption
    | apply quiet_ret | apply quiet_gets | apply quiet_modify
    | apply quiet_emit; reflexivity
    | apply quiet_bind; [|intros ?]
    | apply quiet_when
    | apply quiet_if ].

Ltac quiet_auto := repeat quiet_step.

Lemma next_samples_quiet dir : quiet dir sl3_next_packet_samples.
Proof. unfold sl3_next_packet_samples. quiet_auto. Qed.









(** ** One completion *)




Lemma capture_resubmit_pointers err idx :
  keeps (pointers Capture) (capture_resubmit err idx).
Proof. unfold capture_resubmit, usb_submit_urb. keeps_auto. Qed.






(** ** The capture packet walk *)

Lemma urb_of_upd (dir : direction) (idx : nat)
    (f : sl3_urb_ctx -> sl3_urb_ctx) (d : sl3_device) :
  urb_of dir idx (upd_urb dir idx f d)
  = match urbs (stream_of dir d) !! idx with
    | Some u => f u
    | None => null_urb
    end.
Proof.
  unfold urb_of.
  assert (E : urbs (stream_of dir (upd_urb dir idx f d))
              = alter f idx (urbs (stream_of dir d)))
    by (destruct dir; reflexivity).
  rewrite E, list_lookup_alter_eq.
  destruct (urbs (stream_of dir d) !! idx); reflexivity.
Qed.

Lemma packets_ok_null : packets_ok null_urb.
Proof. constructor. Qed.




Lemma set_ring_area_period (area : list byte) (s : sl3_stream) :
  period_of (set_ring_area area s) = period_of s.
Proof.
  unfold set_ring_area, period_of.
  destruct (runtime_of s) as [rt|] eqn:E; [reflexivity | rewrite E; reflexivity].
Qed.

Lemma set_ring_area_fields (area : list byte) (s : sl3_stream) :
  urbs (set_ring_area area s) = urbs s
  /\ hwptr (set_ring_area area s) = hwptr s
  /\ transfer_done (set_ring_area area s) = transfer_done s
  /\ running (set_ring_area area s) = running s.
Proof. unfold set_ring_area. destruct (runtime_of s); repeat split. Qed.

Lemma set_ring_area_ok (area : list byte) (s : sl3_stream) :
  is_Some (ring_of s) -> ring_ok s -> ring_ok (set_ring_area area s).
Proof.
  unfold ring_ok, set_ring_area, ring_of.
  destruct (runtime_of s) as [rt|] eqn:E; [|intros [? H]; discriminate].
  destruct (dma_area rt); [|intros [? H]; discriminate].
  intros _ H. exact H.
Qed.

Lemma capture_packet_effect (idx i : nat) (d : sl3_device) :
  packets_ok (urb_of Capture idx d) ->
  stream_wf (capture d) ->
  ring_ok (capture d) ->
  let r := capture_packet idx i d in
  is_Some (retval r)
  /\ ring_ok (capture (state r))
  /\ count_elapsed Capture (events r) = 0
  /\ urb_of Capture idx (state r) = urb_of Capture idx d
  /\ period_of (capture (state r)) = period_of (capture d)
  /\ stream_wf (capture (state r))
  /\ exists a, 0 <= a <= 7
       /\ hwptr (capture (state r)) = u32 (hwptr (capture d) + a)
       /\ transfer_done (capture (state r))
          = u32 (transfer_done (capture d) + a).
Proof.
  intros Hok Hwf Hring. cbn zeta. unfold capture_packet. run_monad.
  set (u := urb_of Capture idx d) in *.
  set (p := default null_packet (iso_frame_desc u !! i)).
  assert (Hp : 0 <= iso_actual_length p <= SL3_MAX_PACKET_SIZE).
  { subst p. destruct (iso_frame_desc u !! i) as [q|] eqn:E; cbn.
    - eapply Forall_lookup_1 in E; [|exact Hok]. exact E.
    - unfold SL3_MAX_PACKET_SIZE. lia. }
  set (samples := iso_actual_length p / SL3_BYTES_PER_FRAME).
  assert (Hs : 0 <= samples <= 7).
  { subst samples. unfold SL3_MAX_PACKET_SIZE, SL3_BYTES_PER_FRAME in *.
    split; [apply Z.div_pos; lia|].
    apply Z.lt_succ_r. apply Z.div_lt_upper_bound; lia. }
  assert (Hidle : forall x : Z,
    is_Some (Some x)
    /\ ring_ok (capture d)
    /\ count_elapsed Capture [] = 0
    /\ urb_of Capture idx d = u
    /\ period_of (capture d) = period_of (capture d)
    /\ stream_wf (capture d)
    /\ exists a, 0 <= a <= 7
         /\ hwptr (capture d) = u32 (hwptr (capture d) + a)
         /\ transfer_done (capture d) = u32 (transfer_done (capture d) + a)).
  { intros x. split; [eexists; reflexivity|]. split; [exact Hring|].
    repeat split; try apply Hwf. exists 0.
    destruct Hwf as [Hh Ht]. rewrite !Z.add_0_r, !u32_small by assumption.
    repeat split; lia. }
  pose proof Hring as Hsize. unfold ring_ok in Hsize.
  destruct (ring_of (capture d)) as [[rt area]|] eqn:Hr;
    [|exact (Hidle samples)].
  destruct (u32 (samples * SL3_BYTES_PER_FRAME) =? 0);
    [exact (Hidle samples)|].
  apply Z.eqb_neq in Hsize. rewrite Hsize.
  cbn [fst snd app].
  set (A := urb_to_ring rt area (hwptr (capture d) mod u32 (buffer_size rt))
              (buffer u) (iso_offset p)
              (u32 (samples * SL3_BYTES_PER_FRAME))).
  destruct (set_ring_area_fields A (capture d)) as (Hu' & Hh' & Ht' & _).
  pose proof (set_ring_area_period A (capture d)) as Hper'.
  split; [eexists; reflexivity|].
  split.
  { apply (ring_ok_ext (set_ring_area A (capture d))); [reflexivity|].
    apply set_ring_area_ok; [rewrite Hr; eexists; reflexivity | exact Hring]. }
  split; [reflexivity|].
  split.
  { unfold urb_of.
    cbn [capture set_capture upd_stream stream_of set_stream urbs
         set_transfer_done set_hwptr].
    rewrite Hu'. reflexivity. }
  split; [exact Hper'|].
  split; [split; apply u32_range|].
  exists samples. split; [exact Hs|].
  split.
  - cbn [capture set_capture upd_stream stream_of set_stream hwptr
         set_transfer_done set_hwptr].
    rewrite Hh'. reflexivity.
  - cbn [capture set_capture upd_stream stream_of set_stream transfer_done
         set_transfer_done set_hwptr hwptr].
    rewrite Ht'. reflexivity.
Qed.



(** ** The USB core giving back a URB *)


(** ** Runs of completions *)







Example period_run_441 :
  option_map (fun r => (advances (snd r), signals Playback (snd r)))
    (stream_run Playback (repeat (0%nat, ok_result) 10) (busy_dev 441))
  = Some (repeat 48 10, [0; 0; 0; 0; 0; 0; 0; 0; 0; 1]).
Proof. vm_compute. reflexivity. Qed.


(** A completion on a running stream whose ring is allocated while the
    buffer size still reads 0 traps in the fill: the handler does not
    return. *)
Example completion_traps_unsized :
  urb_giveback Playback 0 ok_result unsized_dev = None.
Proof. vm_compute. reflexivity. Qed.

(** * Stop *)

(** ** [sl3_urb_stop] *)

Lemma killed_alter (l : list sl3_urb_ctx) : forall i,
  (if urb_allocated (default null_urb (l !! i))
   then alter (set_urb_in_flight false) i l else l)
  = alter killed i l.
Proof.
  induction l as [|x l IH]; intros [|i]; cbn.
  - reflexivity.
  - reflexivity.
  - unfold killed. destruct (urb_allocated x); reflexivity.
  - specialize (IH i).
    destruct (urb_allocated (default null_urb (l !! i)));
      f_equal; exact IH.
Qed.

Lemma alter_sweep {A} (f : A -> A) (l : list A) : forall i,
  take (S i) (alter f i l) ++ map f (drop (S i) (alter f i l))
  = take i l ++ map f (drop i l).
Proof.
  induction l as [|x l IH]; intros [|i]; cbn; try reflexivity.
  f_equal. apply IH.
Qed.

(** The device after one iteration of the kill loop. *)
Lemma kill_all_step (dir : direction) (n : nat) (d : sl3_device) :
  let i := (SL3_NUM_URBS - S n)%nat in
  exists d1,
    state (kill_all dir (S n) d) = state (kill_all dir n d1)
    /\ urbs (stream_of dir d1) = alter killed i (urbs (stream_of dir d))
    /\ stopped_obs dir d1 = stopped_obs dir d
    /\ disconnected d1 = disconnected d
    /\ (forall dir', dir' <> dir -> stream_of dir' d1 = stream_of dir' d).
Proof.
  cbn zeta. cbn [kill_all]. unfold usb_kill_urb, urb_of. run_monad.
  rewrite <- killed_alter.
  destruct (urb_allocated
              (default null_urb (urbs (stream_of dir d) !! (SL3_NUM_URBS - S n)%nat)));
    cbn [fst snd].
  - eexists. split; [reflexivity|].
    destruct dir; (repeat split; try reflexivity);
      intros [] H; try reflexivity; congruence.
  - exists d. repeat split; reflexivity.
Qed.

Lemma kill_all_urbs (dir : direction) (n : nat) : forall d,
  (n <= SL3_NUM_URBS)%nat ->
  (length (urbs (stream_of dir d)) <= SL3_NUM_URBS)%nat ->
  let d' := state (kill_all dir n d) in
  urbs (stream_of dir d')
  = take (SL3_NUM_URBS - n) (urbs (stream_of dir d))
    ++ map killed (drop (SL3_NUM_URBS - n) (urbs (stream_of dir d)))
  /\ stopped_obs dir d' = stopped_obs dir d
  /\ disconnected d' = disconnected d
  /\ (forall dir', dir' <> dir -> stream_of dir' d' = stream_of dir' d).
Proof.
  induction n as [|n IH]; intros d Hn Hl; cbn zeta.
  - cbn [kill_all]. rewrite Nat.sub_0_r.
    change (state (ret () d)) with d.
    rewrite take_ge, drop_ge by lia.
    split; [symmetry; apply app_nil_r | repeat split; reflexivity].
  - destruct (kill_all_step dir n d) as (d1 & E & U1 & O1 & G1 & F1).
    cbn zeta in U1. rewrite E.
    destruct (IH d1) as (U & O & G & F);
      [lia | rewrite U1, length_alter; exact Hl |].
    rewrite U, O, G, O1, G1, U1.
    replace (SL3_NUM_URBS - n)%nat with (S (SL3_NUM_URBS - S n)) by lia.
    rewrite alter_sweep.
    repeat split; try reflexivity.
    intros dir' H. rewrite F, F1 by exact H. reflexivity.
Qed.

Lemma killed_idle (u : sl3_urb_ctx) :
  (urb_in_flight u = true -> urb_allocated u = true) ->
  urb_in_flight (killed u) = false.
Proof.
  unfold killed. destruct (urb_allocated u) eqn:A; intros H.
  - reflexivity.
  - destruct (urb_in_flight u); [discriminate (H eq_refl) | reflexivity].
Qed.

Lemma when_keeps {B} (f : sl3_device -> B) (b : bool) (m : M unit)
    (d : sl3_device) :
  keeps f m -> f (state (when b m d)) = f d.
Proof. intros K. destruct b; [apply K | reflexivity]. Qed.

(** The body of [sl3_urb_stop], entered for a running stream. *)
Lemma urb_stop_body_running (dir : direction) (nested : M unit) (d : sl3_device) :
  keeps (stream_of dir) nested ->
  running (stream_of dir d) = true ->
  (length (urbs (stream_of dir d)) <= SL3_NUM_URBS)%nat ->
  let d' := state (urb_stop_body dir nested d) in
  urbs (stream_of dir d') = map killed (urbs (stream_of dir d))
  /\ running (stream_of dir d') = false
  /\ pointers dir d' = pointers dir d.
Proof.
  intros K R L. cbn zeta.
  destruct (kill_all_urbs dir SL3_NUM_URBS
              (upd_stream dir (set_running false) d))
    as (U & O & _ & _);
    [lia | destruct dir; exact L |].
  cbn zeta in U, O.
  rewrite Nat.sub_diag, drop_0 in U.
  unfold urb_stop_body. rewrite state_bind.
  change (retval (gets (fun d0 => running (stream_of dir d0)) d))
    with (running (stream_of dir d)).
  rewrite R. cbn [negb].
  rewrite state_bind, state_bind.
  change (state (gets (fun d0 => running (stream_of dir d0)) d)) with d.
  change (state (modify (upd_stream dir (set_running false)) d))
    with (upd_stream dir (set_running false) d).
  generalize dependent (state (kill_all dir SL3_NUM_URBS
                                 (upd_stream dir (set_running false) d))).
  intros d1 U O.
  rewrite state_bind, state_bind.
  change (state (gets (fun d0 => running (capture d0)) d1)) with d1.
  change (state (gets (fun d0 => substream (capture d0)) d1)) with d1.
  unfold stopped_obs, pointers in *.
  rewrite (when_keeps (stream_of dir) _ nested d1 K).
  rewrite U.
  injection O as O1 O2 O3 O4 O5 O6. rewrite O1, O2, O3, O4.
  destruct dir; repeat split; reflexivity.
Qed.

Lemma kill_all_keeps_playback (n : nat) : keeps playback (kill_all Capture n).
Proof.
  induction n as [|n IH]; cbn [kill_all].
  - apply keeps_ret.
  - unfold usb_kill_urb. keeps_auto. apply IH.
Qed.

Lemma capture_stop_keeps_playback :
  keeps (stream_of Playback) (urb_stop_body Capture (ret tt)).
Proof.
  unfold urb_stop_body.
  apply keeps_bind; [apply keeps_gets | intros r].
  apply keeps_if; [apply keeps_ret|].
  apply keeps_bind; [apply keeps_modify; intros d; reflexivity | intros _].
  apply keeps_bind; [apply kill_all_keeps_playback | intros _].
  apply keeps_bind; [apply keeps_gets | intros cap].
  apply keeps_bind; [apply keeps_gets | intros sub].
  apply keeps_when, keeps_ret.
Qed.

Lemma urb_stop_running (dir : direction) (d : sl3_device) :
  running (stream_of dir d) = true ->
  (length (urbs (stream_of dir d)) <= SL3_NUM_URBS)%nat ->
  let d' := state (sl3_urb_stop dir d) in
  urbs (stream_of dir d') = map killed (urbs (stream_of dir d))
  /\ running (stream_of dir d') = false
  /\ pointers dir d' = pointers dir d.
Proof.
  intros R L. destruct dir; unfold sl3_urb_stop.
  - apply urb_stop_body_running;
      [apply capture_stop_keeps_playback | exact R | exact L].
  - apply urb_stop_body_running; [apply keeps_ret | exact R | exact L].
Qed.

(** ** Completions on a stopped stream *)














(** * Properties beyond the specification: HID *)

(** ** The IN handler on an error status *)

Ltac status_absurd :=
  match goal with
  | H : ?a <> ?a |- _ => contradiction
  | H : _ \/ _ |- _ => destruct H; status_absurd
  | H : @eq Z _ _ |- _ => first [congruence | vm_compute in H; discriminate H]
  end.

Ltac status_cases :=
  repeat match goal with
         | |- _ /\ _ => split
         | |- _ -> _ => intro
         end;
  first [reflexivity | status_absurd].

(** X: a HID IN completion with an error status writes no cache and no
    mailbox.  A cancelled URB is dropped, [-ESHUTDOWN] marks the device
    disconnected without resubmitting, and every other error resubmits the
    URB, after clearing the halt for [-EPIPE], unless the device is
    disconnected. *)
Theorem hid_in_error_policy (status len : Z) (data : list byte)
    (d : sl3_device) :
  status <> 0 ->
  let r := sl3_hid_in_complete status len data d in
  hid_caches (state r) = hid_caches d
  /\ (status = - ENOENT \/ status = - ECONNRESET -> r = (tt, d, []))
  /\ (status = - ESHUTDOWN -> r = (tt, set_disconnected true d, []))
  /\ (status <> - ENOENT -> status <> - ECONNRESET -> status <> - ESHUTDOWN ->
      state r = d
      /\ events r = (if status =? - EPIPE then [EvClearHalt] else [])
                    ++ (if disconnected d then [] else [EvHidInSubmit])).
Proof.
  intros H0. cbn zeta. unfold sl3_hid_in_complete, hid_in_resubmit.
  destruct (Z.eqb_spec status 0) as [|_]; [contradiction|].
  destruct (Z.eqb_spec status (- ENOENT)) as [E1|E1];
    [subst status; cbn [orb]; status_cases|].
  destruct (Z.eqb_spec status (- ECONNRESET)) as [E2|E2];
    [subst status; cbn [orb]; status_cases|].
  cbn [orb].
  destruct (Z.eqb_spec status (- ESHUTDOWN)) as [E3|E3];
    [subst status; status_cases|].
  destruct (Z.eqb_spec status (- EOVERFLOW)) as [E4|E4].
  { subst status. change (- EOVERFLOW =? - EPIPE) with false.
    run_monad. destruct (disconnected d); status_cases. }
  destruct (Z.eqb_spec status (- EPIPE)) as [E5|E5];
    run_monad; destruct (disconnected d); status_cases.
Qed.

(** A stalled endpoint on the probed device. *)
Lemma hid_in_error_policy_witness :
  let r := sl3_hid_in_complete (- EPIPE) 0 [] probed_dev in
  hid_caches (state r) = hid_caches probed_dev
  /\ events r = [EvClearHalt; EvHidInSubmit].
Proof.
  destruct (hid_in_error_policy (- EPIPE) 0 [] probed_dev
              ltac:(discriminate)) as (C & _ & _ & H).
  destruct (H ltac:(discriminate) ltac:(discriminate) ltac:(discriminate))
    as [_ E].
  split; [exact C | exact E].
Defined.

(** ** The command path *)

Lemma hid_in_done (status len : Z) (data : list byte) (d : sl3_device) :
  hid_response_done (state (sl3_hid_in_complete status len data d))
  = hid_response_done d
    + (if is_response {| in_status := status; in_actual_length := len;
                         in_data := data |} then 1 else 0).
Proof.
  assert (K : keeps hid_response_done hid_in_resubmit)
    by (unfold hid_in_resubmit; keeps_auto).
  unfold is_response, sl3_hid_in_complete, known_notification.
  cbn [in_status in_actual_length in_data].
  destruct (status =? 0).
  - rewrite state_bind, K, Z.ltb_antisym.
    destruct (1 <=? len); cbn [negb andb];
      [|change (state (ret () d)) with d; lia].
    unfold hid_in_dispatch.
    destruct (Byte.eqb (nth 0 data x00) SL3_HID_NOTIFY_OVERLOAD);
      [cbn [orb negb]; rewrite Z.add_0_r;
       generalize d; change (keeps hid_response_done
         (when (11 <=? len)
            (modify (fun d0 => set_overload_status
                                 (memcpy (overload_status d0) 0 data 5 6) d0);;
             c <- gets card;; k <- gets overload_ctl;;
             when (c && k) (emit (EvCtlNotify OverloadStatusCtl)))));
       keeps_auto|].
    destruct (Byte.eqb (nth 0 data x00) SL3_HID_NOTIFY_PHONO);
      [cbn [orb negb]; rewrite Z.add_0_r;
       generalize d; change (keeps hid_response_done
         (when (8 <=? len)
            (modify (fun d0 => set_phono_status
                                 (memcpy (phono_status d0) 0 data 5 3) d0);;
             c <- gets card;; k <- gets phono_ctl;;
             when (c && k) (emit (EvCtlNotify PhonoSwitchStatusCtl)))));
       keeps_auto|].
    destruct (Byte.eqb (nth 0 data x00) SL3_HID_NOTIFY_USB_PORT);
      [cbn [orb negb]; rewrite Z.add_0_r;
       generalize d; change (keeps hid_response_done
         (when (9 <=? len)
            (modify (fun d0 => set_usb_port_status
                                 (memcpy (usb_port_status d0) 0 data 5 4) d0))));
       keeps_auto|].
    reflexivity.
  - cbn [andb]. rewrite Z.add_0_r.
    destruct ((status =? - ENOENT) || (status =? - ECONNRESET));
      [reflexivity|].
    destruct (status =? - ESHUTDOWN); [reflexivity|].
    destruct (status =? - EOVERFLOW); [apply K|].
    destruct (status =? - EPIPE); [|apply K].
    rewrite state_bind. apply K.
Qed.

Lemma hid_deliver_done (ins : list hid_in_urb) : forall d,
  hid_response_done (state (hid_deliver ins d))
  = hid_response_done d + response_count ins.
Proof.
  induction ins as [|u ins IH]; intros d; cbn [hid_deliver response_count].
  - change (state (ret () d)) with d. lia.
  - rewrite state_bind, IH, hid_in_done. destruct u; cbn. lia.
Qed.

Lemma response_count_pos (ins : list hid_in_urb) :
  0 <= response_count ins
  /\ (0 <? response_count ins) = existsb is_response ins.
Proof.
  induction ins as [|u ins [IH1 IH2]]; cbn [response_count existsb].
  - split; [lia | reflexivity].
  - destruct (is_response u); cbn [orb].
    + split; [lia | apply Z.ltb_lt; lia].
    + split; [lia | rewrite Z.add_0_l; exact IH2].
Qed.

Ltac bind_simpl :=
  repeat first [rewrite events_bind | rewrite retval_bind | rewrite state_bind].

Section SendsNothing.
Lemma sends_nothing_ret {A} (a : A) : sends_nothing (ret a).
Proof. intros d. reflexivity. Qed.

Lemma sends_nothing_gets {A} (g : sl3_device -> A) : sends_nothing (gets g).
Proof. intros d. reflexivity. Qed.

Lemma sends_nothing_modify g : sends_nothing (modify g).
Proof. intros d. reflexivity. Qed.

Lemma sends_nothing_emit e :
  out_commands [e] = [] -> sends_nothing (emit e).
Proof. intros H d. exact H. Qed.

Lemma sends_nothing_bind {A C} (m : M A) (k : A -> M C) :
  sends_nothing m -> (forall a, sends_nothing (k a)) ->
  sends_nothing (bind m k).
Proof.
  intros Hm Hk d. rewrite events_bind. unfold out_commands.
  rewrite flat_map_app. fold (out_commands (events (m d))).
  rewrite Hm. apply Hk.
Qed.

Lemma sends_nothing_when b m : sends_nothing m -> sends_nothing (when b m).
Proof. intros H. destruct b; [exact H | apply sends_nothing_ret]. Qed.

Lemma sends_nothing_if {A} (b : bool) (m1 m2 : M A) :
  sends_nothing m1 -> sends_nothing m2 ->
  sends_nothing (if b then m1 else m2).
Proof. intros H1 H2. destruct b; assumption. Qed.
End SendsNothing.

Ltac sends_nothing_step :=
  first
    [ apply sends_nothing_ret | apply sends_nothing_gets
    | apply sends_nothing_modify
    | apply sends_nothing_emit; reflexivity
    | apply sends_nothing_bind; [|intros ?]
    | apply sends_nothing_when
    | apply sends_nothing_if ].

Ltac sends_nothing_auto := repeat sends_nothing_step.

Lemma hid_in_sends_nothing (status len : Z) (data : list byte) :
  sends_nothing (sl3_hid_in_complete status len data).
Proof.
  unfold sl3_hid_in_complete, hid_in_dispatch, hid_in_resubmit.
  sends_nothing_auto.
Qed.

Lemma hid_deliver_sends_nothing (ins : list hid_in_urb) :
  sends_nothing (hid_deliver ins).
Proof.
  induction ins as [|u ins IH]; cbn [hid_deliver].
  - apply sends_nothing_ret.
  - apply sends_nothing_bind; [apply hid_in_sends_nothing | intros _; exact IH].
Qed.

(** X: a HID command on a connected device puts exactly one OUT report on
    the wire, the framed command.  A transfer error is returned as it is and
    nothing is awaited.  When a response is awaited, the command succeeds
    exactly when one of the IN completions delivered during the wait carries
    a response, and times out otherwise. *)
Theorem hid_command_outcome (env : hid_env) (cmd : byte)
    (payload : option (list byte)) (len : Z) (wait : bool) (d : sl3_device) :
  disconnected d = false ->
  let r := sl3_hid_send_cmd_locked env cmd payload len wait d in
  let report := sl3_hid_build_report (hid_out_buf d) cmd payload len in
  head (events r) = Some (EvHidOut report)
  /\ out_commands (events r) = [nth 0 report x00]
  /\ (he_usb_err env <> 0 ->
      retval r = he_usb_err env /\ events r = [EvHidOut report])
  /\ (he_usb_err env = 0 -> wait = false ->
      retval r = 0 /\ events r = [EvHidOut report])
  /\ (he_usb_err env = 0 -> wait = true ->
      retval r = if existsb is_response (he_in env) then 0 else - ETIMEDOUT).
Proof.
  intros G. cbn zeta.
  pose proof (hid_deliver_done (he_in env)) as D.
  pose proof (hid_deliver_sends_nothing (he_in env)) as S.
  pose proof (response_count_pos (he_in env)) as [_ P].
  unfold sl3_hid_send_cmd_locked.
  bind_simpl.
  change (retval (gets disconnected d)) with (disconnected d).
  change (state (gets disconnected d)) with d.
  rewrite G.
  bind_simpl.
  set (d1 := state (modify _ d)).
  set (d2 := state (when wait _ d1)).
  assert (E2 : events (when wait (modify (set_hid_response_done 0)) d1) = [])
    by (destruct wait; reflexivity).
  assert (O2 : hid_out_buf d2
               = sl3_hid_build_report (hid_out_buf d) cmd payload len)
    by (subst d2; destruct wait; reflexivity).
  assert (Z2 : wait = true -> hid_response_done d2 = 0)
    by (intros ->; reflexivity).
  rewrite E2. clearbody d2. clear E2 d1.
  change (events (gets disconnected d)) with (@nil event).
  change (events (modify
    (fun d0 => set_hid_out_buf
                 (sl3_hid_build_report (hid_out_buf d0) cmd payload len) d0) d))
    with (@nil event).
  change (retval (gets hid_out_buf d2)) with (hid_out_buf d2).
  change (state (gets hid_out_buf d2)) with d2.
  change (events (gets hid_out_buf d2)) with (@nil event).
  rewrite O2. cbn [app].
  bind_simpl.
  change (events (emit (EvHidOut
            (sl3_hid_build_report (hid_out_buf d) cmd payload len)) d2))
    with [EvHidOut (sl3_hid_build_report (hid_out_buf d) cmd payload len)].
  change (state (emit (EvHidOut
            (sl3_hid_build_report (hid_out_buf d) cmd payload len)) d2))
    with d2.
  cbn [app head].
  split; [reflexivity|].
  destruct (Z.eqb_spec (he_usb_err env) 0) as [U|U]; cbn [negb].
  - destruct wait.
    + bind_simpl.
      change (retval (gets hid_response_done (state (hid_deliver (he_in env) d2))))
        with (hid_response_done (state (hid_deliver (he_in env) d2))).
      rewrite D, (Z2 eq_refl), Z.add_0_l, P.
      split.
      { unfold out_commands. cbn [flat_map].
        rewrite !flat_map_app.
        fold (out_commands (events (hid_deliver (he_in env) d2))).
        rewrite S. cbn [app].
        destruct (existsb is_response (he_in env)); reflexivity. }
      split; [intros H; contradiction|].
      split; [intros _ H; discriminate H|].
      intros _ _. destruct (existsb is_response (he_in env)); reflexivity.
    + split; [reflexivity|].
      split; [intros H; contradiction|].
      split; [intros _ _; split; reflexivity|].
      intros _ H; discriminate H.
  - split; [reflexivity|].
    split; [intros _; split; reflexivity|].
    split; intros H; contradiction.
Qed.

(** The Set-routing command for Deck B, with the endpoint failing. *)
Lemma hid_command_outcome_witness :
  let env := {| he_usb_err := - EPIPE; he_in := [] |} in
  let r := sl3_hid_send_cmd_locked env SL3_HID_CMD_ROUTING
             (Some [x0e; x01; x00]) 3 false probed_dev in
  retval r = - EPIPE
  /\ events r = [EvHidOut (sl3_hid_build_report (hid_out_buf probed_dev)
                             SL3_HID_CMD_ROUTING (Some [x0e; x01; x00]) 3)].
Proof.
  apply (hid_command_outcome {| he_usb_err := - EPIPE; he_in := [] |}
           SL3_HID_CMD_ROUTING (Some [x0e; x01; x00]) 3 false probed_dev
           ltac:(vm_compute; reflexivity)).
  vm_compute. discriminate.
Defined.

(** The device after the OUT transfer of a command: the framed report in the
    OUT buffer and, when a response is awaited, the completion re-armed. *)
Lemma send_cmd_result (env : hid_env) (cmd : byte)
    (payload : option (list byte)) (len : Z) (wait : bool) (d : sl3_device) :
  disconnected d = false ->
  let report := sl3_hid_build_report (hid_out_buf d) cmd payload len in
  let d1 := set_hid_out_buf report d in
  let d2 := if wait then set_hid_response_done 0 d1 else d1 in
  let r := hid_deliver (he_in env) d2 in
  sl3_hid_send_cmd_locked env cmd payload len wait d
  = if negb (he_usb_err env =? 0) then (he_usb_err env, d2, [EvHidOut report])
    else if wait then
      if existsb is_response (he_in env)
      then (0, set_hid_response_done (response_count (he_in env) - 1) (state r),
            EvHidOut report :: events r)
      else (- ETIMEDOUT, state r, EvHidOut report :: events r)
    else (0, d2, [EvHidOut report]).
Proof.
  intros G. cbn zeta.
  pose proof (response_count_pos (he_in env)) as [_ P].
  unfold sl3_hid_send_cmd_locked. run_monad. rewrite G.
  destruct (he_usb_err env =? 0); cbn [negb]; destruct wait; cbn [fst snd app];
    try reflexivity.
  pose proof (hid_deliver_done (he_in env)
                (set_hid_response_done 0
                   (set_hid_out_buf
                      (sl3_hid_build_report (hid_out_buf d) cmd payload len) d)))
    as D.
  unfold state in D. cbn [hid_response_done set_hid_response_done] in D.
  cbv beta. rewrite !D, !Z.add_0_l, P.
  destruct (existsb is_response (he_in env)); cbn [fst snd];
    rewrite ?D, ?Z.add_0_l, ?app_nil_r; reflexivity.
Qed.

(** ** The rate switching sequence *)

Lemma hid_deliver_audio ins : keeps audio_state (hid_deliver ins).
Proof.
  induction ins as [|u ins IH]; cbn [hid_deliver]; keeps_auto.
  exact IH.
Qed.

Lemma send_cmd_audio env cmd payload len wait :
  keeps audio_state (sl3_hid_send_cmd_locked env cmd payload len wait).
Proof.
  unfold sl3_hid_send_cmd_locked. keeps_auto. apply hid_deliver_audio.
Qed.

Lemma u8_of_Z_mod (z : Z) : u8_of_Z (z mod 256) = u8_of_Z z.
Proof. unfold u8_of_Z. rewrite Z.mod_mod by lia. reflexivity. Qed.

Lemma Z_of_u8_of_Z (z : Z) : Z_of_u8 (u8_of_Z z) = z mod 256.
Proof.
  unfold Z_of_u8, u8_of_Z.
  assert (R : 0 <= z mod 256 < 256) by (apply Z.mod_pos_bound; lia).
  destruct (Byte.of_N (Z.to_N (z mod 256))) as [b|] eqn:E.
  - apply Byte.to_of_N in E. rewrite E. lia.
  - apply Byte.of_N_None_iff in E. lia.
Qed.

Lemma rate_bytes (rate : Z) :
  0 <= rate ->
  u8_of_Z (Z.land (Z.shiftr rate 8) 255) = u8_of_Z (rate / 256)
  /\ u8_of_Z (Z.land rate 255) = u8_of_Z (rate mod 256).
Proof.
  intros H.
  change 255 with (Z.ones 8). rewrite !Z.land_ones by lia.
  rewrite Z.shiftr_div_pow2 by lia. change (2 ^ 8) with 256.
  rewrite !u8_of_Z_mod. split; reflexivity.
Qed.

Lemma build_rate_report (buf : list byte) (rate : Z) :
  0 <= rate ->
  length buf = 64%nat ->
  sl3_hid_build_report buf SL3_HID_CMD_SAMPLE_RATE
    (Some [u8_of_Z (Z.land (Z.shiftr rate 8) 255);
           u8_of_Z (Z.land rate 255)]) 2
  = rate_report rate.
Proof.
  intros H L. destruct (rate_bytes rate H) as [-> ->].
  exact (build_report_shape buf SL3_HID_CMD_SAMPLE_RATE
           [u8_of_Z (rate / 256); u8_of_Z (rate mod 256)] L).
Qed.

(** The two rate bytes of the report read back as the rate. *)
Lemma rate_report_decodes (rate : Z) :
  0 <= rate < 65536 ->
  Z_of_u8 (nth 5 (rate_report rate) x00) * 256
  + Z_of_u8 (nth 6 (rate_report rate) x00) = rate.
Proof.
  intros H. cbn [rate_report nth app].
  rewrite !Z_of_u8_of_Z, Z.mod_mod by lia.
  rewrite (Z.mod_small (rate / 256)) by (split; [apply Z.div_pos; lia | apply Z.div_lt_upper_bound; lia]).
  pose proof (Z.div_mod rate 256 ltac:(lia)). lia.
Qed.

(** [sl3_set_sample_rate] past its guards, in terms of the command it sends. *)
Lemma set_rate_unguarded (env : hid_env) (rate : Z) (d : sl3_device) :
  rate = 44100 \/ rate = 48000 ->
  rate <> current_rate d ->
  running (playback d) = false ->
  running (capture d) = false ->
  let c := sl3_hid_send_cmd_locked env SL3_HID_CMD_SAMPLE_RATE
             (Some [u8_of_Z (Z.land (Z.shiftr rate 8) 255);
                    u8_of_Z (Z.land rate 255)]) 2 true d in
  sl3_set_sample_rate env rate d
  = if retval c =? 0
    then (0, set_sample_accumulator 0 (set_current_rate rate (state c)),
          events c ++ [EvMsleep 100])
    else (retval c, state c, events c).
Proof.
  intros Hv Hc Hp Hcap. cbn zeta.
  unfold sl3_set_sample_rate, sl3_hid_set_sample_rate.
  apply valid_rate_test in Hv. rewrite Hv.
  run_monad. apply Z.eqb_neq in Hc. rewrite Hc, Hp, Hcap. cbn [orb fst snd].
  destruct (fst (fst (sl3_hid_send_cmd_locked env SL3_HID_CMD_SAMPLE_RATE
                        (Some [u8_of_Z (Z.land (Z.shiftr rate 8) 255);
                               u8_of_Z (Z.land rate 255)]) 2 true d)) =? 0)
    eqn:E; cbn [fst snd negb app]; rewrite ?E; cbn [fst snd negb app];
    rewrite ?app_nil_r; reflexivity.
Qed.

Lemma set_rate_cases (env : hid_env) (rate : Z) (d : sl3_device) :
  rate = 44100 \/ rate = 48000 ->
  rate <> current_rate d ->
  running (playback d) = false ->
  running (capture d) = false ->
  disconnected d = false ->
  length (hid_out_buf d) = 64%nat ->
  let d2 := set_hid_response_done 0 (set_hid_out_buf (rate_report rate) d) in
  let h := hid_deliver (he_in env) d2 in
  sl3_set_sample_rate env rate d
  = if negb (he_usb_err env =? 0)
    then (he_usb_err env, d2, [EvHidOut (rate_report rate)])
    else if existsb is_response (he_in env)
    then (0,
          set_sample_accumulator 0
            (set_current_rate rate
               (set_hid_response_done (response_count (he_in env) - 1)
                  (state h))),
          (EvHidOut (rate_report rate) :: events h) ++ [EvMsleep 100])
    else (- ETIMEDOUT, state h, EvHidOut (rate_report rate) :: events h).
Proof.
  intros Hv Hc Hp Hcap G L. cbn zeta.
  assert (H0 : 0 <= rate) by (destruct Hv; subst rate; lia).
  rewrite (set_rate_unguarded env rate d Hv Hc Hp Hcap).
  rewrite (send_cmd_result env _ _ 2 true d G).
  rewrite (build_rate_report (hid_out_buf d) rate H0 L).
  destruct (Z.eqb_spec (he_usb_err env) 0) as [U|U]; cbn [negb].
  - destruct (existsb is_response (he_in env)); reflexivity.
  - cbn [retval fst snd]. apply Z.eqb_neq in U. rewrite U. reflexivity.
Qed.

(** X: a rate change that passes the guards of [sl3_set_sample_rate] sends
    one Set-sample-rate report carrying the rate high byte first.  It
    succeeds exactly when the transfer works and a response arrives within
    the wait; then the new rate is installed, the accumulator is reset and
    the driver sleeps 100 ms.  Otherwise the error is returned and rate and
    accumulator stay as they were.  Streams, routing and feedback count are
    untouched either way. *)
Theorem rate_switch_sequence (env : hid_env) (rate : Z) (d : sl3_device) :
  rate = 44100 \/ rate = 48000 ->
  rate <> current_rate d ->
  running (playback d) = false ->
  running (capture d) = false ->
  disconnected d = false ->
  length (hid_out_buf d) = 64%nat ->
  let r := sl3_set_sample_rate env rate d in
  let answered := (he_usb_err env =? 0) && existsb is_response (he_in env) in
  head (events r) = Some (EvHidOut (rate_report rate))
  /\ Z_of_u8 (nth 5 (rate_report rate) x00) * 256
     + Z_of_u8 (nth 6 (rate_report rate) x00) = rate
  /\ out_commands (events r) = [SL3_HID_CMD_SAMPLE_RATE]
  /\ (playback (state r), capture (state r), routing (state r),
      feedback_samples (state r))
     = (playback d, capture d, routing d, feedback_samples d)
  /\ (answered = true ->
      retval r = 0
      /\ current_rate (state r) = rate
      /\ sample_accumulator (state r) = 0
      /\ last (events r) = Some (EvMsleep 100))
  /\ (answered = false ->
      retval r = (if he_usb_err env =? 0 then - ETIMEDOUT else he_usb_err env)
      /\ retval r <> 0
      /\ current_rate (state r) = current_rate d
      /\ sample_accumulator (state r) = sample_accumulator d).
Proof.
  intros Hv Hc Hp Hcap G L. cbn zeta.
  assert (H0 : 0 <= rate < 65536) by (destruct Hv; subst rate; lia).
  rewrite (set_rate_cases env rate d Hv Hc Hp Hcap G L).
  pose proof (hid_deliver_audio (he_in env)
                (set_hid_response_done 0
                   (set_hid_out_buf (rate_report rate) d))) as A.
  pose proof (hid_deliver_sends_nothing (he_in env)
                (set_hid_response_done 0
                   (set_hid_out_buf (rate_report rate) d))) as S.
  unfold audio_state in A. injection A as A1 A2 A3 A4 A5 A6.
  set (h := hid_deliver (he_in env) _) in *. clearbody h.
  split; [|split; [apply rate_report_decodes; exact H0|]].
  { destruct (he_usb_err env =? 0); cbn [negb];
      [destruct (existsb is_response (he_in env))|]; reflexivity. }
  destruct (Z.eqb_spec (he_usb_err env) 0) as [U|U]; cbn [negb andb].
  - destruct (existsb is_response (he_in env)) eqn:R;
      cbn [retval state events fst snd].
    + split.
      { unfold out_commands in *. rewrite flat_map_app. cbn [flat_map app].
        rewrite S. reflexivity. }
      split; [cbn; rewrite A1, A2, A4, A5; reflexivity|].
      split; [|intros H; discriminate H].
      intros _. repeat split; try reflexivity. apply last_snoc.
    + split.
      { unfold out_commands in *. cbn [flat_map app].
        rewrite S. reflexivity. }
      split; [rewrite A1, A2, A4, A5; reflexivity|].
      split; [intros H; discriminate H|].
      intros _. rewrite A3, A6. repeat split; discriminate.
  - cbn [retval state events fst snd].
    split; [reflexivity|].
    split; [reflexivity|].
    split; [intros H; discriminate H|].
    intros _. repeat split; try reflexivity. exact U.
Qed.

(** The probed device at 48 kHz is switched to 44.1 kHz and answers. *)
Lemma rate_switch_sequence_witness :
  let r := sl3_set_sample_rate hid_env_ok 44100 probed_dev in
  retval r = 0
  /\ current_rate (state r) = 44100
  /\ sample_accumulator (state r) = 0
  /\ last (events r) = Some (EvMsleep 100).
Proof.
  apply (rate_switch_sequence hid_env_ok 44100 probed_dev
           ltac:(left; reflexivity) ltac:(vm_compute; discriminate)
           ltac:(vm_compute; reflexivity) ltac:(vm_compute; reflexivity)
           ltac:(vm_compute; reflexivity) ltac:(vm_compute; reflexivity)).
  vm_compute. reflexivity.
Defined.

(** ** The init handshake *)

Lemma build_report_command (buf : list byte) (cmd : byte)
    (payload : option (list byte)) (len : Z) :
  nth 0 (sl3_hid_build_report buf cmd payload len) x00 = cmd.
Proof.
  unfold sl3_hid_build_report, memset, memcpy, write_at.
  cbn [take app repeat Z.to_nat Pos.to_nat Pos.iter_op Nat.add].
  change (Z.to_nat SL3_HID_REPORT_SIZE) with 64%nat.
  cbn [repeat app].
  destruct payload as [p|]; [destruct (0 <? len)|]; reflexivity.
Qed.

Lemma send_cmd_commands env cmd payload len wait (d : sl3_device) :
  out_commands (events (sl3_hid_send_cmd_locked env cmd payload len wait d))
  = if disconnected d then [] else [cmd].
Proof.
  destruct (disconnected d) eqn:G.
  - unfold sl3_hid_send_cmd_locked. run_monad. rewrite G. reflexivity.
  - rewrite (send_cmd_result env cmd payload len wait d G).
    pose proof (hid_deliver_sends_nothing (he_in env)) as S.
    destruct (negb (he_usb_err env =? 0));
      [|destruct wait; [destruct (existsb is_response (he_in env))|]];
      cbn [events snd out_commands flat_map app];
      rewrite ?build_report_command; try reflexivity;
      fold (out_commands (events (hid_deliver (he_in env)
              (set_hid_response_done 0
                 (set_hid_out_buf
                    (sl3_hid_build_report (hid_out_buf d) cmd payload len) d)))));
      rewrite S; reflexivity.
Qed.

Lemma send_cmd_gone env cmd payload len wait (d : sl3_device) :
  disconnected d = true ->
  sl3_hid_send_cmd_locked env cmd payload len wait d = (- ENODEV, d, []).
Proof.
  intros G. unfold sl3_hid_send_cmd_locked. run_monad. rewrite G. reflexivity.
Qed.

Lemma hid_in_disconnected (status len : Z) (data : list byte) (d : sl3_device) :
  disconnected (state (sl3_hid_in_complete status len data d))
  = disconnected d || (status =? - ESHUTDOWN).
Proof.
  assert (K : keeps disconnected hid_in_resubmit)
    by (unfold hid_in_resubmit; keeps_auto).
  unfold sl3_hid_in_complete.
  destruct (Z.eqb_spec status 0) as [E0|E0].
  - subst status. change (0 =? - ESHUTDOWN) with false. rewrite orb_false_r.
    rewrite state_bind, K. generalize d.
    change (keeps disconnected
              (if len <? 1 then ret tt else hid_in_dispatch len data)).
    unfold hid_in_dispatch. keeps_auto.
  - destruct (Z.eqb_spec status (- ENOENT)) as [E1|E1];
      [subst status; cbn [orb]; change (- ENOENT =? - ESHUTDOWN) with false;
       rewrite orb_false_r; reflexivity|].
    destruct (Z.eqb_spec status (- ECONNRESET)) as [E2|E2];
      [subst status; cbn [orb]; change (- ECONNRESET =? - ESHUTDOWN) with false;
       rewrite orb_false_r; reflexivity|].
    cbn [orb].
    destruct (status =? - ESHUTDOWN);
      [rewrite orb_true_r; reflexivity | rewrite orb_false_r].
    destruct (status =? - EOVERFLOW); [apply K|].
    destruct (status =? - EPIPE); [rewrite state_bind|]; apply K.
Qed.

Lemma hid_deliver_connected (ins : list hid_in_urb) : forall d,
  disconnected d = false ->
  forallb (fun u => negb (in_status u =? - ESHUTDOWN)) ins = true ->
  disconnected (state (hid_deliver ins d)) = false.
Proof.
  induction ins as [|u ins IH]; intros d G H; cbn [hid_deliver forallb] in *.
  - exact G.
  - apply andb_true_iff in H as [H1 H2]. rewrite state_bind.
    apply IH; [|exact H2].
    rewrite hid_in_disconnected, G. apply negb_true_iff in H1.
    rewrite H1. reflexivity.
Qed.

Lemma send_cmd_connected env cmd payload len wait (d : sl3_device) :
  disconnected d = false ->
  no_shutdown env = true ->
  disconnected (state (sl3_hid_send_cmd_locked env cmd payload len wait d))
  = false.
Proof.
  intros G N. rewrite (send_cmd_result env cmd payload len wait d G).
  pose proof (hid_deliver_connected (he_in env)
                (set_hid_response_done 0
                   (set_hid_out_buf
                      (sl3_hid_build_report (hid_out_buf d) cmd payload len) d))
                G N) as C.
  destruct (negb (he_usb_err env =? 0));
    [|destruct wait; [destruct (existsb is_response (he_in env))|]];
    cbn [state fst snd]; try exact C; try exact G.
  destruct wait; exact G.
Qed.

Lemma hid_init_not_ready (env : hid_init_env) (d : sl3_device) :
  hid_init_ready env = false ->
  let r := sl3_hid_init env d in
  retval r <> 0 /\ events r = []
  /\ audio_state (state r) = audio_state d
  /\ hid_caches (state r) = hid_caches d
  /\ disconnected (state r) = disconnected d.
Proof.
  unfold hid_init_ready, sl3_hid_init. intros H. cbn zeta.
  destruct (hi_out_buf_ok env); cbn [negb andb] in *;
    [|repeat split; discriminate].
  destruct (hi_in_urb_ok env); cbn [negb andb] in *;
    [|repeat split; discriminate].
  destruct (hi_in_buf_ok env); cbn [negb andb] in *;
    [|repeat split; discriminate].
  rewrite H. cbn [negb]. repeat split. cbn. apply Z.eqb_neq. exact H.
Qed.

(** [sl3_hid_init] once the IN URB is submitted: the four commands run one
    after the other, each on the device the one before left. *)
Lemma hid_init_ready_run (env : hid_init_env) (d : sl3_device) :
  hid_init_ready env = true ->
  let d1 := set_hid_out_buf (repeat x00 (Z.to_nat SL3_HID_REPORT_SIZE)) d in
  let c1 := sl3_hid_send_cmd_locked (hi_init env) SL3_HID_CMD_INIT
              (Some [x00]) 1 true d1 in
  let c2 := sl3_hid_send_cmd_locked (hi_status env) SL3_HID_CMD_STATUS
              (Some [x01]) 1 true (state c1) in
  let rate := current_rate (state c2) in
  let c3 := sl3_hid_send_cmd_locked (hi_rate env) SL3_HID_CMD_SAMPLE_RATE
              (Some [u8_of_Z (Z.land (Z.shiftr rate 8) 255);
                     u8_of_Z (Z.land rate 255)]) 2 true (state c2) in
  let c4 := sl3_hid_send_cmd_locked (hi_phono env) SL3_HID_CMD_QUERY_PHONO
              None 0 true (state c3) in
  let r := sl3_hid_init env d in
  retval r = 0
  /\ events r = EvHidInSubmit
                :: events c1 ++ events c2 ++ events c3 ++ events c4
                   ++ [EvMsleep 100]
  /\ audio_state (state r) = audio_state (state c4).
Proof.
  unfold hid_init_ready, sl3_hid_init. intros H. cbn zeta.
  apply andb_true_iff in H as [H H4].
  apply andb_true_iff in H as [H H3].
  apply andb_true_iff in H as [H1 H2].
  rewrite H1, H2, H3, H4. cbn [negb].
  bind_simpl.
  split; [reflexivity|].
  split.
  - change (state (emit EvHidInSubmit ?x)) with x.
    change (state (modify ?f ?x)) with (f x).
    change (state (gets ?f ?x)) with x.
    change (retval (gets ?f ?x)) with (f x).
    change (events (gets ?f ?x)) with (@nil event).
    change (events (modify ?f ?x)) with (@nil event).
    change (events (emit ?e ?x)) with [e].
    change (events (ret ?a ?x)) with (@nil event).
    cbn [app]. do 5 f_equal.
    match goal with
    | |- events (when ?b ?m ?x) ++ _ = _ =>
        assert (E : events (when b m x) = []) by (destruct b; reflexivity);
        rewrite E
    end.
    reflexivity.
  - change (state (emit ?e ?x)) with x.
    change (state (ret 0 ?x)) with x.
    change (state (modify ?f ?x)) with (f x).
    change (state (gets ?f ?x)) with x.
    change (retval (gets ?f ?x)) with (f x).
    match goal with
    | |- audio_state (state (when ?b ?m ?x)) = _ =>
        destruct b; reflexivity
    end.
Qed.

Lemma handshake_prefix (g1 g2 g3 g4 : bool) :
  (g1 = true -> g2 = true) -> (g2 = true -> g3 = true) ->
  (g3 = true -> g4 = true) ->
  ((if g1 then [] else [SL3_HID_CMD_INIT])
   ++ (if g2 then [] else [SL3_HID_CMD_STATUS])
   ++ (if g3 then [] else [SL3_HID_CMD_SAMPLE_RATE])
   ++ (if g4 then [] else [SL3_HID_CMD_QUERY_PHONO]))
  `prefix_of` handshake.
Proof.
  intros H1 H2 H3. unfold handshake.
  destruct g1; [rewrite (H1 eq_refl) in *; rewrite (H2 eq_refl) in *;
                rewrite (H3 eq_refl); apply prefix_nil|].
  destruct g2; [rewrite (H2 eq_refl) in *; rewrite (H3 eq_refl);
                eexists; reflexivity|].
  destruct g3; [rewrite (H3 eq_refl); eexists; reflexivity|].
  destruct g4; eexists; reflexivity.
Qed.

Lemma send_cmd_gone_state env cmd payload len wait (d : sl3_device) :
  disconnected d = true ->
  disconnected (state (sl3_hid_send_cmd_locked env cmd payload len wait d))
  = true.
Proof. intros G. rewrite (send_cmd_gone _ _ _ _ _ d G). exact G. Qed.

(** X: [sl3_hid_init] fails only while it allocates and submits the IN URB,
    and then without any traffic and with the device as it was.  Once the IN
    URB is submitted it returns 0 whatever the four commands of the handshake
    do.  The commands go out in the order INIT, STATUS, SAMPLE_RATE,
    QUERY_PHONO; the sequence is cut short only when the device turns out to
    be disconnected, and is complete when no completion reports a shutdown.
    Streams, rate, routing and accumulator are not touched. *)
Theorem hid_init_outcome (env : hid_init_env) (d : sl3_device) :
  let r := sl3_hid_init env d in
  (hid_init_ready env = false ->
   retval r <> 0 /\ events r = []
   /\ audio_state (state r) = audio_state d
   /\ hid_caches (state r) = hid_caches d)
  /\ (hid_init_ready env = true ->
      retval r = 0
      /\ head (events r) = Some EvHidInSubmit
      /\ last (events r) = Some (EvMsleep 100)
      /\ audio_state (state r) = audio_state d
      /\ out_commands (events r) `prefix_of` handshake
      /\ (disconnected d = false ->
          no_shutdown (hi_init env) = true ->
          no_shutdown (hi_status env) = true ->
          no_shutdown (hi_rate env) = true ->
          out_commands (events r) = handshake)).
Proof.
  cbn zeta. split.
  - intros H. destruct (hid_init_not_ready env d H) as (R & E & A & C & _).
    repeat split; assumption.
  - intros H. destruct (hid_init_ready_run env d H) as (R & E & A).
    cbn zeta in E, A.
    set (d1 := set_hid_out_buf (repeat x00 (Z.to_nat SL3_HID_REPORT_SIZE)) d)
      in *.
    set (c1 := sl3_hid_send_cmd_locked (hi_init env) _ _ _ _ d1) in *.
    set (c2 := sl3_hid_send_cmd_locked (hi_status env) _ _ _ _ (state c1)) in *.
    set (c3 := sl3_hid_send_cmd_locked (hi_rate env) _ _ _ _ (state c2)) in *.
    set (c4 := sl3_hid_send_cmd_locked (hi_phono env) _ _ _ _ (state c3)) in *.
    assert (O : out_commands (events (sl3_hid_init env d))
                = (if disconnected d1 then [] else [SL3_HID_CMD_INIT])
                  ++ (if disconnected (state c1) then []
                      else [SL3_HID_CMD_STATUS])
                  ++ (if disconnected (state c2) then []
                      else [SL3_HID_CMD_SAMPLE_RATE])
                  ++ (if disconnected (state c3) then []
                      else [SL3_HID_CMD_QUERY_PHONO])).
    { rewrite E. unfold out_commands. cbn [flat_map app].
      rewrite !flat_map_app. cbn [flat_map]. rewrite app_nil_r.
      fold (out_commands (events c1)). fold (out_commands (events c2)).
      fold (out_commands (events c3)). fold (out_commands (events c4)).
      subst c1 c2 c3 c4. rewrite !send_cmd_commands. reflexivity. }
    split; [exact R|].
    split; [rewrite E; reflexivity|].
    split.
    { rewrite E.
      change (EvHidInSubmit
              :: events c1 ++ events c2 ++ events c3 ++ events c4
                 ++ [EvMsleep 100])
        with ([EvHidInSubmit]
              ++ events c1 ++ events c2 ++ events c3 ++ events c4
                 ++ [EvMsleep 100]).
      rewrite !app_assoc. apply last_snoc. }
    split.
    { rewrite A. subst c4 c3 c2 c1.
      rewrite !send_cmd_audio. reflexivity. }
    split.
    + rewrite O. apply handshake_prefix; subst c1 c2 c3;
        apply send_cmd_gone_state.
    + intros G N1 N2 N3. rewrite O.
      assert (G1 : disconnected (state c1) = false)
        by (apply send_cmd_connected; [exact G | exact N1]).
      assert (G2 : disconnected (state c2) = false)
        by (apply send_cmd_connected; [exact G1 | exact N2]).
      assert (G3 : disconnected (state c3) = false)
        by (apply send_cmd_connected; [exact G2 | exact N3]).
      rewrite G1, G2, G3.
      change (disconnected d1) with (disconnected d). rewrite G. reflexivity.
Qed.

(** The handshake of the probe, with the device answering every command. *)
Lemma hid_init_outcome_witness :
  let r := sl3_hid_init (pe_hid probe_env_ok) kzalloc_dev in
  retval r = 0 /\ out_commands (events r) = handshake.
Proof.
  destruct (hid_init_outcome (pe_hid probe_env_ok) kzalloc_dev) as [_ H].
  destruct (H ltac:(vm_compute; reflexivity)) as (R & _ & _ & _ & _ & O).
  split; [exact R|].
  apply O; vm_compute; reflexivity.
Defined.

(** ** Status controls *)

Lemma read_cache6 (l : list byte) :
  length l = 6%nat ->
  map (fun i => Z_of_u8 (default x00 (l !! i))) (seq 0 6) = map Z_of_u8 l.
Proof.
  intros H.
  destruct l as [|a [|b [|c [|e [|f [|g [|? ?]]]]]]]; try discriminate H.
  reflexivity.
Qed.

Lemma read_cache3 (l : list byte) :
  length l = 3%nat ->
  map (fun i => Z_of_u8 (default x00 (l !! i))) (seq 0 3) = map Z_of_u8 l.
Proof.
  intros H. destruct l as [|a [|b [|c [|? ?]]]]; try discriminate H.
  reflexivity.
Qed.

Lemma hid_in_resubmit_caches : keeps hid_caches hid_in_resubmit.
Proof. unfold hid_in_resubmit. keeps_auto. Qed.

(** The caches after an IN completion with status OK. *)
Lemma hid_in_ok_caches (len : Z) (data : list byte) (d : sl3_device) :
  let code := nth 0 data x00 in
  let r := sl3_hid_in_complete 0 len data d in
  overload_status (state r)
  = (if (1 <=? len) && Byte.eqb code SL3_HID_NOTIFY_OVERLOAD && (11 <=? len)
     then memcpy (overload_status d) 0 data 5 6 else overload_status d)
  /\ phono_status (state r)
     = (if (1 <=? len) && negb (Byte.eqb code SL3_HID_NOTIFY_OVERLOAD)
           && Byte.eqb code SL3_HID_NOTIFY_PHONO && (8 <=? len)
        then memcpy (phono_status d) 0 data 5 3 else phono_status d).
Proof.
  cbn zeta. unfold sl3_hid_in_complete. change (0 =? 0) with true. cbv iota.
  rewrite state_bind.
  pose proof (hid_in_resubmit_caches
                (state ((if len <? 1 then ret tt
                         else hid_in_dispatch len data) d))) as K.
  unfold hid_caches in K. injection K as -> -> _ _ _.
  rewrite Z.ltb_antisym. destruct (1 <=? len); cbn [negb andb];
    [|split; reflexivity].
  unfold hid_in_dispatch.
  destruct (Byte.eqb (nth 0 data x00) SL3_HID_NOTIFY_OVERLOAD); cbn [negb andb].
  { destruct (11 <=? len); [|split; reflexivity].
    unfold when. rewrite state_bind.
    change (state (modify ?f d)) with (f d).
    split;
      [transitivity (overload_status
                       (set_overload_status
                          (memcpy (overload_status d) 0 data 5 6) d))
      |transitivity (phono_status
                       (set_overload_status
                          (memcpy (overload_status d) 0 data 5 6) d))];
      try reflexivity;
      generalize (set_overload_status (memcpy (overload_status d) 0 data 5 6) d);
      [change (keeps overload_status
                 (c <- gets card;; k <- gets overload_ctl;;
                  (if c && k then emit (EvCtlNotify OverloadStatusCtl)
                   else ret tt)))
      |change (keeps phono_status
                 (c <- gets card;; k <- gets overload_ctl;;
                  (if c && k then emit (EvCtlNotify OverloadStatusCtl)
                   else ret tt)))];
      keeps_auto. }
  destruct (Byte.eqb (nth 0 data x00) SL3_HID_NOTIFY_PHONO); cbn [negb andb].
  { destruct (8 <=? len); [|split; reflexivity].
    unfold when. rewrite state_bind.
    change (state (modify ?f d)) with (f d).
    split;
      [transitivity (overload_status
                       (set_phono_status
                          (memcpy (phono_status d) 0 data 5 3) d))
      |transitivity (phono_status
                       (set_phono_status
                          (memcpy (phono_status d) 0 data 5 3) d))];
      try reflexivity;
      generalize (set_phono_status (memcpy (phono_status d) 0 data 5 3) d);
      [change (keeps overload_status
                 (c <- gets card;; k <- gets phono_ctl;;
                  (if c && k then emit (EvCtlNotify PhonoSwitchStatusCtl)
                   else ret tt)))
      |change (keeps phono_status
                 (c <- gets card;; k <- gets phono_ctl;;
                  (if c && k then emit (EvCtlNotify PhonoSwitchStatusCtl)
                   else ret tt)))];
      keeps_auto. }
  destruct (Byte.eqb (nth 0 data x00) SL3_HID_NOTIFY_USB_PORT).
  { destruct (9 <=? len); split; reflexivity. }
  split; reflexivity.
Qed.

(** X: what the device reports in a notification is what the status
    controls return afterwards.  After an overload notification of at least
    11 bytes the Overload Status control reads bytes 5..10 of the report, and
    after a phono notification of at least 8 bytes the Phono Switch Status
    control reads bytes 5..7; the other control is not affected, and a report
    with any other code affects neither. *)
Theorem status_controls_follow_notifications (len : Z) (data : list byte)
    (d : sl3_device) :
  length data = 64%nat ->
  length (overload_status d) = 6%nat ->
  length (phono_status d) = 3%nat ->
  let code := nth 0 data x00 in
  let r := sl3_hid_in_complete 0 len data d in
  (code = SL3_HID_NOTIFY_OVERLOAD -> 11 <= len ->
   sl3_overload_get (state r) = map Z_of_u8 (take 6 (drop 5 data))
   /\ sl3_phono_get (state r) = sl3_phono_get d)
  /\ (code = SL3_HID_NOTIFY_PHONO -> 8 <= len ->
      sl3_phono_get (state r) = map Z_of_u8 (take 3 (drop 5 data))
      /\ sl3_overload_get (state r) = sl3_overload_get d)
  /\ (code <> SL3_HID_NOTIFY_OVERLOAD -> code <> SL3_HID_NOTIFY_PHONO ->
      sl3_overload_get (state r) = sl3_overload_get d
      /\ sl3_phono_get (state r) = sl3_phono_get d).
Proof.
  intros Ld Lo Lp. cbn zeta.
  destruct (hid_in_ok_caches len data d) as [O P]. cbn zeta in O, P.
  unfold sl3_overload_get, sl3_phono_get. rewrite O, P.
  split; [|split].
  - intros -> H.
    change (Byte.eqb SL3_HID_NOTIFY_OVERLOAD SL3_HID_NOTIFY_OVERLOAD) with true.
    replace (1 <=? len) with true by lia.
    replace (11 <=? len) with true by lia. cbn [andb negb].
    rewrite memcpy_whole by (rewrite ?Ld; lia).
    split; [|reflexivity].
    apply read_cache6. rewrite length_take, length_drop. lia.
  - intros -> H.
    change (Byte.eqb SL3_HID_NOTIFY_PHONO SL3_HID_NOTIFY_OVERLOAD) with false.
    change (Byte.eqb SL3_HID_NOTIFY_PHONO SL3_HID_NOTIFY_PHONO) with true.
    replace (1 <=? len) with true by lia.
    replace (8 <=? len) with true by lia. cbn [andb negb].
    rewrite memcpy_whole by (rewrite ?Ld; lia).
    split; [|reflexivity].
    apply read_cache3. rewrite length_take, length_drop. lia.
  - intros H1 H2.
    destruct (Byte.eqb (nth 0 data x00) SL3_HID_NOTIFY_OVERLOAD) eqn:E1;
      [apply Byte.byte_dec_bl in E1; contradiction|].
    destruct (Byte.eqb (nth 0 data x00) SL3_HID_NOTIFY_PHONO) eqn:E2;
      [apply Byte.byte_dec_bl in E2; contradiction|].
    rewrite ?andb_false_r. cbn [andb negb]. rewrite ?andb_false_r.
    cbn [andb]. split; reflexivity.
Qed.

(** The overload notification for channels 1 and 4. *)
Lemma status_controls_follow_notifications_witness :
  sl3_overload_get
    (state (sl3_hid_in_complete 0 64 overload_report probed_dev))
  = [1; 0; 0; 1; 0; 0].
Proof.
  destruct (status_controls_follow_notifications 64 overload_report probed_dev
              ltac:(vm_compute; reflexivity) ltac:(vm_compute; reflexivity)
              ltac:(vm_compute; reflexivity)) as (H & _ & _).
  destruct (H ltac:(vm_compute; reflexivity) ltac:(lia)) as [E _].
  vm_compute in E. vm_compute. exact E.
Defined.

(** ** The rate and routing controls *)

Lemma send_cmd_retval env cmd payload len wait (d : sl3_device) :
  he_usb_err env <= 0 ->
  retval (sl3_hid_send_cmd_locked env cmd payload len wait d) <= 0.
Proof.
  intros H. destruct (disconnected d) eqn:G.
  - rewrite (send_cmd_gone _ _ _ _ _ d G). cbn. unfold ENODEV. lia.
  - rewrite (send_cmd_result env cmd payload len wait d G).
    destruct (negb (he_usb_err env =? 0));
      [|destruct wait; [destruct (existsb is_response (he_in env))|]];
      cbn [retval fst]; unfold ETIMEDOUT; lia.
Qed.

Lemma set_rate_outcome (env : hid_env) (rate : Z) (d : sl3_device) :
  rate = 44100 \/ rate = 48000 ->
  he_usb_err env <= 0 ->
  let r := sl3_set_sample_rate env rate d in
  retval r <= 0
  /\ (retval r = 0 -> current_rate (state r) = rate)
  /\ (retval r <> 0 -> current_rate (state r) = current_rate d)
  /\ (rate = current_rate d -> r = (0, d, [])).
Proof.
  intros Hv He. cbn zeta.
  destruct (Z.eq_dec rate (current_rate d)) as [Hc|Hc].
  { assert (E : sl3_set_sample_rate env rate d = (0, d, [])).
    { unfold sl3_set_sample_rate. apply valid_rate_test in Hv. rewrite Hv.
      run_monad. rewrite <- Hc, Z.eqb_refl. reflexivity. }
    rewrite E. cbn [retval state fst snd].
    repeat split; intros; first [lia | congruence]. }
  destruct (running (playback d) || running (capture d)) eqn:B.
  { assert (E : sl3_set_sample_rate env rate d = (- EBUSY, d, [])).
    { unfold sl3_set_sample_rate. apply valid_rate_test in Hv. rewrite Hv.
      run_monad. apply Z.eqb_neq in Hc. rewrite Hc, B. reflexivity. }
    rewrite E. cbn [retval state fst snd].
    unfold EBUSY. repeat split; intros; first [lia | congruence]. }
  apply orb_false_elim in B as [Bp Bc].
  rewrite (set_rate_unguarded env rate d Hv Hc Bp Bc).
  pose proof (send_cmd_retval env SL3_HID_CMD_SAMPLE_RATE
                (Some [u8_of_Z (Z.land (Z.shiftr rate 8) 255);
                       u8_of_Z (Z.land rate 255)]) 2 true d He) as R.
  pose proof (send_cmd_audio env SL3_HID_CMD_SAMPLE_RATE
                (Some [u8_of_Z (Z.land (Z.shiftr rate 8) 255);
                       u8_of_Z (Z.land rate 255)]) 2 true d) as A.
  unfold audio_state in A. injection A as _ _ A _ _ _.
  destruct (Z.eqb_spec
              (retval (sl3_hid_send_cmd_locked env SL3_HID_CMD_SAMPLE_RATE
                         (Some [u8_of_Z (Z.land (Z.shiftr rate 8) 255);
                                u8_of_Z (Z.land rate 255)]) 2 true d)) 0)
    as [E|E]; cbn [retval state fst snd].
  - repeat split; intros; first [lia | congruence].
  - repeat split; intros; first [lia | congruence].
Qed.

(** X: the Sample Rate control reads back what was written.  Whenever a
    write returns 0 or 1, a read returns the item written; 0 means the rate
    was already the requested one and nothing was sent or changed, and a
    negative result leaves the rate as it was. *)
Theorem rate_control_round_trip (env : hid_env) (item : Z) (d : sl3_device) :
  he_usb_err env <= 0 ->
  let r := sl3_rate_put env item d in
  retval r <= 1
  /\ (0 <= retval r -> sl3_rate_get (state r) = if item =? 0 then 0 else 1)
  /\ (retval r = 0 -> state r = d /\ events r = [])
  /\ (retval r = 1 -> current_rate (state r) <> current_rate d)
  /\ (retval r < 0 -> current_rate (state r) = current_rate d).
Proof.
  intros He. cbn zeta. unfold sl3_rate_put, sl3_rate_get. cbn zeta.
  set (new_rate := if negb (item =? 0) then 48000 else 44100).
  assert (Hv : new_rate = 44100 \/ new_rate = 48000)
    by (subst new_rate; destruct (item =? 0); [left | right]; reflexivity).
  assert (Hg : (if new_rate =? 48000 then 1 else 0)
               = if item =? 0 then 0 else 1)
    by (subst new_rate; destruct (item =? 0); reflexivity).
  clearbody new_rate.
  destruct (set_rate_outcome env new_rate d Hv He) as (R & S0 & S1 & _).
  cbn zeta in R, S0, S1.
  run_monad.
  destruct (Z.eqb_spec new_rate (current_rate d)) as [Hc|Hc]; cbn [fst snd].
  - rewrite <- Hc, Hg.
    repeat split; intros; first [lia | congruence].
  - unfold retval, state in R, S0, S1.
    destruct (Z.eqb_spec (fst (fst (sl3_set_sample_rate env new_rate d))) 0)
      as [E|E]; cbn [negb fst snd].
    + rewrite (S0 E), Hg, app_nil_r.
      repeat split; intros; first [lia | congruence].
    + rewrite (S1 E).
      repeat split; intros; first [lia | congruence].
Qed.

(** Switching the probed device to 44.1 kHz through the control. *)
Lemma rate_control_round_trip_witness :
  let r := sl3_rate_put hid_env_ok 0 probed_dev in
  retval r = 1 /\ sl3_rate_get (state r) = 0.
Proof.
  destruct (rate_control_round_trip hid_env_ok 0 probed_dev
              ltac:(vm_compute; discriminate)) as (_ & G & _).
  assert (R : retval (sl3_rate_put hid_env_ok 0 probed_dev) = 1)
    by (vm_compute; reflexivity).
  split; [exact R|]. apply G. rewrite R. lia.
Defined.

(** X: the Output Source controls read back what was written.  Whenever a
    write of [val] to the control of one deck returns 0 or 1, a read of that
    control returns [val]; the controls of the other decks read as before in
    every case, and a failed write changes no routing at all. *)
Theorem route_control_round_trip (env : hid_env) (idx : nat) (val : Z)
    (d : sl3_device) :
  (idx < 3)%nat ->
  length (routing d) = 3%nat ->
  he_usb_err env <= 0 ->
  0 <= val ->
  let r := sl3_route_put env idx val d in
  retval r <= 1
  /\ (0 <= retval r -> sl3_route_get idx (state r) = val)
  /\ (forall j, j <> idx -> sl3_route_get j (state r) = sl3_route_get j d)
  /\ (retval r < 0 -> routing (state r) = routing d).
Proof.
  intros Hi Hl He Hval. cbn zeta. unfold sl3_route_put, sl3_route_get.
  destruct (Z.ltb_spec 1 val) as [H1|H1].
  { cbn. unfold EINVAL. repeat split; intros; first [lia | congruence]. }
  run_monad.
  destruct (Z.eqb_spec val (Z_of_u8 (default x00 (routing d !! idx))))
    as [Hc|Hc].
  { cbn [fst snd]. repeat split; intros; first [lia | congruence]. }
  unfold sl3_hid_set_routing.
  set (c := sl3_hid_send_cmd_locked env SL3_HID_CMD_ROUTING _ 3 false d).
  pose proof (send_cmd_retval env SL3_HID_CMD_ROUTING
                (Some [u8_of_Z (default 0 (pair_ids !! idx)); x01;
                       u8_of_Z val]) 3 false d He) as R.
  pose proof (send_cmd_audio env SL3_HID_CMD_ROUTING
                (Some [u8_of_Z (default 0 (pair_ids !! idx)); x01;
                       u8_of_Z val]) 3 false d) as A.
  unfold audio_state in A. injection A as _ _ _ A _ _.
  fold c in R, A. unfold retval, state in R, A. clearbody c.
  destruct (Z.eqb_spec (fst (fst c)) 0) as [E|E]; cbn [negb fst snd routing
    set_routing].
  - rewrite A. split; [lia|]. split; [|split].
    + intros _. rewrite list_lookup_insert_eq by lia. cbn.
      rewrite Z_of_u8_of_Z. apply Z.mod_small. lia.
    + intros j Hj. rewrite list_lookup_insert_ne by congruence. reflexivity.
    + intros H. discriminate H.
  - rewrite A. repeat split; intros; first [lia | congruence].
Qed.

(** Deck B of the probed device is switched to analog. *)
Lemma route_control_round_trip_witness :
  let r := sl3_route_put hid_env_ok 1 0 probed_dev in
  sl3_route_get 1 (state r) = 0
  /\ sl3_route_get 0 (state r) = 1
  /\ sl3_route_get 2 (state r) = 1.
Proof.
  destruct (route_control_round_trip hid_env_ok 1 0 probed_dev
              ltac:(lia) ltac:(vm_compute; reflexivity)
              ltac:(vm_compute; discriminate) ltac:(lia)) as (_ & G & F & _).
  split; [apply G; vm_compute; discriminate|].
  split; [rewrite (F 0%nat ltac:(discriminate))
         | rewrite (F 2%nat ltac:(discriminate))];
    vm_compute; reflexivity.
Defined.

(** ** Invariants of a computation *)

Section Preserves.
Context (P : sl3_device -> Prop).

Lemma preserves_ret {A} (a : A) : preserves P (ret a).
Proof. intros d H. exact H. Qed.

Lemma preserves_gets {A} (g : sl3_device -> A) : preserves P (gets g).
Proof. intros d H. exact H. Qed.

Lemma preserves_emit e : preserves P (emit e).
Proof. intros d H. exact H. Qed.

Lemma preserves_modify g : (forall d, P d -> P (g d)) -> preserves P (modify g).
Proof. intros H d Hd. apply H. exact Hd. Qed.

Lemma preserves_bind {A C} (m : M A) (k : A -> M C) :
  preserves P m -> (forall a, preserves P (k a)) -> preserves P (bind m k).
Proof.
  intros Hm Hk d Hd. rewrite state_bind. apply Hk, Hm. exact Hd.
Qed.

Lemma preserves_when b m : preserves P m -> preserves P (when b m).
Proof. intros H. destruct b; [exact H | apply preserves_ret]. Qed.

Lemma preserves_if {A} (b : bool) (m1 m2 : M A) :
  preserves P m1 -> preserves P m2 -> preserves P (if b then m1 else m2).
Proof. intros H1 H2. destruct b; assumption. Qed.
End Preserves.

Ltac preserves_step :=
  first
    [ apply preserves_ret | apply preserves_gets | apply preserves_emit
    | apply preserves_bind; [|intros ?]
    | apply preserves_when
    | apply preserves_if
    | apply preserves_modify; intros ? ? ].

Ltac preserves_auto := repeat preserves_step.

Lemma memcpy_length (dst src : list byte) (off n : nat) :
  (n <= length dst)%nat -> length (memcpy dst 0 src off n) = length dst.
Proof.
  intros H. unfold memcpy, write_at.
  assert (L : length (read_bytes src off n) = n).
  { unfold read_bytes. rewrite length_take, length_app, repeat_length. lia. }
  generalize dependent (read_bytes src off n). intros s L.
  change (take 0 dst) with (@nil byte). cbn [app].
  rewrite length_app, length_drop, L. lia.
Qed.

(** ** The phono query *)

Lemma hid_in_sized (status len : Z) (data : list byte) :
  preserves hid_sized (sl3_hid_in_complete status len data).
Proof.
  unfold sl3_hid_in_complete, hid_in_dispatch, hid_in_resubmit.
  preserves_auto;
    match goal with
    | H : hid_sized _ |- _ => destruct H as [H3 H64]
    end;
    try (split; [exact H3 | exact H64]).
  - split; [|exact H64]. cbn. rewrite memcpy_length; [exact H3|].
    rewrite H3. lia.
  - split; [exact H3|]. cbn. rewrite memcpy_length; [exact H64|].
    rewrite H64. unfold SL3_HID_REPORT_SIZE. lia.
Qed.

Lemma hid_deliver_sized (ins : list hid_in_urb) :
  preserves hid_sized (hid_deliver ins).
Proof.
  induction ins as [|u ins IH]; cbn [hid_deliver].
  - apply preserves_ret.
  - apply preserves_bind; [apply hid_in_sized | intros _; exact IH].
Qed.

Lemma send_cmd_sized env cmd payload len wait :
  preserves hid_sized (sl3_hid_send_cmd_locked env cmd payload len wait).
Proof.
  unfold sl3_hid_send_cmd_locked.
  preserves_auto;
    match goal with
    | H : hid_sized _ |- _ =>
        first [exact H | exact (hid_deliver_sized _ _ H)]
    end.
Qed.

(** X: after a successful phono query the Phono Switch Status control
    returns bytes 5..7 of the response in the mailbox.  The query sends the
    one QUERY_PHONO report and leaves streams, rate and routing alone. *)
Theorem phono_query_result (env : hid_env) (d : sl3_device) :
  disconnected d = false ->
  hid_sized d ->
  let r := sl3_hid_query_phono env d in
  out_commands (events r) = [SL3_HID_CMD_QUERY_PHONO]
  /\ audio_state (state r) = audio_state d
  /\ hid_sized (state r)
  /\ (retval r = 0 ->
      sl3_phono_get (state r)
      = map Z_of_u8 (take 3 (drop 5 (hid_response_buf (state r))))).
Proof.
  intros G Hs. cbn zeta. unfold sl3_hid_query_phono.
  pose proof (send_cmd_commands env SL3_HID_CMD_QUERY_PHONO None 0 true d) as O.
  pose proof (send_cmd_audio env SL3_HID_CMD_QUERY_PHONO None 0 true d) as A.
  pose proof (send_cmd_sized env SL3_HID_CMD_QUERY_PHONO None 0 true d Hs)
    as [S3 S64].
  rewrite G in O. unfold sl3_phono_get. bind_simpl.
  set (c := sl3_hid_send_cmd_locked env SL3_HID_CMD_QUERY_PHONO None 0 true d)
    in *.
  clearbody c.
  change (events (ret ?a ?x)) with (@nil event).
  change (retval (ret ?a ?x)) with a.
  change (state (ret ?a ?x)) with x.
  destruct (Z.eqb_spec (retval c) 0) as [E|E]; unfold when;
    change (events (modify ?f ?x)) with (@nil event);
    change (state (modify ?f ?x)) with (f x);
    change (events (ret ?a ?x)) with (@nil event);
    change (state (ret ?a ?x)) with x;
    rewrite !app_nil_r.
  - split; [exact O|]. split; [exact A|].
    assert (M : memcpy (phono_status (state c)) 0
                  (hid_response_buf (state c)) 5 3
                = take 3 (drop 5 (hid_response_buf (state c)))).
    { apply memcpy_whole; [exact S3|]. rewrite S64.
      unfold SL3_HID_REPORT_SIZE. lia. }
    cbn [phono_status hid_response_buf set_phono_status]. rewrite M.
    split.
    + split; [|exact S64]. cbn. rewrite length_take, length_drop, S64.
      unfold SL3_HID_REPORT_SIZE. lia.
    + intros _. apply read_cache3.
      rewrite length_take, length_drop, S64. unfold SL3_HID_REPORT_SIZE. lia.
  - split; [exact O|]. split; [exact A|].
    split; [split; assumption|]. intros H. contradiction.
Qed.

(** The device answers the query with switches 1 and 3 on phono. *)
Lemma phono_query_result_witness :
  let env := {| he_usb_err := 0;
                he_in := [{| in_status := 0; in_actual_length := 64;
                             in_data := [x32; x1c; xc5; x00; x01;
                                         x01; x00; x01] ++ repeat x00 56 |}] |} in
  sl3_phono_get (state (sl3_hid_query_phono env probed_dev)) = [1; 0; 1].
Proof.
  cbn zeta.
  set (env := {| he_usb_err := 0; he_in := _ |}).
  destruct (phono_query_result env probed_dev
              ltac:(vm_compute; reflexivity)
              ltac:(split; vm_compute; reflexivity)) as (_ & _ & _ & H).
  specialize (H ltac:(vm_compute; reflexivity)).
  vm_compute in H. vm_compute. exact H.
Defined.

(** * Properties beyond the specification: URBs *)

Ltac prim_simpl :=
  repeat first
    [ progress change (state (modify ?f ?x)) with (f x)
    | progress change (events (modify ?f ?x)) with (@nil event)
    | progress change (state (gets ?f ?x)) with x
    | progress change (retval (gets ?f ?x)) with (f x)
    | progress change (events (gets ?f ?x)) with (@nil event)
    | progress change (state (emit ?e ?x)) with x
    | progress change (events (emit ?e ?x)) with [e]
    | progress change (state (ret ?a ?x)) with x
    | progress change (retval (ret ?a ?x)) with a
    | progress change (events (ret ?a ?x)) with (@nil event) ].

Ltac monad_simpl := repeat (progress (bind_simpl; prim_simpl)).

(** ** Preparing URBs *)

(** X: [sl3_prepare_capture_urb] lays the eight packet slots of a capture
    URB back to back, 126 bytes each, slot [i] at offset [126 * i], and sets
    the transfer length to the 1008 bytes they cover.  Buffer, received
    lengths and the URB's bookkeeping are left alone. *)
Theorem prepare_capture_layout (u : sl3_urb_ctx) :
  length (iso_frame_desc u) = 8%nat ->
  let u' := sl3_prepare_capture_urb u in
  desc_layout u' = map (fun i => (126 * Z.of_nat i, 126)) (seq 0 8)
  /\ transfer_buffer_length u' = 1008
  /\ map iso_actual_length (iso_frame_desc u')
     = map iso_actual_length (iso_frame_desc u)
  /\ (buffer u', urb_allocated u', urb_in_flight u', error_retries u')
     = (buffer u, urb_allocated u, urb_in_flight u, error_retries u).
Proof.
  intros H. destruct u as [al fl ds tbl buf er]. cbn in H.
  destruct ds as [|p0 [|p1 [|p2 [|p3 [|p4 [|p5 [|p6 [|p7 [|? ?]]]]]]]]];
    try discriminate H.
  repeat split.
Qed.

Lemma prepare_capture_layout_witness :
  desc_layout (sl3_prepare_capture_urb fresh_urb)
  = [(0, 126); (126, 126); (252, 126); (378, 126); (504, 126); (630, 126);
     (756, 126); (882, 126)].
Proof.
  apply (prepare_capture_layout fresh_urb). reflexivity.
Defined.

Lemma next_samples_frame :
  keeps (fun d => (playback d, capture d, current_rate d, disconnected d))
    sl3_next_packet_samples.
Proof. unfold sl3_next_packet_samples. keeps_auto. Qed.

Lemma next_samples_ext (d1 d2 : sl3_device) :
  current_rate d1 = current_rate d2 ->
  sample_accumulator d1 = sample_accumulator d2 ->
  retval (sl3_next_packet_samples d1) = retval (sl3_next_packet_samples d2)
  /\ current_rate (state (sl3_next_packet_samples d1))
     = current_rate (state (sl3_next_packet_samples d2))
  /\ sample_accumulator (state (sl3_next_packet_samples d1))
     = sample_accumulator (state (sl3_next_packet_samples d2)).
Proof.
  intros Hr Ha. unfold sl3_next_packet_samples. run_monad. rewrite Hr.
  destruct (current_rate d2 =? 48000); cbn [fst snd].
  - repeat split; assumption.
  - cbn [sample_accumulator set_sample_accumulator]. rewrite Ha.
    destruct (SL3_FRAC_DENOM <=? u32 (sample_accumulator d2 + SL3_FRAC_NUM));
      cbn [fst snd]; repeat split; assumption.
Qed.

Lemma next_calls_ext (n : nat) : forall d1 d2,
  current_rate d1 = current_rate d2 ->
  sample_accumulator d1 = sample_accumulator d2 ->
  next_samples_calls n d1 = next_samples_calls n d2.
Proof.
  induction n as [|n IH]; intros d1 d2 Hr Ha; cbn [next_samples_calls].
  - reflexivity.
  - destruct (next_samples_ext d1 d2 Hr Ha) as (E & Hr' & Ha').
    rewrite E. f_equal. apply IH; assumption.
Qed.

Lemma next_calls_range (n : nat) : forall d,
  Forall (fun s => s = 5 \/ s = 6) (next_samples_calls n d).
Proof.
  induction n as [|n IH]; intros d; cbn [next_samples_calls]; constructor.
  - apply next_samples_value.
  - apply IH.
Qed.

Lemma next_calls_48k (n : nat) : forall d,
  current_rate d = 48000 -> next_samples_calls n d = repeat 6 n.
Proof.
  induction n as [|n IH]; intros d H; cbn [next_samples_calls repeat].
  - reflexivity.
  - rewrite (next_samples_48k d H). cbn [retval state fst snd].
    f_equal. apply IH. exact H.
Qed.

(** The bookkeeping of a URB that preparing and filling leave alone. *)
Lemma prepare_loop_urb (idx n : nat) : forall off d u,
  (n <= 8)%nat ->
  0 <= off -> off + 126 * Z.of_nat n <= 1008 ->
  urbs (playback d) !! idx = Some u ->
  length (iso_frame_desc u) = 8%nat ->
  let r := prepare_playback_loop idx n off d in
  let plan := next_samples_calls n d in
  retval r = off + sumZ plan * SL3_BYTES_PER_FRAME
  /\ events r = []
  /\ (pointers Playback (state r) = pointers Playback d
      /\ running (playback (state r)) = running (playback d)
      /\ capture (state r) = capture d
      /\ current_rate (state r) = current_rate d
      /\ disconnected (state r) = disconnected d)
  /\ (forall j, j <> idx ->
      urbs (playback (state r)) !! j = urbs (playback d) !! j)
  /\ exists u',
       urbs (playback (state r)) !! idx = Some u'
       /\ desc_layout u' = take (8 - n) (desc_layout u) ++ layout off plan
       /\ buffer u' = buffer u
       /\ urb_allocated u' = urb_allocated u
       /\ urb_in_flight u' = urb_in_flight u
       /\ error_retries u' = error_retries u
       /\ transfer_buffer_length u' = transfer_buffer_length u.
Proof.
  induction n as [|n IH]; intros off d u Hn Hoff Hfit Hu Hdesc.
  - cbn. split; [lia|]. split; [reflexivity|].
    split; [repeat split|].
    split; [reflexivity|]. exists u. rewrite Hu.
    rewrite firstn_all2 by (rewrite desc_layout_length; lia).
    rewrite app_nil_r. repeat split.
  - cbn zeta. cbn [prepare_playback_loop next_samples_calls].
    set (i := (Z.to_nat SL3_ISO_PACKETS - S n)%nat).
    assert (Hi : i = (7 - n)%nat) by (subst i; unfold SL3_ISO_PACKETS; lia).
    bind_simpl.
    pose proof (next_samples_frame d) as F0.
    pose proof (next_samples_events d) as E0.
    pose proof (next_samples_value d) as V0. cbn zeta in V0.
    set (r0 := sl3_next_packet_samples d) in *.
    set (s := retval r0) in *.
    assert (Hbytes : u32 (s * SL3_BYTES_PER_FRAME) = s * SL3_BYTES_PER_FRAME)
      by (apply u32_small; unfold SL3_BYTES_PER_FRAME; lia).
    assert (Hoff' : u32 (off + s * SL3_BYTES_PER_FRAME)
                    = off + s * SL3_BYTES_PER_FRAME)
      by (apply u32_small; unfold SL3_BYTES_PER_FRAME; lia).
    rewrite Hbytes, Hoff'.
    change (events (modify ?f ?x)) with (@nil event).
    change (state (modify ?f ?x)) with (f x).
    rewrite E0. cbn [app].
    set (u0 := set_iso_desc i off (s * SL3_BYTES_PER_FRAME) u).
    set (d1 := upd_urb Playback idx
                 (set_iso_desc i off (s * SL3_BYTES_PER_FRAME)) (state r0)).
    injection F0 as Fp Fc Fr Fg.
    destruct (upd_urb_stream idx
                (set_iso_desc i off (s * SL3_BYTES_PER_FRAME)) (state r0))
      as (Ss & Sr & Sh & St & Su).
    cbn zeta in Ss, Sr, Sh, St, Su. fold d1 in Ss, Sr, Sh, St, Su.
    rewrite Fp in Ss, Sr, Sh, St, Su.
    assert (Hu1 : urbs (playback d1) !! idx = Some u0).
    { rewrite Su, list_lookup_alter_eq, Hu. reflexivity. }
    assert (Hk : next_samples_calls n d1 = next_samples_calls n (state r0))
      by (apply next_calls_ext; reflexivity).
    destruct (IH (off + s * SL3_BYTES_PER_FRAME) d1 u0)
      as (Hret & Hev & (Hf1 & Hf2 & Hf3 & Hf4 & Hf5) & Hoth & u' & Hu' & Hlay
          & Hb & Ha & Hfl & He & Ht);
      [lia | unfold SL3_BYTES_PER_FRAME; lia
       | unfold SL3_BYTES_PER_FRAME; lia | exact Hu1
       | subst u0; cbn; rewrite length_alter; exact Hdesc | ].
    cbn zeta in Hret, Hev, Hf1, Hf2, Hf3, Hf4, Hf5, Hoth, Hu', Hlay.
    rewrite Hk in Hret, Hlay.
    cbn [sumZ fold_right].
    fold (sumZ (next_samples_calls n (state r0))).
    split; [rewrite Hret; lia|].
    split; [exact Hev|].
    split.
    { rewrite Hf1, Hf2, Hf3, Hf4, Hf5. unfold pointers. cbn [stream_of].
      rewrite Ss, Sr, Sh, St.
      change (capture d1) with (capture (state r0)).
      change (current_rate d1) with (current_rate (state r0)).
      change (disconnected d1) with (disconnected (state r0)).
      rewrite Fc, Fr, Fg. repeat split. }
    split.
    { intros j Hj. rewrite (Hoth j Hj), Su.
      rewrite list_lookup_alter_ne by congruence. reflexivity. }
    exists u'. split; [exact Hu'|]. split.
    { rewrite Hlay. subst u0. rewrite desc_layout_set.
      replace (8 - n)%nat with (S i) by lia.
      rewrite (take_S_r _ i (off, s * SL3_BYTES_PER_FRAME))
        by (apply list_lookup_insert_eq; rewrite desc_layout_length; lia).
      rewrite take_insert_ge by lia.
      replace (8 - S n)%nat with i by lia.
      rewrite <- app_assoc. reflexivity. }
    rewrite Hb, Ha, Hfl, He, Ht. repeat split.
Qed.

(** X: [sl3_prepare_playback_urb] leaves a URB of silence sized by the
    rate pattern: the whole 1008-byte buffer is zero, the eight packets lie
    back to back from offset 0 with the sample counts of the next eight
    calls of [sl3_next_packet_samples], each 5 or 6 frames, and the transfer
    length is their total; at 48 kHz that is eight packets of 6 frames, 864
    bytes.  Nothing is logged and the stream pointers, the other URBs and the
    bookkeeping of the URB stay as they are. *)
Theorem prepare_playback_silence (idx : nat) (d : sl3_device)
    (u : sl3_urb_ctx) :
  urbs (playback d) !! idx = Some u ->
  length (iso_frame_desc u) = 8%nat ->
  length (buffer u) = 1008%nat ->
  let r := sl3_prepare_playback_urb idx d in
  let u' := urb_of Playback idx (state r) in
  let plan := next_samples_calls 8 d in
  buffer u' = repeat x00 1008
  /\ desc_layout u' = layout 0 plan
  /\ transfer_buffer_length u' = sumZ plan * SL3_BYTES_PER_FRAME
  /\ Forall (fun s => s = 5 \/ s = 6) plan
  /\ (current_rate d = 48000 ->
      urb_samples u' = repeat 6 8 /\ transfer_buffer_length u' = 864)
  /\ events r = []
  /\ pointers Playback (state r) = pointers Playback d
  /\ (forall j, j <> idx ->
      urbs (playback (state r)) !! j = urbs (playback d) !! j)
  /\ (urb_allocated u', urb_in_flight u', error_retries u')
     = (urb_allocated u, urb_in_flight u, error_retries u).
Proof.
  intros Hu Hdesc Hbuf. cbn zeta.
  unfold sl3_prepare_playback_urb.
  remember (Z.to_nat SL3_ISO_PACKETS) as n eqn:En.
  assert (Hn : n = 8%nat) by (subst n; reflexivity). clear En.
  monad_simpl.
  set (zero := fun u0 : sl3_urb_ctx =>
                 set_buffer
                   (memset (buffer u0) 0 x00 (Z.to_nat SL3_URB_BUFFER_SIZE)) u0).
  destruct (upd_urb_stream idx zero d) as (Ss & Sr & Sh & St & Su).
  cbn zeta in Ss, Sr, Sh, St, Su.
  set (d0 := upd_urb Playback idx zero d) in *.
  assert (Hu0 : urbs (playback d0) !! idx = Some (zero u))
    by (rewrite Su, list_lookup_alter_eq, Hu; reflexivity).
  destruct (prepare_loop_urb idx n 0 d0 (zero u))
    as (Hret & Hev & (Hfr & _) & Hoth & u' & Hu' & Hlay & Fb & Fa & Ff & Fe & _);
    [lia | lia | lia | exact Hu0 | exact Hdesc |].
  cbn zeta in Hret, Hev, Hfr, Hoth, Hu', Hlay.
  assert (Hp0 : pointers Playback d0 = pointers Playback d)
    by (unfold pointers; cbn [stream_of]; rewrite Ss, Sh, St; reflexivity).
  rewrite Hp0 in Hfr.
  assert (Hk : next_samples_calls n d0 = next_samples_calls 8 d)
    by (rewrite Hn; apply next_calls_ext; reflexivity).
  rewrite Hk in Hret, Hlay.
  replace (8 - n)%nat with 0%nat in Hlay by lia.
  rewrite take_0 in Hlay. cbn [app] in Hlay.
  rewrite Z.add_0_l in Hret.
  set (r1 := prepare_playback_loop idx n 0 d0) in *. clearbody r1.
  rewrite Hret, Hev.
  destruct (upd_urb_stream idx
              (set_transfer_buffer_length
                 (sumZ (next_samples_calls 8 d) * SL3_BYTES_PER_FRAME))
              (state r1)) as (Ts & Tr & Th & Tt & Tu).
  cbn zeta in Ts, Tr, Th, Tt, Tu.
  set (d2 := upd_urb Playback idx _ (state r1)) in *.
  assert (Hu2 : urb_of Playback idx d2
                = set_transfer_buffer_length
                    (sumZ (next_samples_calls 8 d) * SL3_BYTES_PER_FRAME) u').
  { unfold urb_of. cbn [stream_of].
    rewrite Tu, list_lookup_alter_eq, Hu'. reflexivity. }
  rewrite Hu2.
  pose proof (next_calls_range 8 d) as Hr.
  split.
  { cbn [buffer set_transfer_buffer_length]. rewrite Fb. subst zero.
    cbn [buffer set_buffer]. apply memset_whole. exact Hbuf. }
  split; [exact Hlay|].
  split; [reflexivity|].
  split; [exact Hr|].
  split.
  { intros H48. rewrite (next_calls_48k 8 d H48) in *.
    split; [|reflexivity].
    apply (urb_samples_layout _ 0). exact Hlay. }
  split; [reflexivity|].
  split.
  { rewrite <- Hfr. unfold pointers. cbn [stream_of].
    rewrite Ts, Th, Tt. reflexivity. }
  split.
  { intros j Hj. rewrite Tu, list_lookup_alter_ne by congruence.
    rewrite (Hoth j Hj), Su, list_lookup_alter_ne by congruence.
    reflexivity. }
  cbn [urb_allocated urb_in_flight error_retries set_transfer_buffer_length].
  rewrite Fa, Ff, Fe. reflexivity.
Qed.

(** URB 3 of the probed device at 48 kHz. *)
Lemma prepare_playback_silence_witness :
  let u' := urb_of Playback 3 (state (sl3_prepare_playback_urb 3 probed_dev)) in
  buffer u' = repeat x00 1008
  /\ urb_samples u' = repeat 6 8
  /\ transfer_buffer_length u' = 864.
Proof.
  destruct (prepare_playback_silence 3 probed_dev fresh_urb
              ltac:(vm_compute; reflexivity) ltac:(vm_compute; reflexivity)
              ltac:(vm_compute; reflexivity))
    as (B & _ & _ & _ & H & _).
  destruct (H ltac:(vm_compute; reflexivity)) as [S T].
  split; [exact B | split; [exact S | exact T]].
Defined.

(** ** Allocation and release *)

Lemma released_unallocated (l : list sl3_urb_ctx) :
  Forall (fun u => urb_allocated u = false) (map released l).
Proof.
  apply Forall_map. apply Forall_forall. intros u _. unfold released.
  destruct (urb_allocated u) eqn:E; [reflexivity | exact E].
Qed.

Lemma urb_free_urbs (dir : direction) (d : sl3_device) :
  let d' := state (sl3_urb_free dir d) in
  urbs (stream_of dir d') = map released (urbs (stream_of dir d))
  /\ stream_frame (stream_of dir d') = stream_frame (stream_of dir d)
  /\ (forall dir', dir' <> dir -> stream_of dir' d' = stream_of dir' d)
  /\ events (sl3_urb_free dir d) = [].
Proof.
  cbn zeta. destruct dir; (repeat split; try reflexivity);
    intros [] H; try reflexivity; congruence.
Qed.

Lemma urb_alloc_loop_spec (env : urb_alloc_env) (dir : direction) (n : nat) :
  forall d,
  (n <= SL3_NUM_URBS)%nat ->
  (length (urbs (stream_of dir d)) <= SL3_NUM_URBS)%nat ->
  let r := urb_alloc_loop env dir n d in
  let l := urbs (stream_of dir d) in
  events r = []
  /\ stream_frame (stream_of dir (state r)) = stream_frame (stream_of dir d)
  /\ (forall dir', dir' <> dir ->
      stream_of dir' (state r) = stream_of dir' d)
  /\ (forallb (alloc_ok env) (seq (SL3_NUM_URBS - n) n) = true ->
      retval r = 0
      /\ urbs (stream_of dir (state r))
         = take (SL3_NUM_URBS - n) l
           ++ map (fun u => set_error_retries (error_retries u) fresh_urb)
                (drop (SL3_NUM_URBS - n) l))
  /\ (forallb (alloc_ok env) (seq (SL3_NUM_URBS - n) n) = false ->
      retval r = - ENOMEM
      /\ Forall (fun u => urb_allocated u = false)
           (urbs (stream_of dir (state r)))).
Proof.
  induction n as [|n IH]; intros d Hn Hl; cbn zeta.
  - cbn [urb_alloc_loop seq forallb]. rewrite Nat.sub_0_r.
    split; [reflexivity|]. split; [reflexivity|]. split; [reflexivity|].
    split; [|intros H; discriminate H].
    intros _. split; [reflexivity|].
    change (state (ret 0 d)) with d.
    rewrite take_ge, drop_ge by lia. symmetry. apply app_nil_r.
  - cbn [urb_alloc_loop seq forallb].
    replace (S (SL3_NUM_URBS - S n)) with (SL3_NUM_URBS - n)%nat by lia.
    set (i := (SL3_NUM_URBS - S n)%nat) in *.
    fold (alloc_ok env i).
    destruct (alloc_ok env i); cbn [andb].
    + monad_simpl.
      set (f := fun u : sl3_urb_ctx =>
                  set_error_retries (error_retries u) fresh_urb).
      set (d1 := upd_urb dir i f d).
      assert (U1 : urbs (stream_of dir d1) = alter f i (urbs (stream_of dir d)))
        by (destruct dir; reflexivity).
      assert (F1 : stream_frame (stream_of dir d1)
                   = stream_frame (stream_of dir d))
        by (destruct dir; reflexivity).
      assert (O1 : forall dir', dir' <> dir ->
                     stream_of dir' d1 = stream_of dir' d)
        by (intros dir' H; destruct dir, dir'; try reflexivity; congruence).
      clearbody d1.
      destruct (IH d1) as (E & F & O & Hs & Hf);
        [lia | rewrite U1, length_alter; exact Hl |].
      cbn zeta in E, F, O, Hs, Hf.
      split; [exact E|].
      split; [rewrite F; exact F1|].
      split; [intros dir' H; rewrite (O dir' H); apply O1; exact H|].
      split.
      * intros H. destruct (Hs H) as [R U]. split; [exact R|].
        rewrite U, U1.
        replace (SL3_NUM_URBS - n)%nat with (S i) by lia.
        apply alter_sweep.
      * exact Hf.
    + monad_simpl.
      destruct (urb_free_urbs dir d) as (U & F & O & E). cbn zeta in U, F, O, E.
      rewrite E. split; [reflexivity|].
      split; [exact F|]. split; [exact O|].
      split; [intros H; discriminate H|].
      intros _. split; [reflexivity|].
      rewrite U. apply released_unallocated.
Qed.

Lemma fresh_urb_ready (e : Z) : urb_ready (set_error_retries e fresh_urb).
Proof. repeat split. Qed.

(** X: [sl3_urb_alloc] is all or nothing.  When every URB and every buffer
    can be allocated it returns 0 and the stream holds sixteen URBs, each
    allocated, idle, with a 1008-byte buffer and eight descriptors.  When
    any allocation fails it returns [-ENOMEM] with every URB of the stream
    released, also those allocated before the failure.  The stream's
    pointers and the other stream are not touched, and nothing is submitted. *)
Theorem urb_alloc_all_or_nothing (env : urb_alloc_env) (dir : direction)
    (d : sl3_device) :
  length (urbs (stream_of dir d)) = SL3_NUM_URBS ->
  let r := sl3_urb_alloc env dir d in
  let s' := stream_of dir (state r) in
  events r = []
  /\ stream_frame s' = stream_frame (stream_of dir d)
  /\ (forall dir', dir' <> dir -> stream_of dir' (state r) = stream_of dir' d)
  /\ (forallb (alloc_ok env) (seq 0 SL3_NUM_URBS) = true ->
      retval r = 0
      /\ length (urbs s') = SL3_NUM_URBS
      /\ Forall urb_ready (urbs s'))
  /\ (forallb (alloc_ok env) (seq 0 SL3_NUM_URBS) = false ->
      retval r = - ENOMEM
      /\ Forall (fun u => urb_allocated u = false) (urbs s')).
Proof.
  intros Hl. cbn zeta. unfold sl3_urb_alloc.
  destruct (urb_alloc_loop_spec env dir SL3_NUM_URBS d)
    as (E & F & O & Hs & Hf); [lia | lia |].
  cbn zeta in E, F, O, Hs, Hf. rewrite Nat.sub_diag in Hs, Hf.
  split; [exact E|]. split; [exact F|]. split; [exact O|].
  split; [|exact Hf].
  intros H. destruct (Hs H) as [R U]. split; [exact R|].
  rewrite U, drop_0. change (take 0 ?l) with (@nil sl3_urb_ctx). cbn [app].
  split; [rewrite length_map; exact Hl|].
  apply Forall_map. apply Forall_forall. intros u _. apply fresh_urb_ready.
Qed.

(** The playback URBs of a fresh device, with the buffer of URB 5 failing. *)
Lemma urb_alloc_all_or_nothing_witness :
  let env := {| ua_urb_ok := fun _ => true;
                ua_buf_ok := fun i => negb (Nat.eqb i 5) |} in
  let r := sl3_urb_alloc env Playback kzalloc_dev in
  retval r = - ENOMEM
  /\ Forall (fun u => urb_allocated u = false) (urbs (stream_of Playback (state r))).
Proof.
  cbn zeta.
  set (env := {| ua_urb_ok := fun _ => true; ua_buf_ok := _ |}).
  destruct (urb_alloc_all_or_nothing env Playback kzalloc_dev
              ltac:(reflexivity)) as (_ & _ & _ & _ & N).
  apply N. vm_compute. reflexivity.
Defined.

(** X: releasing the URBs of a stream twice is the same as releasing them
    once, and afterwards no URB of the stream is allocated; the stream's
    pointers and the other stream are as before. *)
Theorem urb_free_idempotent (dir : direction) (d : sl3_device) :
  let d1 := state (sl3_urb_free dir d) in
  Forall (fun u => urb_allocated u = false) (urbs (stream_of dir d1))
  /\ urbs (stream_of dir (state (sl3_urb_free dir d1)))
     = urbs (stream_of dir d1)
  /\ stream_frame (stream_of dir d1) = stream_frame (stream_of dir d)
  /\ (forall dir', dir' <> dir -> stream_of dir' d1 = stream_of dir' d).
Proof.
  cbn zeta.
  destruct (urb_free_urbs dir d) as (U & F & O & _). cbn zeta in U, F, O.
  destruct (urb_free_urbs dir (state (sl3_urb_free dir d))) as (U2 & _).
  cbn zeta in U2.
  split; [rewrite U; apply released_unallocated|].
  split; [|split; [exact F | exact O]].
  rewrite U2, U, <- list_fmap_compose. apply list_fmap_ext.
  intros k u _. cbn. unfold released.
  destruct (urb_allocated u) eqn:E; cbn; [reflexivity | rewrite E; reflexivity].
Qed.

(** ** Starting a stream *)

Lemma map_alter_same {A B} (g : A -> B) (f : A -> A) (i : nat) (l : list A) :
  (forall x, g (f x) = g x) -> map g (alter f i l) = map g l.
Proof.
  intros H. revert i. induction l as [|x l IH]; intros [|i]; cbn;
    rewrite ?H, ?IH; reflexivity.
Qed.

Lemma upd_urb_start_frame (dir : direction) (i : nat)
    (f : sl3_urb_ctx -> sl3_urb_ctx) (d : sl3_device) :
  (forall u, urb_in_flight (f u) = urb_in_flight u) ->
  (forall u, urb_allocated (f u) = urb_allocated u) ->
  start_frame (upd_urb dir i f d) = start_frame d.
Proof.
  intros Hf Ha. unfold start_frame, in_flight_map, pointers.
  destruct dir; cbn [stream_of upd_urb upd_stream set_stream playback capture
    set_playback set_capture urbs set_urbs substream hwptr transfer_done
    running disconnected];
    rewrite !(map_alter_same urb_in_flight f i) by exact Hf;
    rewrite !(map_alter_same urb_allocated f i) by exact Ha; reflexivity.
Qed.

Section Silent.
Lemma silent_ret {A} (a : A) : silent (ret a).
Proof. intros d. reflexivity. Qed.

Lemma silent_gets {A} (g : sl3_device -> A) : silent (gets g).
Proof. intros d. reflexivity. Qed.

Lemma silent_modify g : silent (modify g).
Proof. intros d. reflexivity. Qed.

Lemma silent_bind {A C} (m : M A) (k : A -> M C) :
  silent m -> (forall a, silent (k a)) -> silent (bind m k).
Proof. intros Hm Hk d. rewrite events_bind, Hm, Hk. reflexivity. Qed.

Lemma silent_when b m : silent m -> silent (when b m).
Proof. intros H. destruct b; [exact H | apply silent_ret]. Qed.

Lemma silent_if {A} (b : bool) (m1 m2 : M A) :
  silent m1 -> silent m2 -> silent (if b then m1 else m2).
Proof. intros H1 H2. destruct b; assumption. Qed.
End Silent.

Lemma next_samples_silent : silent sl3_next_packet_samples.
Proof. intros d. apply next_samples_events. Qed.

Lemma next_samples_start_frame : keeps start_frame sl3_next_packet_samples.
Proof. unfold sl3_next_packet_samples. keeps_auto. Qed.

Lemma prepare_loop_frame (idx n : nat) : forall off,
  keeps start_frame (prepare_playback_loop idx n off)
  /\ silent (prepare_playback_loop idx n off).
Proof.
  induction n as [|n IH]; intros off; cbn [prepare_playback_loop].
  - split; [apply keeps_ret | apply silent_ret].
  - split.
    + apply keeps_bind; [apply next_samples_start_frame | intros s].
      apply keeps_bind; [|intros _; apply IH].
      apply keeps_modify. intros d. apply upd_urb_start_frame; reflexivity.
    + apply silent_bind; [apply next_samples_silent | intros s].
      apply silent_bind; [apply silent_modify | intros _; apply IH].
Qed.

Lemma prepare_playback_frame (idx : nat) :
  keeps start_frame (sl3_prepare_playback_urb idx)
  /\ silent (sl3_prepare_playback_urb idx).
Proof.
  unfold sl3_prepare_playback_urb.
  generalize (Z.to_nat SL3_ISO_PACKETS). intros n. split.
  - apply keeps_bind;
      [apply keeps_modify; intros d; apply upd_urb_start_frame; reflexivity
      | intros _].
    apply keeps_bind; [apply prepare_loop_frame | intros off].
    apply keeps_modify. intros d. apply upd_urb_start_frame; reflexivity.
  - apply silent_bind; [apply silent_modify | intros _].
    apply silent_bind; [apply prepare_loop_frame | intros off].
    apply silent_modify.
Qed.

Lemma prepare_capture_loop_fields (n : nat) : forall off u,
  urb_in_flight (fst (prepare_capture_loop n off u)) = urb_in_flight u
  /\ urb_allocated (fst (prepare_capture_loop n off u)) = urb_allocated u.
Proof.
  induction n as [|n IH]; intros off u; cbn [prepare_capture_loop fst].
  - split; reflexivity.
  - destruct (IH (u32 (off + SL3_MAX_PACKET_SIZE))
                 (set_iso_desc (Z.to_nat SL3_ISO_PACKETS - S n) off
                    SL3_MAX_PACKET_SIZE u)) as [E1 E2].
    rewrite E1, E2. split; reflexivity.
Qed.

Lemma prepare_capture_fields (u : sl3_urb_ctx) :
  urb_in_flight (sl3_prepare_capture_urb u) = urb_in_flight u
  /\ urb_allocated (sl3_prepare_capture_urb u) = urb_allocated u.
Proof.
  unfold sl3_prepare_capture_urb.
  cbn [urb_in_flight urb_allocated set_transfer_buffer_length].
  apply prepare_capture_loop_fields.
Qed.

Lemma prepare_all_frame (dir : direction) (n : nat) :
  keeps start_frame (prepare_all dir n) /\ silent (prepare_all dir n).
Proof.
  induction n as [|n [IHk IHs]]; cbn [prepare_all].
  - split; [apply keeps_ret | apply silent_ret].
  - split.
    + apply keeps_bind; [|intros _; exact IHk].
      destruct dir; cbn [is_playback].
      * apply prepare_playback_frame.
      * apply keeps_modify. intros d.
        apply (upd_urb_start_frame Capture (SL3_NUM_URBS - S n)
                 sl3_prepare_capture_urb d); intros u;
          [exact (proj1 (prepare_capture_fields u))
          | exact (proj2 (prepare_capture_fields u))].
    + apply silent_bind; [|intros _; exact IHs].
      destruct dir; cbn [is_playback].
      * apply prepare_playback_frame.
      * apply silent_modify.
Qed.

Lemma first_refused_range (err : nat -> Z) (n : nat) : forall lo k,
  first_refused err lo n = Some k ->
  (lo <= k < lo + n)%nat /\ err k <> 0.
Proof.
  induction n as [|n IH]; intros lo k H; cbn [first_refused] in H.
  - discriminate H.
  - destruct (Z.eqb_spec (err lo) 0) as [E|E]; cbn [negb] in H.
    + destruct (IH (S lo) k H) as [R N]. split; [lia | exact N].
    + injection H as <-. split; [lia | exact E].
Qed.

Lemma alter_sweep_range {A} (f : A -> A) (l : list A) : forall i k,
  take (S i) (alter f i l)
  ++ map f (take k (drop (S i) (alter f i l)))
  ++ drop (S i + k) (alter f i l)
  = take i l ++ map f (take (S k) (drop i l)) ++ drop (S i + k) l.
Proof.
  induction l as [|x l IH]; intros [|i] k; cbn; try reflexivity.
  - rewrite !take_nil. reflexivity.
  - rewrite !take_nil. reflexivity.
  - f_equal. apply IH.
Qed.

(** The submission loop of [sl3_urb_start]: it stops at the first URB the
    host controller refuses, with the URBs before it in flight. *)
Lemma submit_all_spec (err : nat -> Z) (dir : direction) (n : nat) :
  forall d,
  (n <= SL3_NUM_URBS)%nat ->
  (length (urbs (stream_of dir d)) <= SL3_NUM_URBS)%nat ->
  let r := submit_all err dir n d in
  let lo := (SL3_NUM_URBS - n)%nat in
  let stop := first_refused err lo n in
  let bound := default SL3_NUM_URBS stop in
  let l := urbs (stream_of dir d) in
  retval r = match stop with Some k => err k | None => 0 end
  /\ events r
     = map (EvSubmit dir)
         (seq lo (match stop with Some k => S k - lo | None => n end))
  /\ urbs (stream_of dir (state r))
     = take lo l ++ map (set_urb_in_flight true) (take (bound - lo) (drop lo l))
       ++ drop bound l
  /\ running (stream_of dir (state r))
     = match stop with Some _ => false | None => running (stream_of dir d) end
  /\ pointers dir (state r) = pointers dir d
  /\ disconnected (state r) = disconnected d
  /\ (forall dir', dir' <> dir -> stream_of dir' (state r) = stream_of dir' d).
Proof.
  induction n as [|n IH]; intros d Hn Hl; cbn zeta.
  - cbn [submit_all first_refused seq map default from_option id].
    rewrite Nat.sub_0_r, Nat.sub_diag.
    change (take 0 ?x) with (@nil sl3_urb_ctx). cbn [map app].
    rewrite take_ge, drop_ge, app_nil_r by lia.
    repeat split.
  - cbn [submit_all first_refused]. unfold usb_submit_urb.
    set (i := (SL3_NUM_URBS - S n)%nat) in *.
    monad_simpl.
    destruct (Z.eqb_spec (err i) 0) as [E|E]; cbn [negb].
    + unfold when. monad_simpl. cbn [app].
      set (d1 := upd_urb dir i (set_urb_in_flight true) d).
      assert (U1 : urbs (stream_of dir d1)
                   = alter (set_urb_in_flight true) i (urbs (stream_of dir d)))
        by (destruct dir; reflexivity).
      assert (R1 : running (stream_of dir d1) = running (stream_of dir d))
        by (destruct dir; reflexivity).
      assert (P1 : pointers dir d1 = pointers dir d)
        by (destruct dir; reflexivity).
      assert (G1 : disconnected d1 = disconnected d)
        by (destruct dir; reflexivity).
      assert (O1 : forall dir', dir' <> dir ->
                     stream_of dir' d1 = stream_of dir' d)
        by (intros dir' H; destruct dir, dir'; try reflexivity; congruence).
      clearbody d1.
      destruct (IH d1) as (Hr & He & Hu & Hrun & Hp & Hg & Ho);
        [lia | rewrite U1, length_alter; exact Hl |].
      cbn zeta in Hr, He, Hu, Hrun, Hp, Hg, Ho.
      replace (SL3_NUM_URBS - n)%nat with (S i) in * by lia.
      pose proof (first_refused_range err n (S i)) as Hk.
      destruct (first_refused err (S i) n) as [k|] eqn:Ek;
        cbn [default from_option id] in *.
      * destruct (Hk k eq_refl) as [Hk1 _].
        split; [exact Hr|].
        split.
        { rewrite He. replace (S k - i)%nat with (S (S k - S i)) by lia.
          reflexivity. }
        split.
        { rewrite Hu, U1.
          pose proof (alter_sweep_range (set_urb_in_flight true)
                        (urbs (stream_of dir d)) i (k - S i)) as Hs.
          replace (S i + (k - S i))%nat with k in Hs by lia.
          replace (S (k - S i)) with (k - i)%nat in Hs by lia.
          exact Hs. }
        split; [exact Hrun|].
        split; [rewrite Hp; exact P1|].
        split; [rewrite Hg; exact G1|].
        intros dir' H. rewrite (Ho dir' H). apply O1. exact H.
      * split; [exact Hr|].
        split; [rewrite He; reflexivity|].
        split.
        { rewrite Hu, U1.
          pose proof (alter_sweep_range (set_urb_in_flight true)
                        (urbs (stream_of dir d)) i (SL3_NUM_URBS - S i)) as Hs.
          replace (S i + (SL3_NUM_URBS - S i))%nat with SL3_NUM_URBS in Hs
            by lia.
          replace (S (SL3_NUM_URBS - S i)) with (SL3_NUM_URBS - i)%nat in Hs
            by lia.
          exact Hs. }
        split; [rewrite Hrun; exact R1|].
        split; [rewrite Hp; exact P1|].
        split; [rewrite Hg; exact G1|].
        intros dir' H. rewrite (Ho dir' H). apply O1. exact H.
    + cbn [default from_option id].
      unfold when. monad_simpl. cbn [app].
      rewrite Nat.sub_diag. change (take 0 ?x) with (@nil sl3_urb_ctx).
      cbn [map app]. rewrite take_drop.
      replace (S i - i)%nat with 1%nat by lia.
      split; [reflexivity|]. split; [reflexivity|].
      destruct dir; repeat split; intros [] H; try reflexivity; congruence.
Qed.

Lemma prepare_all_facts (dir : direction) (n : nat) (d : sl3_device) :
  let dp := state (prepare_all dir n d) in
  events (prepare_all dir n d) = []
  /\ start_frame dp = start_frame d.
Proof.
  destruct (prepare_all_frame dir n) as [K S]. split; [apply S | apply K].
Qed.

Lemma start_frame_parts (d1 d2 : sl3_device) :
  start_frame d1 = start_frame d2 ->
  pointers Playback d1 = pointers Playback d2
  /\ pointers Capture d1 = pointers Capture d2
  /\ running (playback d1) = running (playback d2)
  /\ running (capture d1) = running (capture d2)
  /\ disconnected d1 = disconnected d2
  /\ in_flight_map Playback d1 = in_flight_map Playback d2
  /\ in_flight_map Capture d1 = in_flight_map Capture d2
  /\ map urb_allocated (urbs (playback d1))
     = map urb_allocated (urbs (playback d2))
  /\ map urb_allocated (urbs (capture d1))
     = map urb_allocated (urbs (capture d2)).
Proof.
  unfold start_frame. intros H.
  generalize dependent (pointers Playback d1).
  generalize dependent (pointers Playback d2).
  generalize dependent (pointers Capture d1).
  generalize dependent (pointers Capture d2).
  generalize dependent (in_flight_map Playback d1).
  generalize dependent (in_flight_map Playback d2).
  generalize dependent (in_flight_map Capture d1).
  generalize dependent (in_flight_map Capture d2).
  intros. injection H as -> -> -> -> -> -> -> -> ->. repeat split.
Qed.

Lemma in_flight_map_length (dir : direction) (d : sl3_device) :
  length (in_flight_map dir d) = length (urbs (stream_of dir d)).
Proof. unfold in_flight_map. apply length_map. Qed.

Lemma in_flight_submitted (l : list sl3_urb_ctx) (bound : nat) :
  (bound <= length l)%nat ->
  map urb_in_flight
    (map (set_urb_in_flight true) (take bound l) ++ drop bound l)
  = repeat true bound ++ drop bound (map urb_in_flight l).
Proof.
  revert bound. induction l as [|x l IH]; intros [|b] H; cbn in *;
    try reflexivity; try lia.
  f_equal. apply IH. lia.
Qed.

Lemma in_flight_map_ext (dir : direction) (d1 d2 : sl3_device) :
  urbs (stream_of dir d1) = urbs (stream_of dir d2) ->
  in_flight_map dir d1 = in_flight_map dir d2.
Proof. unfold in_flight_map. intros ->. reflexivity. Qed.

(** [sl3_urb_start] for a stream that is started on its own: the capture
    stream, or the playback stream while capture is running. *)
Lemma start_single (err : nat -> Z) (dir : direction) (nested : M Z)
    (d : sl3_device) :
  disconnected d = false ->
  running (stream_of dir d) = false ->
  length (urbs (stream_of dir d)) = SL3_NUM_URBS ->
  (is_playback dir = true -> running (capture d) = true) ->
  let r := urb_start_body err dir nested d in
  let stop := first_refused err 0 SL3_NUM_URBS in
  let bound := default SL3_NUM_URBS stop in
  retval r = match stop with Some k => err k | None => 0 end
  /\ events r
     = map (EvSubmit dir)
         (seq 0 (match stop with Some k => S k | None => SL3_NUM_URBS end))
  /\ running (stream_of dir (state r))
     = match stop with Some _ => false | None => true end
  /\ in_flight_map dir (state r)
     = repeat true bound ++ drop bound (in_flight_map dir d)
  /\ pointers dir (state r) = pointers dir d
  /\ disconnected (state r) = false
  /\ (forall dir', dir' <> dir ->
      pointers dir' (state r) = pointers dir' d
      /\ running (stream_of dir' (state r)) = running (stream_of dir' d)
      /\ in_flight_map dir' (state r) = in_flight_map dir' d).
Proof.
  intros G R L C. cbn zeta. unfold urb_start_body.
  monad_simpl. rewrite G. monad_simpl. cbn beta. rewrite R. monad_simpl.
  set (d0 := state (when (is_playback dir) (modify (set_sample_accumulator 0)) d)).
  assert (E0 : events (when (is_playback dir)
                         (modify (set_sample_accumulator 0)) d) = [])
    by (destruct dir; reflexivity).
  assert (F0 : start_frame d0 = start_frame d)
    by (subst d0; destruct dir; reflexivity).
  rewrite E0. clearbody d0. clear E0.
  destruct (prepare_all_facts dir SL3_NUM_URBS d0) as [Ep Fp].
  cbn zeta in Fp. rewrite Ep.
  set (dp := state (prepare_all dir SL3_NUM_URBS d0)) in *. clearbody dp.
  rewrite F0 in Fp. clear F0 d0 Ep.
  destruct (start_frame_parts dp d Fp)
    as (Pp & Pc & Rp & Rc & Gp & Ip & Ic & _ & _).
  set (d2 := upd_stream dir (set_running true) dp).
  assert (Cap2 : is_playback dir && negb (running (capture d2)) = false).
  { destruct dir; cbn [is_playback andb]; [|reflexivity].
    subst d2. change (running (capture (upd_stream Playback _ dp)))
      with (running (capture dp)).
    rewrite Rc, (C eq_refl). reflexivity. }
  rewrite Cap2. monad_simpl. cbn [app]. change (0 =? 0) with true. cbn [negb].
  assert (U2 : urbs (stream_of dir d2) = urbs (stream_of dir dp))
    by (destruct dir; reflexivity).
  assert (L2 : length (urbs (stream_of dir dp)) = SL3_NUM_URBS).
  { rewrite <- in_flight_map_length.
    destruct dir; [rewrite Ip | rewrite Ic];
      rewrite in_flight_map_length; exact L. }
  destruct (submit_all_spec err dir SL3_NUM_URBS d2)
    as (Hr & He & Hu & Hrun & Hp & Hg & Ho);
    [lia | rewrite U2, L2; lia |].
  cbn zeta in Hr, He, Hu, Hrun, Hp, Hg, Ho.
  rewrite Nat.sub_diag in *. rewrite Nat.sub_0_r in Hu.
  change (take 0 ?x) with (@nil sl3_urb_ctx) in Hu. cbn [app] in Hu.
  rewrite drop_0 in Hu.
  assert (Hb : (default SL3_NUM_URBS (first_refused err 0 SL3_NUM_URBS)
                <= SL3_NUM_URBS)%nat).
  { pose proof (first_refused_range err SL3_NUM_URBS 0) as Hk.
    destruct (first_refused err 0 SL3_NUM_URBS) as [k|]; cbn; [|lia].
    destruct (Hk k eq_refl). lia. }
  split; [exact Hr|].
  split.
  { rewrite He. destruct (first_refused err 0 SL3_NUM_URBS) as [k|];
      [rewrite Nat.sub_0_r|]; reflexivity. }
  split.
  { rewrite Hrun. destruct (first_refused err 0 SL3_NUM_URBS);
      [reflexivity | destruct dir; reflexivity]. }
  split.
  { unfold in_flight_map at 1. rewrite Hu, U2.
    rewrite in_flight_submitted by (rewrite L2; exact Hb).
    fold (in_flight_map dir dp).
    destruct dir; [rewrite Ip | rewrite Ic]; reflexivity. }
  split.
  { rewrite Hp. destruct dir; [rewrite <- Pp | rewrite <- Pc]; reflexivity. }
  split.
  { rewrite Hg. rewrite <- G, <- Gp. destruct dir; reflexivity. }
  intros dir' H. unfold pointers, in_flight_map. rewrite (Ho dir' H).
  destruct dir, dir'; try congruence; clear H.
  - change (stream_of Capture d2) with (capture dp).
    unfold pointers, in_flight_map in Pc, Ic. cbn [stream_of] in *.
    injection Pc as -> -> ->. rewrite Rc, Ic. repeat split.
  - change (stream_of Playback d2) with (playback dp).
    unfold pointers, in_flight_map in Pp, Ip. cbn [stream_of] in *.
    injection Pp as -> -> ->. rewrite Rp, Ip. repeat split.
Qed.

Lemma result_ext {A} (r : A * sl3_device * list event) (a : A)
    (s : sl3_device) (e : list event) :
  retval r = a -> state r = s -> events r = e -> r = (a, s, e).
Proof. destruct r as [[a' s'] e']. cbn. intros -> -> ->. reflexivity. Qed.

(** X: [sl3_urb_start] does nothing on a disconnected device, which it
    refuses with [-ENODEV], and nothing on a stream that is already running,
    for which it returns 0: no URB is prepared or submitted and the device
    is unchanged. *)
Theorem urb_start_guards (err : direction -> nat -> Z) (dir : direction)
    (d : sl3_device) :
  (disconnected d = true -> sl3_urb_start err dir d = (- ENODEV, d, []))
  /\ (disconnected d = false -> running (stream_of dir d) = true ->
      sl3_urb_start err dir d = (0, d, [])).
Proof.
  split.
  - intros G. destruct dir; unfold sl3_urb_start, urb_start_body;
      apply result_ext; monad_simpl; rewrite G; monad_simpl; reflexivity.
  - intros G R. destruct dir; unfold sl3_urb_start, urb_start_body;
      apply result_ext; monad_simpl; rewrite G; monad_simpl; cbn beta;
      rewrite R; monad_simpl; reflexivity.
Qed.

(** A second start of the playing device. *)
Lemma urb_start_guards_witness :
  sl3_urb_start submit_ok Playback playing_dev = (0, playing_dev, []).
Proof.
  apply (urb_start_guards submit_ok Playback playing_dev);
    vm_compute; reflexivity.
Defined.

(** X: starting the capture stream of a connected device submits its URBs
    in index order and stops at the first one the host controller refuses.
    With none refused it returns 0 with the stream running and all sixteen
    URBs in flight.  With URB [k] refused it returns that error with the
    stream not running, and the [k] URBs submitted before are left in
    flight: they are not killed.  The playback stream and the pointers are
    not touched. *)
Theorem capture_start_outcome (err : direction -> nat -> Z) (d : sl3_device) :
  disconnected d = false ->
  running (capture d) = false ->
  length (urbs (capture d)) = SL3_NUM_URBS ->
  let r := sl3_urb_start err Capture d in
  let stop := first_refused (err Capture) 0 SL3_NUM_URBS in
  let bound := default SL3_NUM_URBS stop in
  retval r = match stop with Some k => err Capture k | None => 0 end
  /\ (retval r = 0 <-> stop = None)
  /\ events r
     = map (EvSubmit Capture)
         (seq 0 (match stop with Some k => S k | None => SL3_NUM_URBS end))
  /\ running (capture (state r))
     = match stop with Some _ => false | None => true end
  /\ in_flight_map Capture (state r)
     = repeat true bound ++ drop bound (in_flight_map Capture d)
  /\ pointers Capture (state r) = pointers Capture d
  /\ pointers Playback (state r) = pointers Playback d
  /\ running (playback (state r)) = running (playback d)
  /\ in_flight_map Playback (state r) = in_flight_map Playback d.
Proof.
  intros G R L. cbn zeta. unfold sl3_urb_start.
  destruct (start_single (err Capture) Capture (ret 0) d G R L
              ltac:(intros H; discriminate H))
    as (Hr & He & Hrun & Hi & Hp & _ & Ho).
  cbn zeta in Hr, He, Hrun, Hi, Hp, Ho.
  destruct (Ho Playback ltac:(discriminate)) as (Op & Or & Oi).
  split; [exact Hr|].
  split.
  { rewrite Hr.
    pose proof (first_refused_range (err Capture) SL3_NUM_URBS 0) as Hk.
    destruct (first_refused (err Capture) 0 SL3_NUM_URBS) as [k|].
    - destruct (Hk k eq_refl) as [_ N]. split; [contradiction | discriminate].
    - split; reflexivity. }
  repeat split; assumption.
Qed.

(** The probed device, with the host controller refusing capture URB 2. *)
Lemma capture_start_outcome_witness :
  let err := fun (_ : direction) (i : nat) => if Nat.eqb i 2 then - ENOMEM else 0 in
  let r := sl3_urb_start err Capture probed_dev in
  retval r = - ENOMEM
  /\ running (capture (state r)) = false
  /\ in_flight_map Capture (state r) = [true; true] ++ repeat false 14.
Proof.
  cbn zeta.
  set (err := fun (_ : direction) (i : nat) => if Nat.eqb i 2 then - ENOMEM else 0).
  destruct (capture_start_outcome err probed_dev
              ltac:(vm_compute; reflexivity) ltac:(vm_compute; reflexivity)
              ltac:(vm_compute; reflexivity))
    as (Hr & _ & _ & Hrun & Hi & _).
  split; [exact Hr|]. split; [exact Hrun|].
  rewrite Hi. vm_compute. reflexivity.
Defined.

Lemma start_capture_idle (dir : direction) (dp d : sl3_device) :
  dir = Playback ->
  running (capture d) = false ->
  running (capture dp) = running (capture d) ->
  running (capture (upd_stream dir (set_running true) dp)) = false.
Proof. intros -> Rc Rc'. rewrite <- Rc, <- Rc'. reflexivity. Qed.

(** Starting playback around any way [nested] of starting capture that
    behaves as [urb_start_body] does for capture. *)
Lemma playback_start_with (err : direction -> nat -> Z) (dir : direction)
    (nested : M Z) (d : sl3_device) :
  (forall d2,
     disconnected d2 = false ->
     running (capture d2) = false ->
     length (urbs (capture d2)) = SL3_NUM_URBS ->
     let r := nested d2 in
     let stop := first_refused (err Capture) 0 SL3_NUM_URBS in
     let bound := default SL3_NUM_URBS stop in
     retval r = match stop with Some k => err Capture k | None => 0 end
     /\ events r
        = map (EvSubmit Capture)
            (seq 0 (match stop with Some k => S k | None => SL3_NUM_URBS end))
     /\ running (capture (state r))
        = match stop with Some _ => false | None => true end
     /\ in_flight_map Capture (state r)
        = repeat true bound ++ drop bound (in_flight_map Capture d2)
     /\ pointers Capture (state r) = pointers Capture d2
     /\ pointers Playback (state r) = pointers Playback d2
     /\ running (playback (state r)) = running (playback d2)
     /\ in_flight_map Playback (state r) = in_flight_map Playback d2) ->
  dir = Playback ->
  disconnected d = false ->
  running (playback d) = false ->
  running (capture d) = false ->
  length (urbs (playback d)) = SL3_NUM_URBS ->
  length (urbs (capture d)) = SL3_NUM_URBS ->
  let r := urb_start_body (err Playback) dir nested d in
  let stop_c := first_refused (err Capture) 0 SL3_NUM_URBS in
  let stop_p := first_refused (err Playback) 0 SL3_NUM_URBS in
  let bound_p := default SL3_NUM_URBS stop_p in
  pointers Playback (state r) = pointers Playback d
  /\ pointers Capture (state r) = pointers Capture d
  /\ match stop_c with
     | Some k =>
         retval r = err Capture k
         /\ retval r <> 0
         /\ events r = map (EvSubmit Capture) (seq 0 (S k))
         /\ running (playback (state r)) = false
         /\ running (capture (state r)) = false
         /\ in_flight_map Playback (state r) = in_flight_map Playback d
         /\ in_flight_map Capture (state r)
            = repeat true k ++ drop k (in_flight_map Capture d)
     | None =>
         retval r = match stop_p with Some k => err Playback k | None => 0 end
         /\ events r
            = map (EvSubmit Capture) (seq 0 SL3_NUM_URBS)
              ++ map (EvSubmit Playback)
                   (seq 0 (match stop_p with
                           | Some k => S k
                           | None => SL3_NUM_URBS
                           end))
         /\ running (capture (state r)) = true
         /\ in_flight_map Capture (state r) = repeat true SL3_NUM_URBS
         /\ running (playback (state r))
            = match stop_p with Some _ => false | None => true end
         /\ in_flight_map Playback (state r)
            = repeat true bound_p ++ drop bound_p (in_flight_map Playback d)
     end.
Proof.
  intros Hn Hdir G Rp Rc Lp Lc. cbn zeta.
  assert (Hd : is_playback dir = true) by (rewrite Hdir; reflexivity).
  assert (Rd : running (stream_of dir d) = false) by (rewrite Hdir; exact Rp).
  unfold urb_start_body.
  monad_simpl. rewrite G. monad_simpl. cbn beta. rewrite Rd. monad_simpl.
  assert (E0 : events (when (is_playback dir)
                         (modify (set_sample_accumulator 0)) d) = [])
    by (rewrite Hdir; reflexivity).
  assert (F0 : start_frame
                 (state (when (is_playback dir)
                           (modify (set_sample_accumulator 0)) d))
               = start_frame d)
    by (rewrite Hdir; reflexivity).
  rewrite E0. clear E0.
  generalize dependent
    (state (when (is_playback dir) (modify (set_sample_accumulator 0)) d)).
  intros d0 F0.
  destruct (prepare_all_facts dir SL3_NUM_URBS d0) as [Ep Fp].
  cbn zeta in Fp. rewrite Ep. clear Ep. rewrite F0 in Fp. clear F0.
  generalize dependent (state (prepare_all dir SL3_NUM_URBS d0)).
  intros dp Fp. clear d0.
  destruct (start_frame_parts dp d Fp)
    as (Pp & Pc & Rp' & Rc' & Gp & Ip & Ic & _ & _).
  set (d2 := upd_stream dir (set_running true) dp).
  assert (C2 : running (capture d2) = false).
  { exact (start_capture_idle dir dp d Hdir Rc Rc'). }
  rewrite Hd, C2. cbn [negb andb app].
  subst dir. clear Hd Rd.
  assert (G2 : disconnected d2 = false) by (rewrite <- G, <- Gp; reflexivity).
  assert (L2 : length (urbs (stream_of Capture d2)) = SL3_NUM_URBS).
  { change (stream_of Capture d2) with (stream_of Capture dp).
    rewrite <- in_flight_map_length, Ic, in_flight_map_length. exact Lc. }
  pose proof (Hn d2 G2 C2 L2) as Hrc. cbn zeta in Hrc. clear Hn.
  assert (P2p : pointers Playback d2 = pointers Playback d)
    by (rewrite <- Pp; reflexivity).
  assert (P2c : pointers Capture d2 = pointers Capture d)
    by (rewrite <- Pc; reflexivity).
  assert (I2p : in_flight_map Playback d2 = in_flight_map Playback d)
    by (rewrite <- Ip; reflexivity).
  assert (I2c : in_flight_map Capture d2 = in_flight_map Capture d)
    by (rewrite <- Ic; reflexivity).
  assert (R2 : running (playback d2) = true) by reflexivity.
  rewrite P2p, P2c, I2p, I2c, R2 in Hrc.
  clear G2 C2 L2 P2p P2c I2p I2c R2.
  generalize dependent (nested d2). intros rc Hrc. clear d2.
  destruct Hrc as (Hr & He & Hrun & Hi & Hp & Op & Or & Oi).
  pose proof (first_refused_range (err Capture) SL3_NUM_URBS 0) as Hk.
  destruct (first_refused (err Capture) 0 SL3_NUM_URBS) as [k|];
    cbn [default from_option id] in *.
  - destruct (Hk k eq_refl) as [_ N].
    rewrite Hr. apply Z.eqb_neq in N. rewrite N. cbn [negb].
    monad_simpl. rewrite He, !app_nil_r.
    set (d3 := upd_stream Playback (set_running false) (state rc)).
    split; [rewrite <- Op; reflexivity|].
    split; [rewrite <- Hp; reflexivity|].
    apply Z.eqb_neq in N.
    split; [reflexivity|]. split; [exact N|]. split; [reflexivity|].
    split; [reflexivity|].
    split; [rewrite <- Hrun; reflexivity|].
    split; [rewrite <- Oi; reflexivity|].
    rewrite <- Hi. reflexivity.
  - rewrite Hr. change (0 =? 0) with true. cbn [negb].
    assert (L3 : length (urbs (stream_of Playback (state rc))) = SL3_NUM_URBS).
    { rewrite <- in_flight_map_length, Oi, in_flight_map_length. exact Lp. }
    pose proof (submit_all_spec (err Playback) Playback SL3_NUM_URBS (state rc)
                  ltac:(lia) ltac:(rewrite L3; lia)) as Hs.
    cbn zeta in Hs.
    generalize dependent
      (submit_all (err Playback) Playback SL3_NUM_URBS (state rc)).
    intros rs Hs. destruct Hs as (Sr & Se & Su & Srun & Sp & Sg & So).
    rewrite Nat.sub_diag in *. rewrite Nat.sub_0_r in Su.
    change (take 0 ?x) with (@nil sl3_urb_ctx) in Su. cbn [app] in Su.
    rewrite drop_0 in Su.
    assert (Hb : (default SL3_NUM_URBS
                    (first_refused (err Playback) 0 SL3_NUM_URBS)
                  <= SL3_NUM_URBS)%nat).
    { pose proof (first_refused_range (err Playback) SL3_NUM_URBS 0) as Hk'.
      destruct (first_refused (err Playback) 0 SL3_NUM_URBS) as [k|];
        cbn; [|lia].
      destruct (Hk' k eq_refl). lia. }
    pose proof (So Capture ltac:(discriminate)) as Sc.
    split; [rewrite Sp; exact Op|].
    split; [unfold pointers; rewrite Sc; exact Hp|].
    split; [exact Sr|].
    split.
    { rewrite He, Se.
      destruct (first_refused (err Playback) 0 SL3_NUM_URBS);
        [rewrite Nat.sub_0_r|]; reflexivity. }
    cbn [stream_of] in Sc, Srun.
    split; [rewrite Sc; exact Hrun|].
    split.
    { unfold in_flight_map. cbn [stream_of]. rewrite Sc.
      change (map urb_in_flight (urbs (capture (state rc))))
        with (in_flight_map Capture (state rc)).
      rewrite Hi.
      rewrite drop_ge, app_nil_r
        by (rewrite in_flight_map_length; cbn [stream_of]; lia).
      reflexivity. }
    split.
    { rewrite Srun.
      destruct (first_refused (err Playback) 0 SL3_NUM_URBS);
        [reflexivity | exact Or]. }
    unfold in_flight_map at 1. rewrite Su.
    rewrite in_flight_submitted by (rewrite L3; exact Hb).
    fold (in_flight_map Playback (state rc)). rewrite Oi. reflexivity.
Qed.

(** X: starting playback on a connected device with both streams idle
    starts capture first, so that the implicit feedback is there: the capture
    URBs are submitted before any playback URB.  When a capture URB is
    refused, the error is returned with neither stream running and no
    playback URB submitted.  When all capture URBs are accepted, capture is
    running with its sixteen URBs in flight whatever happens next, and the
    playback URBs are submitted up to the first refusal; a refusal is
    returned with playback not running and capture left running.  The
    pointers of both streams are not touched. *)
Theorem playback_start_pulls_capture (err : direction -> nat -> Z)
    (d : sl3_device) :
  disconnected d = false ->
  running (playback d) = false ->
  running (capture d) = false ->
  length (urbs (playback d)) = SL3_NUM_URBS ->
  length (urbs (capture d)) = SL3_NUM_URBS ->
  let r := sl3_urb_start err Playback d in
  let stop_c := first_refused (err Capture) 0 SL3_NUM_URBS in
  let stop_p := first_refused (err Playback) 0 SL3_NUM_URBS in
  let bound_p := default SL3_NUM_URBS stop_p in
  pointers Playback (state r) = pointers Playback d
  /\ pointers Capture (state r) = pointers Capture d
  /\ match stop_c with
     | Some k =>
         retval r = err Capture k
         /\ retval r <> 0
         /\ events r = map (EvSubmit Capture) (seq 0 (S k))
         /\ running (playback (state r)) = false
         /\ running (capture (state r)) = false
         /\ in_flight_map Playback (state r) = in_flight_map Playback d
         /\ in_flight_map Capture (state r)
            = repeat true k ++ drop k (in_flight_map Capture d)
     | None =>
         retval r = match stop_p with Some k => err Playback k | None => 0 end
         /\ events r
            = map (EvSubmit Capture) (seq 0 SL3_NUM_URBS)
              ++ map (EvSubmit Playback)
                   (seq 0 (match stop_p with
                           | Some k => S k
                           | None => SL3_NUM_URBS
                           end))
         /\ running (capture (state r)) = true
         /\ in_flight_map Capture (state r) = repeat true SL3_NUM_URBS
         /\ running (playback (state r))
            = match stop_p with Some _ => false | None => true end
         /\ in_flight_map Playback (state r)
            = repeat true bound_p ++ drop bound_p (in_flight_map Playback d)
     end.
Proof.
  intros G Rp Rc Lp Lc. unfold sl3_urb_start.
  apply (playback_start_with err Playback); try assumption; [|reflexivity].
  intros d2 G2 C2 L2.
  destruct (start_single (err Capture) Capture (ret 0) d2 G2 C2 L2
              ltac:(intros H; discriminate H))
    as (Hr & He & Hrun & Hi & Hp & _ & Ho).
  cbn zeta in Hr, He, Hrun, Hi, Hp, Ho.
  destruct (Ho Playback ltac:(discriminate)) as (Op & Or & Oi).
  repeat split; assumption.
Qed.

(** The probed device: the host controller accepts every URB. *)
Lemma playback_start_pulls_capture_witness :
  let r := sl3_urb_start submit_ok Playback probed_dev in
  retval r = 0
  /\ events r = map (EvSubmit Capture) (seq 0 16)
                ++ map (EvSubmit Playback) (seq 0 16)
  /\ running (capture (state r)) = true
  /\ running (playback (state r)) = true.
Proof.
  destruct (playback_start_pulls_capture submit_ok probed_dev
              ltac:(vm_compute; reflexivity) ltac:(vm_compute; reflexivity)
              ltac:(vm_compute; reflexivity) ltac:(vm_compute; reflexivity)
              ltac:(vm_compute; reflexivity)) as (_ & _ & H).
  change (first_refused (submit_ok Capture) 0 SL3_NUM_URBS) with (@None nat) in H.
  change (first_refused (submit_ok Playback) 0 SL3_NUM_URBS) with (@None nat) in H.
  cbv iota in H.
  destruct H as (R & E & Rc & _ & Rp & _).
  split; [exact R|]. split; [exact E|]. split; [exact Rc | exact Rp].
Defined.

(** * Properties beyond the specification: PCM operations and teardown *)

(** X16: every PCM operation refuses a disconnected device.  [open],
    [hw_params], [prepare] and [trigger] return [-ENODEV], leave the device
    as it is and cause no traffic; [pointer] reports an xrun. *)
Theorem pcm_refuses_disconnected (env : hid_env)
    (err : direction -> nat -> Z) (dir : direction)
    (sub : snd_pcm_substream) (rate cmd : Z) (d : sl3_device) :
  disconnected d = true ->
  sl3_pcm_open dir sub d = (- ENODEV, d, [])
  /\ sl3_pcm_hw_params env rate d = (- ENODEV, d, [])
  /\ sl3_pcm_prepare dir d = (- ENODEV, d, [])
  /\ sl3_pcm_trigger err dir cmd d = (- ENODEV, d, [])
  /\ sl3_pcm_pointer dir sub d = Some SNDRV_PCM_POS_XRUN.
Proof.
  intros H.
  unfold sl3_pcm_open, sl3_pcm_hw_params, sl3_pcm_prepare, sl3_pcm_trigger,
    sl3_pcm_pointer.
  run_monad. rewrite H. repeat split.
Qed.

Lemma pcm_refuses_disconnected_witness :
  let d := set_disconnected true probed_dev in
  sl3_pcm_trigger submit_ok Playback SNDRV_PCM_TRIGGER_START d
  = (- ENODEV, d, [])
  /\ sl3_pcm_pointer Playback {| runtime := Some (test_runtime 441) |} d
     = Some (2 ^ 64 - 1).
Proof.
  destruct (pcm_refuses_disconnected hid_env_ok submit_ok Playback
              {| runtime := Some (test_runtime 441) |} 48000
              SNDRV_PCM_TRIGGER_START (set_disconnected true probed_dev)
              ltac:(reflexivity)) as (_ & _ & _ & H4 & H5).
  split; [exact H4 | exact H5].
Defined.

(** X17: on a connected device [open] stores the substream and nothing
    else, [prepare] rewinds the stream, and [pointer] is the hardware
    pointer reduced into the ring: it traps for a runtime whose buffer size
    is 0, else it lies below the buffer size, and it is 0 after [prepare]. *)
Theorem pcm_pointer_in_ring (dir : direction) (sub : snd_pcm_substream)
    (rt : snd_pcm_runtime) (d : sl3_device) :
  disconnected d = false ->
  runtime sub = Some rt ->
  0 <= buffer_size rt ->
  let ro := sl3_pcm_open dir sub d in
  let rp := sl3_pcm_prepare dir d in
  (retval ro = 0 /\ events ro = []
   /\ state ro = upd_stream dir (set_substream (Some sub)) d)
  /\ (retval rp = 0 /\ events rp = []
      /\ hwptr (stream_of dir (state rp)) = 0
      /\ transfer_done (stream_of dir (state rp)) = 0
      /\ running (stream_of dir (state rp)) = running (stream_of dir d)
      /\ urbs (stream_of dir (state rp)) = urbs (stream_of dir d)
      /\ substream (stream_of dir (state rp)) = substream (stream_of dir d))
  /\ (buffer_size rt = 0 -> sl3_pcm_pointer dir sub d = None)
  /\ (0 < buffer_size rt ->
      sl3_pcm_pointer dir sub d
      = Some (hwptr (stream_of dir d) mod buffer_size rt)
      /\ 0 <= hwptr (stream_of dir d) mod buffer_size rt < buffer_size rt
      /\ sl3_pcm_pointer dir sub (state rp) = Some 0).
Proof.
  intros G Hrt Hb. cbn zeta.
  unfold sl3_pcm_open, sl3_pcm_prepare, sl3_pcm_pointer.
  run_monad. rewrite G. cbn [fst snd app]. rewrite Hrt.
  split; [repeat split|].
  split; [destruct dir; repeat split|].
  split.
  - intros ->. reflexivity.
  - intros Hpos. assert (E : (buffer_size rt =? 0) = false) by lia.
    rewrite E.
    split; [reflexivity|].
    split; [apply Z.mod_pos_bound; exact Hpos|].
    destruct dir;
      cbn [disconnected stream_of upd_stream set_stream set_playback
           set_capture playback capture hwptr set_hwptr set_transfer_done];
      rewrite ?G, ?E, Z.mod_0_l by lia; reflexivity.
Qed.

Lemma pcm_pointer_in_ring_witness :
  let sub := {| runtime := Some (test_runtime 441) |} in
  let d := upd_stream Playback (set_hwptr 100) probed_dev in
  sl3_pcm_pointer Playback sub d = Some 4
  /\ sl3_pcm_pointer Playback sub (state (sl3_pcm_prepare Playback d)) = Some 0.
Proof.
  destruct (pcm_pointer_in_ring Playback
              {| runtime := Some (test_runtime 441) |} (test_runtime 441)
              (upd_stream Playback (set_hwptr 100) probed_dev)
              ltac:(reflexivity) ltac:(reflexivity) ltac:(vm_compute; discriminate))
    as (_ & _ & _ & H).
  destruct (H ltac:(reflexivity)) as (H1 & _ & H3).
  split; [exact H1 | exact H3].
Defined.

(** ** Disconnect *)

Section OnlyKills.
Lemma only_kills_ret {A} (a : A) : only_kills (ret a).
Proof. intros d. reflexivity. Qed.

Lemma only_kills_gets {A} (g : sl3_device -> A) : only_kills (gets g).
Proof. intros d. reflexivity. Qed.

Lemma only_kills_modify g : only_kills (modify g).
Proof. intros d. reflexivity. Qed.

Lemma only_kills_bind {A C} (m : M A) (k : A -> M C) :
  only_kills m -> (forall a, only_kills (k a)) -> only_kills (bind m k).
Proof.
  intros Hm Hk d. rewrite events_bind, forallb_app, Hm, Hk. reflexivity.
Qed.

Lemma only_kills_when b m : only_kills m -> only_kills (when b m).
Proof. intros H. destruct b; [exact H | apply only_kills_ret]. Qed.

Lemma only_kills_if {A} (b : bool) (m1 m2 : M A) :
  only_kills m1 -> only_kills m2 -> only_kills (if b then m1 else m2).
Proof. intros H1 H2. destruct b; assumption. Qed.
End OnlyKills.

Lemma kill_all_only_kills (dir : direction) (n : nat) :
  only_kills (kill_all dir n).
Proof.
  induction n as [|n IH]; cbn [kill_all].
  - apply only_kills_ret.
  - apply only_kills_bind; [apply only_kills_gets | intros a].
    apply only_kills_bind; [|intros _; exact IH].
    apply only_kills_when. intros d. reflexivity.
Qed.

Lemma urb_stop_body_only_kills (dir : direction) (nested : M unit) :
  only_kills nested -> only_kills (urb_stop_body dir nested).
Proof.
  intros H. unfold urb_stop_body.
  apply only_kills_bind; [apply only_kills_gets | intros r].
  apply only_kills_if; [apply only_kills_ret|].
  apply only_kills_bind; [apply only_kills_modify | intros _].
  apply only_kills_bind; [apply kill_all_only_kills | intros _].
  apply only_kills_bind; [apply only_kills_gets | intros cap].
  apply only_kills_bind; [apply only_kills_gets | intros sub].
  apply only_kills_when. exact H.
Qed.

Lemma urb_stop_only_kills (dir : direction) : only_kills (sl3_urb_stop dir).
Proof.
  destruct dir; unfold sl3_urb_stop;
    repeat apply urb_stop_body_only_kills; apply only_kills_ret.
Qed.

Lemma kill_all_keeps {B} (f : sl3_device -> B) (dir : direction) (n : nat) :
  (forall i g d, f (upd_urb dir i g d) = f d) -> keeps f (kill_all dir n).
Proof.
  intros H. induction n as [|n IH]; cbn [kill_all].
  - apply keeps_ret.
  - apply keeps_bind; [apply keeps_gets | intros a].
    apply keeps_bind; [|intros _; exact IH].
    apply keeps_when. unfold usb_kill_urb.
    apply keeps_bind; [apply keeps_emit | intros _].
    apply keeps_modify. intros d. apply H.
Qed.

Lemma urb_stop_body_keeps {B} (f : sl3_device -> B) (dir : direction)
    (nested : M unit) :
  (forall i g d, f (upd_urb dir i g d) = f d) ->
  (forall d, f (upd_stream dir (set_running false) d) = f d) ->
  keeps f nested -> keeps f (urb_stop_body dir nested).
Proof.
  intros Hu Hr Hn. unfold urb_stop_body.
  apply keeps_bind; [apply keeps_gets | intros r].
  apply keeps_if; [apply keeps_ret|].
  apply keeps_bind; [apply keeps_modify; exact Hr | intros _].
  apply keeps_bind; [apply kill_all_keeps; exact Hu | intros _].
  apply keeps_bind; [apply keeps_gets | intros cap].
  apply keeps_bind; [apply keeps_gets | intros sub].
  apply keeps_when. exact Hn.
Qed.

Lemma urb_stop_keeps {B} (f : sl3_device -> B) (dir : direction) :
  (forall dir' i g d, f (upd_urb dir' i g d) = f d) ->
  (forall dir' d, f (upd_stream dir' (set_running false) d) = f d) ->
  keeps f (sl3_urb_stop dir).
Proof.
  intros Hu Hr. destruct dir; unfold sl3_urb_stop;
    repeat (apply urb_stop_body_keeps; [apply Hu | apply Hr |]);
    apply keeps_ret.
Qed.

(** [sl3_urb_stop] on its own stream. *)
Lemma urb_stop_own (dir : direction) (d : sl3_device) :
  (length (urbs (stream_of dir d)) <= SL3_NUM_URBS)%nat ->
  let d' := state (sl3_urb_stop dir d) in
  running (stream_of dir d') = false
  /\ urbs (stream_of dir d')
     = (if running (stream_of dir d) then map killed (urbs (stream_of dir d))
        else urbs (stream_of dir d)).
Proof.
  intros L. cbn zeta. destruct (running (stream_of dir d)) eqn:R.
  - destruct (urb_stop_running dir d R L) as (U & R' & _).
    split; [exact R' | exact U].
  - assert (E : state (sl3_urb_stop dir d) = d).
    { destruct dir; unfold sl3_urb_stop, urb_stop_body;
        rewrite state_bind;
        change (retval (gets (fun d0 => running (stream_of ?x d0)) d))
          with (running (stream_of x d));
        rewrite R; reflexivity. }
    rewrite E. split; [exact R | reflexivity].
Qed.

(** The state in which the body of [sl3_urb_stop] decides on the nested
    stop. *)
Lemma urb_stop_body_unfold (dir : direction) (nested : M unit)
    (d : sl3_device) :
  running (stream_of dir d) = true ->
  exists d1,
    d1 = state (kill_all dir SL3_NUM_URBS (upd_stream dir (set_running false) d))
    /\ state (urb_stop_body dir nested d)
       = state (when (is_playback dir && running (capture d1)
                      && negb (bool_decide (is_Some (substream (capture d1)))))
                  nested d1).
Proof.
  intros R. eexists. split; [reflexivity|].
  unfold urb_stop_body. rewrite state_bind.
  change (retval (gets (fun d0 => running (stream_of dir d0)) d))
    with (running (stream_of dir d)).
  rewrite R. cbn [negb].
  rewrite !state_bind. reflexivity.
Qed.

(** What stopping playback does to the capture stream: nothing, or the
    nested stop of a capture stream that runs without a substream. *)
Lemma playback_stop_capture (d : sl3_device) :
  (length (urbs (capture d)) <= SL3_NUM_URBS)%nat ->
  let d' := state (sl3_urb_stop Playback d) in
  (running (capture d') = running (capture d)
   /\ urbs (capture d') = urbs (capture d))
  \/ (running (capture d) = true
      /\ running (capture d') = false
      /\ urbs (capture d') = map killed (urbs (capture d))).
Proof.
  intros L. cbn zeta. unfold sl3_urb_stop.
  destruct (running (stream_of Playback d)) eqn:R.
  - destruct (urb_stop_body_unfold Playback
                (urb_stop_body Capture (ret tt)) d R) as (d1 & E1 & E).
    rewrite E. clear E.
    assert (C1 : stream_of Capture d1 = stream_of Capture d).
    { rewrite E1.
      pose proof (kill_all_keeps (stream_of Capture) Playback SL3_NUM_URBS
                    ltac:(intros i g x; reflexivity)) as K.
      rewrite K. reflexivity. }
    cbn [stream_of] in C1. clear E1.
    generalize dependent d1. intros d1 C1.
    cbn [is_playback andb].
    destruct (running (capture d1)
              && negb (bool_decide (is_Some (substream (capture d1))))) eqn:Cnd.
    + right. apply andb_prop in Cnd. destruct Cnd as [Rc _].
      destruct (urb_stop_body_running Capture (ret tt) d1)
        as (U & R' & _);
        [apply keeps_ret | exact Rc | cbn [stream_of]; rewrite C1; exact L |].
      cbn [stream_of] in U, R'. cbn [when].
      rewrite <- C1. repeat split; assumption.
    + left. cbn [when]. change (state (ret tt d1)) with d1.
      rewrite C1. split; reflexivity.
  - left.
    assert (E : state (urb_stop_body Playback (urb_stop_body Capture (ret tt)) d)
                = d).
    { unfold urb_stop_body at 1. rewrite state_bind.
      change (retval (gets (fun d0 => running (stream_of Playback d0)) d))
        with (running (stream_of Playback d)).
      rewrite R. reflexivity. }
    rewrite E. split; reflexivity.
Qed.

(** The streams after the two stops of [sl3_disconnect]. *)
Lemma stop_both (d : sl3_device) :
  (length (urbs (playback d)) <= SL3_NUM_URBS)%nat ->
  (length (urbs (capture d)) <= SL3_NUM_URBS)%nat ->
  let d' := state (sl3_urb_stop Capture (state (sl3_urb_stop Playback d))) in
  forall dir,
    running (stream_of dir d') = false
    /\ urbs (stream_of dir d')
       = (if running (stream_of dir d) then map killed (urbs (stream_of dir d))
          else urbs (stream_of dir d)).
Proof.
  intros Lp Lc. cbn zeta.
  destruct (urb_stop_own Playback d Lp) as [Rp Up]. cbn zeta in Rp, Up.
  pose proof (playback_stop_capture d Lc) as Hc. cbn zeta in Hc.
  generalize dependent (state (sl3_urb_stop Playback d)). intros d2 Rp Up Hc.
  assert (L2 : (length (urbs (stream_of Capture d2)) <= SL3_NUM_URBS)%nat).
  { cbn [stream_of].
    destruct Hc as [[_ ->] | (_ & _ & ->)]; rewrite ?length_map; exact Lc. }
  destruct (urb_stop_own Capture d2 L2) as [Rc Uc]. cbn zeta in Rc, Uc.
  pose proof (capture_stop_keeps_playback d2) as Kp.
  unfold sl3_urb_stop.
  change (sl3_urb_stop Capture) with (urb_stop_body Capture (ret tt)) in Rc, Uc.
  generalize dependent (state (urb_stop_body Capture (ret tt) d2)).
  intros d3 Rc Uc Kp.
  intros [|]; cbn [stream_of] in *.
  - rewrite Kp. split; [exact Rp | exact Up].
  - split; [exact Rc|]. rewrite Uc.
    destruct Hc as [[Hr Hu] | (Hr & Hr2 & Hu)].
    + rewrite Hr, Hu. reflexivity.
    + rewrite Hr, Hr2, Hu. reflexivity.
Qed.

Lemma torn_down_idle (s : sl3_stream) :
  Forall (fun u => urb_allocated u = false) (torn_down s)
  /\ length (torn_down s) = length (urbs s)
  /\ (running s = true -> urbs_wf s ->
      Forall (fun u => urb_in_flight u = false) (torn_down s)).
Proof.
  unfold torn_down. split; [apply released_unallocated|].
  split.
  - destruct (running s); rewrite ?length_map; reflexivity.
  - intros -> Hwf. unfold urbs_wf in Hwf.
    rewrite !Forall_map. eapply Forall_impl; [exact Hwf|].
    intros u Hu. cbn beta in Hu |- *.
    pose proof (killed_idle u Hu) as Hk. unfold released.
    destruct (urb_allocated (killed u)); exact Hk.
Qed.

(** X18: [sl3_disconnect] ignores every interface but the audio control
    interface.  For that one it marks the device disconnected and tears both
    streams down: neither runs any more, the URBs of a stream that was
    running are killed, every URB and its buffer is released, and the HID
    output buffer is freed.  The log holds nothing but the kills: no URB is
    submitted and no notification sent.  The stream pointers, the rate, the
    routing and the feedback state stay as they are.  A stream that ran with
    its URBs in a consistent state has no URB in flight afterwards. *)
Theorem disconnect_teardown (intf_num : Z) (d : sl3_device) :
  (length (urbs (playback d)) <= SL3_NUM_URBS)%nat ->
  (length (urbs (capture d)) <= SL3_NUM_URBS)%nat ->
  let r := sl3_disconnect intf_num d in
  let d' := state r in
  (intf_num <> SL3_INTF_AUDIO_CTRL -> r = (tt, d, []))
  /\ (intf_num = SL3_INTF_AUDIO_CTRL ->
      disconnected d' = true
      /\ hid_out_buf d' = []
      /\ teardown_frame d' = teardown_frame d
      /\ forallb is_kill (events r) = true
      /\ forall dir,
           running (stream_of dir d') = false
           /\ urbs (stream_of dir d') = torn_down (stream_of dir d)
           /\ Forall (fun u => urb_allocated u = false)
                (urbs (stream_of dir d'))
           /\ (running (stream_of dir d) = true ->
               urbs_wf (stream_of dir d) ->
               Forall (fun u => urb_in_flight u = false)
                 (urbs (stream_of dir d')))).
Proof.
  intros Lp Lc. cbn zeta. unfold sl3_disconnect. split.
  - intros H. apply Z.eqb_neq in H. rewrite H. reflexivity.
  - intros ->. change (negb (SL3_INTF_AUDIO_CTRL =? SL3_INTF_AUDIO_CTRL))
      with false. cbv iota.
    assert (K : keeps teardown_frame
                  (modify (set_disconnected true);;
                   sl3_urb_stop Playback;; sl3_urb_stop Capture;;
                   sl3_urb_free Playback;; sl3_urb_free Capture;;
                   sl3_hid_cleanup)).
    { apply keeps_bind; [apply keeps_modify; intros x; reflexivity | intros _].
      apply keeps_bind;
        [apply urb_stop_keeps;
           [intros [] i g x; reflexivity | intros [] x; reflexivity]
        | intros _].
      apply keeps_bind;
        [apply urb_stop_keeps;
           [intros [] i g x; reflexivity | intros [] x; reflexivity]
        | intros _].
      unfold sl3_urb_free, sl3_hid_cleanup.
      apply keeps_bind; [apply keeps_modify; intros x; reflexivity | intros _].
      apply keeps_bind; [apply keeps_modify; intros x; reflexivity | intros _].
      apply keeps_modify. intros x. reflexivity. }
    assert (Ev : only_kills
                   (modify (set_disconnected true);;
                    sl3_urb_stop Playback;; sl3_urb_stop Capture;;
                    sl3_urb_free Playback;; sl3_urb_free Capture;;
                    sl3_hid_cleanup)).
    { apply only_kills_bind; [apply only_kills_modify | intros _].
      apply only_kills_bind; [apply urb_stop_only_kills | intros _].
      apply only_kills_bind; [apply urb_stop_only_kills | intros _].
      unfold sl3_urb_free, sl3_hid_cleanup.
      apply only_kills_bind; [apply only_kills_modify | intros _].
      apply only_kills_bind; [apply only_kills_modify | intros _].
      apply only_kills_modify. }
    specialize (K d). specialize (Ev d).
    rewrite !state_bind in *.
    change (state (modify (set_disconnected true) d))
      with (set_disconnected true d) in *.
    change (retval (modify (set_disconnected true) d)) with tt in *.
    pose proof (stop_both (set_disconnected true d) Lp Lc) as Hs.
    cbn zeta in Hs.
    assert (G : disconnected
                  (state (sl3_urb_stop Capture
                            (state (sl3_urb_stop Playback
                                      (set_disconnected true d))))) = true).
    { pose proof (urb_stop_keeps disconnected Capture
                    ltac:(intros [] i g x; reflexivity)
                    ltac:(intros [] x; reflexivity)) as K1.
      pose proof (urb_stop_keeps disconnected Playback
                    ltac:(intros [] i g x; reflexivity)
                    ltac:(intros [] x; reflexivity)) as K2.
      rewrite K1, K2. reflexivity. }
    generalize dependent
      (state (sl3_urb_stop Capture
                (state (sl3_urb_stop Playback (set_disconnected true d))))).
    intros d3 K Hs G.
    split; [exact G|]. split; [reflexivity|].
    split; [exact K|]. split; [exact Ev|].
    intros dir. destruct (Hs dir) as [Hr Hu].
    assert (Es : stream_of dir (set_disconnected true d) = stream_of dir d)
      by (destruct dir; reflexivity).
    rewrite Es in Hu. clear Es.
    assert (U : urbs (stream_of dir
                  (state (sl3_hid_cleanup
                     (state (sl3_urb_free Capture
                        (state (sl3_urb_free Playback d3)))))))
                = torn_down (stream_of dir d)).
    { unfold torn_down. rewrite <- Hu.
      destruct dir; reflexivity. }
    assert (R : running (stream_of dir
                  (state (sl3_hid_cleanup
                     (state (sl3_urb_free Capture
                        (state (sl3_urb_free Playback d3)))))))
                = false).
    { rewrite <- Hr. destruct dir; reflexivity. }
    destruct (torn_down_idle (stream_of dir d)) as (Ha & _ & Hi).
    split; [exact R|]. split; [exact U|].
    split; [rewrite U; exact Ha|].
    intros Hrun Hwf. rewrite U. exact (Hi Hrun Hwf).
Qed.

(** A playback stream running with URB 0 in flight. *)
Lemma disconnect_teardown_witness :
  let r := sl3_disconnect SL3_INTF_AUDIO_CTRL (busy_dev 441) in
  disconnected (state r) = true
  /\ running (playback (state r)) = false
  /\ Forall (fun u => urb_in_flight u = false) (urbs (playback (state r)))
  /\ events r = map (EvKill Playback) (seq 0 16).
Proof.
  destruct (disconnect_teardown SL3_INTF_AUDIO_CTRL (busy_dev 441)
              ltac:(vm_compute; lia) ltac:(vm_compute; lia)) as [_ H].
  destruct (H eq_refl) as (H1 & _ & _ & _ & H5).
  destruct (H5 Playback) as (H6 & _ & _ & H8).
  split; [exact H1|]. split; [exact H6|].
  split.
  - apply H8; [vm_compute; reflexivity|].
    unfold urbs_wf. vm_compute. repeat constructor.
  - vm_compute. reflexivity.
Defined.

(** ** Capture intake *)

Lemma sample_at_range (u : sl3_urb_ctx) (i : nat) :
  packets_ok u -> 0 <= sample_at u i <= 7.
Proof.
  intros Hok. unfold sample_at.
  assert (Hp : 0 <= iso_actual_length (default null_packet (iso_frame_desc u !! i))
               <= SL3_MAX_PACKET_SIZE).
  { destruct (iso_frame_desc u !! i) as [q|] eqn:E; cbn.
    - eapply Forall_lookup_1 in E; [|exact Hok]. exact E.
    - unfold SL3_MAX_PACKET_SIZE. lia. }
  unfold SL3_MAX_PACKET_SIZE, SL3_BYTES_PER_FRAME in *.
  split; [apply Z.div_pos; lia|].
  apply Z.lt_succ_r. apply Z.div_lt_upper_bound; lia.
Qed.

Lemma received_samples_at (u : sl3_urb_ctx) :
  received_samples u = map (sample_at u) (seq 0 (length (iso_frame_desc u))).
Proof.
  unfold received_samples, sample_at.
  induction (iso_frame_desc u) as [|p l IH]; [reflexivity|].
  cbn [map length seq]. f_equal. rewrite <- seq_shift, map_map. exact IH.
Qed.

Lemma taken_ext (s1 s2 : sl3_stream) (x : Z) :
  is_Some (ring_of s1) <-> is_Some (ring_of s2) ->
  taken s1 x = taken s2 x.
Proof.
  unfold taken. intros H.
  destruct (ring_of s1) as [r1|], (ring_of s2) as [r2|]; try reflexivity.
  - destruct (proj1 H ltac:(eexists; reflexivity)) as [? E]. discriminate E.
  - destruct (proj2 H ltac:(eexists; reflexivity)) as [? E]. discriminate E.
Qed.

Lemma set_ring_area_ring (area : list byte) (s : sl3_stream) :
  is_Some (ring_of s) -> is_Some (ring_of (set_ring_area area s)).
Proof.
  unfold set_ring_area, ring_of.
  destruct (runtime_of s) as [rt|] eqn:E; [|intros [? H]; discriminate].
  destruct (dma_area rt); [|intros [? H]; discriminate].
  intros _. eexists. reflexivity.
Qed.

(** One packet of the capture walk: the frames counted, and the pointers
    moved by the frames taken into the ring. *)
Lemma capture_packet_exact (idx i : nat) (d : sl3_device) :
  packets_ok (urb_of Capture idx d) ->
  stream_wf (capture d) ->
  ring_ok (capture d) ->
  let r := capture_packet idx i d in
  let s := sample_at (urb_of Capture idx d) i in
  retval r = Some s
  /\ hwptr (capture (state r)) = u32 (hwptr (capture d) + taken (capture d) s)
  /\ transfer_done (capture (state r))
     = u32 (transfer_done (capture d) + taken (capture d) s)
  /\ (is_Some (ring_of (capture (state r))) <-> is_Some (ring_of (capture d))).
Proof.
  intros Hok Hwf Hring. cbn zeta.
  pose proof (sample_at_range (urb_of Capture idx d) i Hok) as Hs.
  unfold capture_packet, taken. run_monad. fold (sample_at (urb_of Capture idx d) i).
  set (s := sample_at (urb_of Capture idx d) i) in *.
  destruct Hwf as [Hh Ht].
  pose proof Hring as Hsize. unfold ring_ok in Hsize.
  destruct (ring_of (capture d)) as [[rt area]|] eqn:Hr.
  - destruct (u32 (s * SL3_BYTES_PER_FRAME) =? 0) eqn:Eb.
    + apply Z.eqb_eq in Eb.
      rewrite u32_small in Eb by (unfold SL3_BYTES_PER_FRAME; lia).
      assert (Hz : s = 0) by (unfold SL3_BYTES_PER_FRAME in Eb; lia).
      cbn [fst snd]. rewrite Hr, Hz, !Z.add_0_r, !u32_small by assumption.
      repeat split; auto.
    + apply Z.eqb_neq in Hsize. rewrite Hsize. cbn [fst snd].
      set (A := urb_to_ring rt area _ _ _ _).
      destruct (set_ring_area_fields A (capture d)) as (_ & Hh' & Ht' & _).
      cbn [capture set_capture upd_stream stream_of set_stream hwptr
           transfer_done set_transfer_done set_hwptr].
      rewrite Hh', Ht'.
      split; [reflexivity|]. split; [reflexivity|]. split; [reflexivity|].
      split; intros _; [eexists; reflexivity|].
      assert (Hx : is_Some (ring_of (set_ring_area A (capture d))))
        by (apply set_ring_area_ring; rewrite Hr; eexists; reflexivity).
      destruct Hx as [x Hx].
      exists x. rewrite <- Hx. apply ring_of_ext. reflexivity.
  - cbn [fst snd]. rewrite Hr, !Z.add_0_r, !u32_small by assumption.
    repeat split; auto.
Qed.

Lemma sumZ_app (a b : list Z) : sumZ (a ++ b) = sumZ a + sumZ b.
Proof.
  induction a as [|x a IH]; cbn [sumZ fold_right app]; [reflexivity|].
  fold (sumZ (a ++ b)). fold (sumZ a). rewrite IH. lia.
Qed.

Lemma sample_sum_range (u : sl3_urb_ctx) (lo n : nat) :
  packets_ok u ->
  0 <= sumZ (map (sample_at u) (seq lo n)) <= 7 * Z.of_nat n.
Proof.
  intros Hok. revert lo. induction n as [|n IH]; intros lo.
  - cbn. lia.
  - cbn [seq map sumZ fold_right].
    fold (sumZ (map (sample_at u) (seq (S lo) n))).
    pose proof (sample_at_range u lo Hok). specialize (IH (S lo)). lia.
Qed.

(** The capture walk over the last [n] packets. *)
Lemma capture_loop_exact (idx n : nat) : forall total d,
  (n <= 8)%nat ->
  0 <= total -> total + 7 * Z.of_nat n < 2 ^ 32 ->
  packets_ok (urb_of Capture idx d) ->
  stream_wf (capture d) ->
  ring_ok (capture d) ->
  let r := capture_loop idx n total d in
  let frames := sumZ (map (sample_at (urb_of Capture idx d)) (seq (8 - n) n)) in
  retval r = Some (total + frames)
  /\ hwptr (capture (state r))
     = u32 (hwptr (capture d) + taken (capture d) frames)
  /\ transfer_done (capture (state r))
     = u32 (transfer_done (capture d) + taken (capture d) frames).
Proof.
  induction n as [|n IH]; intros total d Hn Ht0 Ht1 Hok Hwf Hring.
  - cbn. destruct Hwf as [Hh Ht]. unfold taken.
    destruct (ring_of (capture d)); rewrite !Z.add_0_r, !u32_small by assumption;
      repeat split.
  - cbn zeta. cbn [capture_loop].
    assert (Hi : (Z.to_nat SL3_ISO_PACKETS - S n)%nat = (8 - S n)%nat)
      by reflexivity.
    rewrite Hi. set (i := (8 - S n)%nat).
    destruct (capture_packet_exact idx i d Hok Hwf Hring)
      as (Hrv & Hh1 & Ht1' & Hr1).
    destruct (capture_packet_effect idx i d Hok Hwf Hring)
      as (_ & Hring1 & _ & Hu1 & _ & Hwf1 & _).
    cbn zeta in Hrv, Hh1, Ht1', Hr1, Hring1, Hu1, Hwf1.
    pose proof (sample_at_range (urb_of Capture idx d) i Hok) as Hs.
    set (s := sample_at (urb_of Capture idx d) i) in *.
    rewrite !state_bind, !retval_bind, Hrv.
    generalize dependent (state (capture_packet idx i d)).
    intros d1 Hh1 Ht1' Hr1 Hring1 Hu1 Hwf1.
    rewrite <- Hu1 in Hok.
    destruct (IH (u32 (total + s)) d1) as (Hrv2 & Hh2 & Ht2);
      [lia | apply u32_range | rewrite u32_small by lia; lia
       | exact Hok | exact Hwf1 | exact Hring1 |].
    cbn zeta in Hrv2, Hh2, Ht2. rewrite Hu1 in Hrv2, Hh2, Ht2.
    replace (seq i (S n)) with (i :: seq (8 - n) n)
      by (cbn [seq]; f_equal; f_equal; lia).
    cbn [map sumZ fold_right]. fold s.
    fold (sumZ (map (sample_at (urb_of Capture idx d)) (seq (8 - n) n))).
    set (rest := sumZ (map (sample_at (urb_of Capture idx d)) (seq (8 - n) n)))
      in *.
    rewrite Hrv2, Hh2, Ht2, Hh1, Ht1', (taken_ext _ _ rest Hr1).
    rewrite u32_small by lia.
    split; [f_equal; lia|].
    unfold taken. destruct (ring_of (capture d));
      rewrite !u32_add_l; split; f_equal; lia.
Qed.

Lemma capture_resubmit_feedback err idx :
  keeps feedback_samples (capture_resubmit err idx).
Proof. unfold capture_resubmit, usb_submit_urb. keeps_auto. Qed.

(** X19: a capture completion with status OK on a running stream of a
    connected device publishes the frames it received as implicit feedback:
    the sum over the eight packets of the received length divided by 18, at
    most 56.  With a ring attached the hardware pointer advances by the
    same number of frames; without one it stays.  The handler returns
    whenever the ring, if any, has a buffer size and the period size, if
    there is a runtime, is positive. *)
Theorem capture_publishes_feedback (err : Z) (idx : nat) (d : sl3_device) :
  running (capture d) = true ->
  disconnected d = false ->
  packets_ok (urb_of Capture idx d) ->
  length (iso_frame_desc (urb_of Capture idx d)) = 8%nat ->
  stream_wf (capture d) ->
  ring_ok (capture d) ->
  match period_of (capture d) with Some ps => 0 < ps | None => True end ->
  let frames := sumZ (received_samples (urb_of Capture idx d)) in
  exists d' ev,
    sl3_capture_complete 0 err idx d = Some (d', ev)
    /\ feedback_samples d' = frames
    /\ 0 <= frames <= 56
    /\ hwptr (capture d') = u32 (hwptr (capture d) + taken (capture d) frames).
Proof.
  intros R G Hok Hlen Hwf Hring Hps. cbn zeta.
  unfold sl3_capture_complete. cbn [Z.eqb].
  set (d0 := upd_urb Capture idx (set_error_retries 0) d).
  assert (R0 : running (capture d0) = true) by exact R.
  assert (G0 : disconnected d0 = false) by exact G.
  rewrite R0, G0. cbn [negb orb].
  set (d1 := set_cap_urbs_completed (cap_urbs_completed d0 + 1) d0).
  assert (Hs1 : substream (capture d1) = substream (capture d)) by reflexivity.
  assert (Hh1 : hwptr (capture d1) = hwptr (capture d)) by reflexivity.
  assert (Ht1 : transfer_done (capture d1) = transfer_done (capture d))
    by reflexivity.
  assert (Hwf1 : stream_wf (capture d1))
    by (unfold stream_wf; rewrite Hh1, Ht1; exact Hwf).
  assert (Hring1 : ring_ok (capture d1))
    by (apply (ring_ok_ext (capture d)); [symmetry; exact Hs1 | exact Hring]).
  assert (Hsamp : forall i, sample_at (urb_of Capture idx d1) i
                            = sample_at (urb_of Capture idx d) i).
  { intros i. change (urb_of Capture idx d1) with (urb_of Capture idx d0).
    subst d0. rewrite urb_of_upd. unfold urb_of. cbn [stream_of].
    destruct (urbs (capture d) !! idx); reflexivity. }
  assert (Hok1 : packets_ok (urb_of Capture idx d1)).
  { change (urb_of Capture idx d1) with (urb_of Capture idx d0).
    subst d0. rewrite urb_of_upd. unfold urb_of in Hok.
    cbn [stream_of] in *.
    destruct (urbs (capture d) !! idx); [exact Hok | apply packets_ok_null]. }
  assert (Htk : forall x, taken (capture d1) x = taken (capture d) x).
  { intros x. apply taken_ext. rewrite (ring_of_ext _ _ Hs1). tauto. }
  assert (Hrt1 : runtime_of (capture d1) = runtime_of (capture d))
    by (unfold runtime_of; rewrite Hs1; reflexivity).
  rewrite Hrt1.
  remember (Z.to_nat SL3_ISO_PACKETS) as n eqn:Hn.
  assert (Hn8 : n = 8%nat) by (subst n; reflexivity). clear Hn.
  destruct (capture_loop_exact idx n 0 d1) as (Hrv & Hh & Htd);
    [lia | lia | lia | exact Hok1 | exact Hwf1 | exact Hring1 |].
  cbn zeta in Hrv, Hh, Htd.
  assert (Htdr : 0 <= transfer_done (capture (state (capture_loop idx n 0 d1)))
                 < 2 ^ 32) by (rewrite Htd; apply u32_range).
  clear Htd.
  rewrite (map_ext _ _ Hsamp) in Hrv, Hh.
  replace (seq (8 - n) n) with (seq 0 8) in Hrv, Hh
    by (rewrite Hn8; reflexivity).
  rewrite <- Hlen, <- received_samples_at in Hrv, Hh.
  rewrite Z.add_0_l in Hrv. rewrite Htk, Hh1 in Hh.
  assert (Hrange : 0 <= sumZ (received_samples (urb_of Capture idx d)) <= 56).
  { rewrite received_samples_at, Hlen.
    pose proof (sample_sum_range (urb_of Capture idx d) 0 8 Hok). lia. }
  generalize dependent (capture_loop idx n 0 d1). intros r1 Hrv Hh Htdr.
  rewrite Hrv.
  set (frames := sumZ (received_samples (urb_of Capture idx d))) in *.
  assert (Hrep : exists d2 ev2,
             report_periods Capture (runtime_of (capture d)) (state r1)
             = Some (d2, ev2)
             /\ hwptr (capture d2) = hwptr (capture (state r1))).
  { unfold period_of in Hps.
    destruct (runtime_of (capture d)) as [rt|].
    - rewrite report_periods_spec; [|exact Hps|].
      + eexists. eexists. split; [reflexivity | reflexivity].
      + exact Htdr.
    - eexists. eexists. split; reflexivity. }
  destruct Hrep as (d2 & ev2 & E2 & Hh2). rewrite E2.
  eexists. eexists. split; [reflexivity|].
  split.
  { rewrite capture_resubmit_feedback. reflexivity. }
  split; [exact Hrange|].
  pose proof (capture_resubmit_pointers err idx (set_feedback_samples frames d2))
    as Kp.
  unfold pointers in Kp. cbn [stream_of] in Kp.
  injection Kp as _ Kh _. rewrite Kh.
  change (hwptr (capture (set_feedback_samples frames d2)))
    with (hwptr (capture d2)).
  rewrite Hh2. exact Hh.
Qed.

(** A capture URB that received 46 frames into a ring. *)
Lemma capture_publishes_feedback_witness :
  exists d' ev,
    sl3_capture_complete 0 0 0 intake_dev = Some (d', ev)
    /\ feedback_samples d' = 46
    /\ hwptr (capture d') = 46.
Proof.
  assert (Hok : packets_ok (urb_of Capture 0 intake_dev)).
  { unfold packets_ok. vm_compute. repeat constructor; discriminate. }
  assert (Hwf : stream_wf (capture intake_dev))
    by (repeat split; vm_compute; congruence).
  assert (Hring : ring_ok (capture intake_dev)) by (vm_compute; congruence).
  destruct (capture_publishes_feedback 0 0 intake_dev
              ltac:(reflexivity) ltac:(reflexivity) Hok
              ltac:(reflexivity) Hwf Hring ltac:(vm_compute; reflexivity))
    as (d' & ev & E & F & _ & H).
  exists d', ev. split; [exact E|].
  split; [rewrite F | rewrite H]; vm_compute; reflexivity.
Defined.

(** * Properties beyond the specification: the ring copy and the 48 kHz rate *)

Lemma read_bytes_length (src : list byte) (off n : nat) :
  length (read_bytes src off n) = n.
Proof.
  unfold read_bytes. rewrite length_take, length_app, repeat_length. lia.
Qed.

Lemma read_bytes_inside (src : list byte) (off n : nat) :
  (off + n <= length src)%nat ->
  read_bytes src off n = take n (drop off src).
Proof.
  intros H. unfold read_bytes. apply take_app_le. rewrite length_drop. lia.
Qed.

(** Two writes back to back are one write of both pieces. *)
Lemma write_at_compose (dst a b : list byte) (o : nat) :
  (o + length a <= length dst)%nat ->
  write_at (write_at dst o a) (o + length a) b = write_at dst o (a ++ b).
Proof.
  intros H. unfold write_at.
  rewrite (app_assoc (take o dst) a).
  rewrite take_app_length'
    by (rewrite length_app, length_take; lia).
  rewrite drop_app_ge by (rewrite length_app, length_take; lia).
  rewrite length_app, length_take, drop_drop, length_app.
  rewrite <- !app_assoc. do 3 f_equal. f_equal. lia.
Qed.

(** X20: the copy out of the ring.  For a ring of [buffer_size] frames of
    18 bytes, a pointer inside it and a packet no longer than the ring,
    [bytes] bytes of the URB buffer from [offset] on become the bytes of
    the ring from the pointer on, continued at the start of the ring when
    its end is reached; the rest of the URB buffer is as before. *)
Theorem ring_copy_out (rt : snd_pcm_runtime) (area dst : list byte)
    (hwptr offset bytes : Z) :
  frame_bits rt = 144 ->
  0 < buffer_size rt ->
  buffer_size rt * SL3_BYTES_PER_FRAME < 2 ^ 31 ->
  length area = Z.to_nat (buffer_size rt * SL3_BYTES_PER_FRAME) ->
  0 <= hwptr < buffer_size rt ->
  0 <= bytes <= buffer_size rt * SL3_BYTES_PER_FRAME ->
  0 <= offset ->
  (Z.to_nat offset + Z.to_nat bytes <= length dst)%nat ->
  ring_to_urb rt area hwptr dst offset bytes
  = take (Z.to_nat offset) dst
    ++ take (Z.to_nat bytes)
         (drop (Z.to_nat (hwptr * SL3_BYTES_PER_FRAME)) (area ++ area))
    ++ drop (Z.to_nat (offset + bytes)) dst.
Proof.
  unfold SL3_BYTES_PER_FRAME.
  intros Hfb Hbs Hsmall Hlen Hptr Hbytes Hoff Hfit.
  unfold ring_to_urb, snd_pcm_lib_buffer_bytes, SL3_BYTES_PER_FRAME.
  rewrite Hfb.
  replace (buffer_size rt * 144 / 8) with (buffer_size rt * 18)
    by (replace (buffer_size rt * 144) with (buffer_size rt * 18 * 8) by lia;
        symmetry; apply Z.div_mul; lia).
  set (R := buffer_size rt * 18) in *.
  set (hb := hwptr * 18).
  assert (Hhb : 0 <= hb < R) by (subst hb R; lia).
  rewrite (u32_small R), (u32_small hb), (u32_small (hb + bytes)) by lia.
  assert (Hd : length (drop (Z.to_nat hb) area) = Z.to_nat (R - hb))
    by (rewrite length_drop, Hlen; lia).
  destruct (hb + bytes <=? R) eqn:E.
  - apply Z.leb_le in E. unfold memcpy.
    rewrite read_bytes_inside by lia.
    unfold write_at. rewrite length_take, length_drop.
    rewrite drop_app_le by lia.
    rewrite (take_app_le (drop (Z.to_nat hb) area)) by lia.
    do 2 f_equal. f_equal. lia.
  - apply Z.leb_gt in E.
    rewrite (u32_small (R - hb)), (u32_small (bytes - (R - hb))) by lia.
    unfold memcpy.
    assert (Ha : read_bytes area (Z.to_nat hb) (Z.to_nat (R - hb))
                 = drop (Z.to_nat hb) area).
    { rewrite read_bytes_inside by lia. apply take_ge. lia. }
    assert (Hb : read_bytes area 0 (Z.to_nat (bytes - (R - hb)))
                 = take (Z.to_nat (bytes - (R - hb))) area).
    { rewrite read_bytes_inside by lia. rewrite drop_0. reflexivity. }
    rewrite Ha, Hb.
    replace (Z.to_nat (offset + (R - hb)))
      with (Z.to_nat offset + length (drop (Z.to_nat hb) area))%nat by lia.
    rewrite write_at_compose by lia.
    unfold write_at. rewrite length_app, length_take, Hd.
    rewrite drop_app_le by lia.
    rewrite (take_app_ge (drop (Z.to_nat hb) area)) by lia.
    rewrite Hd.
    replace (Z.to_nat bytes - Z.to_nat (R - hb))%nat
      with (Z.to_nat (bytes - (R - hb))) by lia.
    do 2 f_equal. f_equal. lia.
Qed.

(** A ring of four frames holding the bytes 0..71, read from frame 3 on. *)
Lemma ring_copy_out_witness :
  let rt := {| dma_area := None; buffer_size := 4; period_size := 2;
               frame_bits := 144 |} in
  let area := map (fun n => default x00 (Byte.of_nat n)) (seq 0 72) in
  take 36 (ring_to_urb rt area 3 (repeat xff 40) 0 36)
  = map (fun n => default x00 (Byte.of_nat n)) (seq 54 18 ++ seq 0 18).
Proof.
  cbn zeta.
  rewrite (ring_copy_out
             {| dma_area := None; buffer_size := 4; period_size := 2;
                frame_bits := 144 |}
             (map (fun n => default x00 (Byte.of_nat n)) (seq 0 72))
             (repeat xff 40) 3 0 36
             ltac:(reflexivity) ltac:(reflexivity) ltac:(reflexivity)
             ltac:(reflexivity) ltac:(vm_compute; split; congruence)
             ltac:(vm_compute; split; congruence) ltac:(reflexivity)
             ltac:(vm_compute; lia)).
  vm_compute. reflexivity.
Defined.

(** X21: at 48 kHz every packet carries 6 frames and the packet sizing
    leaves the device, the fractional accumulator included, as it is; a URB
    of eight packets carries 48 frames. *)
Theorem packets_at_48k (n : nat) (d : sl3_device) :
  current_rate d = 48000 ->
  next_samples_calls n d = repeat 6 n
  /\ next_samples_state n d = d
  /\ sumZ (next_samples_calls n d) = 6 * Z.of_nat n.
Proof.
  intros H.
  assert (Hs : forall k x, current_rate x = 48000 -> next_samples_state k x = x).
  { induction k as [|k IH]; intros x Hx; cbn [next_samples_state];
      [reflexivity|].
    rewrite (next_samples_48k x Hx). cbn [state fst snd]. apply IH. exact Hx. }
  assert (Hsum : forall k : nat, sumZ (repeat 6 k) = 6 * Z.of_nat k).
  { induction k as [|k IH]; cbn [repeat sumZ fold_right]; [reflexivity|].
    fold (sumZ (repeat 6 k)). lia. }
  rewrite (next_calls_48k n d H).
  split; [reflexivity|]. split; [apply Hs; exact H | apply Hsum].
Qed.

Lemma packets_at_48k_witness :
  next_samples_calls 8 probed_dev = [6; 6; 6; 6; 6; 6; 6; 6]
  /\ sumZ (next_samples_calls 8 probed_dev) = 48.
Proof.
  destruct (packets_at_48k 8 probed_dev ltac:(reflexivity)) as (H1 & _ & H3).
  split; [exact H1 | exact H3].
Defined.
